(** * Felaco site builder backend: entity helpers and collection lifecycle

    A shallow embedding of the TypeScript backend under
    [felaco-mvp/backend/src]: the [AICredits] and [Payment] entity helpers,
    the slug generator shared by the site and page controllers, and the
    page / section controllers running against a relational store.

    Conventions.
    - Integer columns ([credits], [usedCredits], [order]) are [Z].
    - The [decimal(10,2)] columns of [Payment] are counted in hundredths,
      the scale of the column. [amount], which [processRefund] compares
      with its argument, is a [Decimal]: the number assigned in memory, or
      the string the postgres driver hands back for the column on a
      payment loaded from the database. [refundAmount], which is only
      written, is the number written.
    - Instants ([Date]) are [Z] (milliseconds); the clock reading used by
      [new Date()] is an argument of the operation.
    - JSON blobs ([metadata], [seo], [settings]) are [gmap string string];
      the object spread [{...a, ...b}] is the union [b ∪ a], in which the
      keys of [b] win.
    - Strings are [string]; a character is one code unit in the range
      0..255, so texts are taken in Latin-1. [toLowerCase] and the
      character classes of [generateSlug] are those of JavaScript on that
      range; beyond it two more characters (U+0130 and U+212A) lower-case
      to a letter of the slug alphabet. *)

From Stdlib Require Import ZArith List Bool Ascii String Lia Permutation.
From stdpp Require Import base option list gmap strings pretty.

Local Open Scope Z_scope.

(** Instants. *)
Definition Time := Z.

(** JSON objects with string keys. *)
Abbreviation Blob := (gmap string string).

(** [{...a, ...b}] where [a] may be [undefined]. *)
Definition spread (a : option Blob) (b : Blob) : Blob := b ∪ default ∅ a.

(** An optional string is truthy when it is present and not empty. *)
Definition truthy (s : option string) : bool :=
  match s with
  | Some (String _ _) => true
  | _ => false
  end.

(** [s || dflt] on an optional string. *)
Definition or_string (s : option string) (dflt : string) : string :=
  match s with
  | Some (String c r) => String c r
  | _ => dflt
  end.

(* ===================================================================== *)
(** ** entity/AICredits.ts *)
(* ===================================================================== *)

Module AICredits.

Inductive ResetFrequency := daily | weekly | monthly | yearly | never.

Record t := mk {
  credits : Z;
  usedCredits : Z;
  lastResetAt : option Time;
  nextResetAt : option Time;
  resetFrequency : option ResetFrequency;
  userId : nat
}.

Definition set_usedCredits (u : Z) (c : t) : t :=
  mk (credits c) u (lastResetAt c) (nextResetAt c) (resetFrequency c) (userId c).

Definition set_credits (n : Z) (c : t) : t :=
  mk n (usedCredits c) (lastResetAt c) (nextResetAt c) (resetFrequency c) (userId c).

(** [hasEnoughCredits(required)]. *)
Definition hasEnoughCredits (required : Z) (c : t) : bool :=
  required <=? credits c - usedCredits c.

(** [useCredits(amount)]: the returned boolean and the ledger afterwards. *)
Definition useCredits (amount : Z) (c : t) : bool * t :=
  if negb (hasEnoughCredits amount c) then (false, c)
  else (true, set_usedCredits (usedCredits c + amount) c).

(** [addCredits(amount)]. *)
Definition addCredits (amount : Z) (c : t) : t :=
  set_credits (credits c + amount) c.

End AICredits.

(* ===================================================================== *)
(** ** entity/Payment.ts *)
(* ===================================================================== *)

Module Payment.

Inductive PaymentStatus := pending | completed | failed | refunded | cancelled.

Inductive PaymentMethod := credit_card | paypal | stripe | bank_transfer | other.

Definition PaymentStatus_eqb (a b : PaymentStatus) : bool :=
  match a, b with
  | pending, pending | completed, completed | failed, failed
  | refunded, refunded | cancelled, cancelled => true
  | _, _ => false
  end.

(** The value of a [decimal(10,2)] column on the entity object, in
    hundredths. The column has no transformer: a payment built in memory
    holds the number that was assigned ([AsNumber]), a payment read back
    from the database holds the string of the driver ([AsString]). *)
Inductive Decimal :=
| AsNumber (hundredths : Z)
| AsString (hundredths : Z).

(** The number a decimal stands for; [amount > this.amount] converts a
    string operand to it. *)
Definition value (x : Decimal) : Z :=
  match x with AsNumber v | AsString v => v end.
Coercion value : Decimal >-> Z.

(** [amount === x] for a number [amount]: strict equality does not
    convert, a number never equals a string. *)
Definition strict_eq (amt : Z) (x : Decimal) : bool :=
  match x with
  | AsNumber v => amt =? v
  | AsString _ => false
  end.

Record t := mk {
  amount : Decimal;
  currency : string;
  status : PaymentStatus;
  paymentMethod : PaymentMethod;
  paymentType : string;
  description : option string;
  metadata : option Blob;
  paidAt : option Time;
  refundedAt : option Time;
  refundAmount : option Z;
  userId : nat
}.

(** What a helper call does: returns normally, or throws [Error(msg)]. *)
Inductive outcome := Returned | Thrown (msg : string).

(** [markAsPaid(metadata = {})], [now] being the reading of [new Date()]. *)
Definition markAsPaid (now : Time) (md : option Blob) (p : t) : t :=
  mk (amount p) (currency p) completed (paymentMethod p) (paymentType p)
     (description p)
     (Some (spread (metadata p) (default ∅ md)))
     (Some now) (refundedAt p) (refundAmount p) (userId p).

Section Refund.
(** [Date.prototype.toISOString]. *)
Variable toISOString : Time -> string.

(** [processRefund(amount, reason?, metadata = {})]: the outcome and the
    payment object afterwards. *)
Definition processRefund (now : Time) (amt : Z) (reason : option string)
    (md : option Blob) (p : t) : outcome * t :=
  if negb (PaymentStatus_eqb (status p) completed) then
    (Thrown "Only completed payments can be refunded", p)
  else if (amt <=? 0) || (value (amount p) <? amt) then
    (Thrown "Invalid refund amount", p)
  else
    let st := if strict_eq amt (amount p) then refunded else completed in
    let md' :=
      if truthy reason then
        Some (<["refundedAt" := toISOString now]>
                (<["refundReason" := default EmptyString reason]>
                   (spread (metadata p) (default ∅ md))))
      else metadata p in
    (Returned,
     mk (amount p) (currency p) st (paymentMethod p) (paymentType p)
        (description p) md' (paidAt p) (Some now) (Some amt) (userId p)).
End Refund.

End Payment.

(* ===================================================================== *)
(** ** generateSlug (page.controller.ts and site.controller.ts, identical) *)
(* ===================================================================== *)

Module Slug.

Local Open Scope nat_scope.

Definition code (c : ascii) : nat := nat_of_ascii c.

Definition between (lo hi : nat) (c : ascii) : bool :=
  (lo <=? code c) && (code c <=? hi).

Definition is_lower (c : ascii) : bool := between 97 122 c.
Definition is_upper (c : ascii) : bool := between 65 90 c.
Definition is_digit (c : ascii) : bool := between 48 57 c.
Definition is_hyphen (c : ascii) : bool := code c =? 45.
Definition is_underscore (c : ascii) : bool := code c =? 95.

(** The class [\s] on code units up to 255: TAB, LF, VT, FF, CR, space
    and the no-break space. *)
Definition is_space (c : ascii) : bool :=
  between 9 13 c || (code c =? 32) || (code c =? 160).

(** The class [\w], which is [[A-Za-z0-9_]]. *)
Definition is_word (c : ascii) : bool :=
  is_lower c || is_upper c || is_digit c || is_underscore c.

(** The alphabet [[a-z0-9-]] that the entities require of a slug
    ([@Matches(/^[a-z0-9-]+$/)] on [Site.slug] and [Page.slug]). *)
Definition is_slug_char (c : ascii) : bool :=
  is_lower c || is_digit c || is_hyphen c.

(** [toLowerCase] on one code unit: A-Z, and the Latin-1 capitals
    0xC0-0xDE other than the multiplication sign 0xD7. *)
Definition lower_char (c : ascii) : ascii :=
  if is_upper c || (between 192 222 c && negb (code c =? 215))
  then ascii_of_nat (code c + 32) else c.

Fixpoint toLowerCase (s : string) : string :=
  match s with
  | EmptyString => EmptyString
  | String c r => String (lower_char c) (toLowerCase r)
  end.

(** [.replace(/\s+/g, '-')]: every maximal run of white space becomes one
    hyphen. [in_run] tells that the previous character was white space. *)
Fixpoint replace_spaces (in_run : bool) (s : string) : string :=
  match s with
  | EmptyString => EmptyString
  | String c r =>
      if is_space c then
        if in_run then replace_spaces true r
        else String "-" (replace_spaces true r)
      else String c (replace_spaces false r)
  end.

(** [.replace(/[^\w\-]+/g, '')]: drop what is neither a word character
    nor a hyphen. *)
Fixpoint strip_non_word (s : string) : string :=
  match s with
  | EmptyString => EmptyString
  | String c r =>
      if is_word c || is_hyphen c then String c (strip_non_word r)
      else strip_non_word r
  end.

(** [.replace(/\-\-+/g, '-')]: a run of two or more hyphens becomes one
    hyphen (a single hyphen stays). *)
Fixpoint collapse_hyphens (in_run : bool) (s : string) : string :=
  match s with
  | EmptyString => EmptyString
  | String c r =>
      if is_hyphen c then
        if in_run then collapse_hyphens true r
        else String c (collapse_hyphens true r)
      else String c (collapse_hyphens false r)
  end.

(** [.replace(/^-+/, '')]. *)
Fixpoint trim_start (s : string) : string :=
  match s with
  | EmptyString => EmptyString
  | String c r => if is_hyphen c then trim_start r else s
  end.

(** [.replace(/-+$/, '')]. *)
Fixpoint trim_end (s : string) : string :=
  match s with
  | EmptyString => EmptyString
  | String c r =>
      match trim_end r with
      | EmptyString => if is_hyphen c then EmptyString else String c EmptyString
      | r' => String c r'
      end
  end.

Definition generateSlug (text : string) : string :=
  trim_end
    (trim_start
       (collapse_hyphens false
          (strip_non_word
             (replace_spaces false
                (toLowerCase text))))).

(** [Math.random().toString(36)] is the text [0.] followed by digits in
    base 36 (or the text [0] alone). The controllers receive it as [rnd]. *)
Definition is_base36 (c : ascii) : bool := is_digit c || is_lower c.

(** [rnd.substring(2, 6)] and [rnd.substring(2, 8)]. *)
Definition suffix4 (rnd : string) : string := substring 2 4 rnd.
Definition suffix6 (rnd : string) : string := substring 2 6 rnd.

(** The template literal [`${slug}-${suffix}`]. *)
Definition with_suffix (slug suffix : string) : string :=
  (slug ++ "-" ++ suffix)%string.

End Slug.

(* ===================================================================== *)
(** ** Entities of the page tree *)
(* ===================================================================== *)

(** The rows of [Site], [Page] and [PageSection]: the columns the
    controllers read or write, with the join column of a relation as the
    id of the related row ([owner], [siteId], [pageId]). [deletedAt] is
    the removal stamp the queries of a repository look at; the entities
    declare no [@DeleteDateColumn], so it is [None] on every row a
    handler builds and no handler sets it. *)

Module User.
(** [user.plan], read by the controllers as [user.plan?.maxX || default]. *)
Record Plan := mkPlan {
  maxSites : option nat;
  maxPagesPerSite : option nat;
  maxSectionsPerPage : option nat
}.

Record t := mk { id : nat; plan : option Plan }.

(** [user.plan?.field || dflt]: a missing plan, a missing field and 0 all
    give the default. *)
Definition limit (field : Plan -> option nat) (dflt : nat) (u : t) : nat :=
  match plan u with
  | Some pl => match field pl with
               | Some (S n) => S n
               | _ => dflt
               end
  | None => dflt
  end.
End User.

Module Site.
Inductive SiteStatus := draft | published | archived.
Inductive SiteTemplate := business | portfolio | ecommerce | blog | landing | custom.

Record t := mk {
  id : nat;
  name : string;
  slug : string;
  description : option string;
  status : SiteStatus;
  template : SiteTemplate;
  primaryColor : option string;
  secondaryColor : option string;
  fontFamily : option string;
  seo : Blob;
  customCode : Blob;
  owner : nat;
  deletedAt : option Time
}.

Definition set_id v s := mk v (name s) (slug s) (description s) (status s) (template s)
  (primaryColor s) (secondaryColor s) (fontFamily s) (seo s) (customCode s) (owner s) (deletedAt s).
Definition set_name v s := mk (id s) v (slug s) (description s) (status s) (template s)
  (primaryColor s) (secondaryColor s) (fontFamily s) (seo s) (customCode s) (owner s) (deletedAt s).
Definition set_slug v s := mk (id s) (name s) v (description s) (status s) (template s)
  (primaryColor s) (secondaryColor s) (fontFamily s) (seo s) (customCode s) (owner s) (deletedAt s).
Definition set_description v s := mk (id s) (name s) (slug s) v (status s) (template s)
  (primaryColor s) (secondaryColor s) (fontFamily s) (seo s) (customCode s) (owner s) (deletedAt s).
Definition set_status v s := mk (id s) (name s) (slug s) (description s) v (template s)
  (primaryColor s) (secondaryColor s) (fontFamily s) (seo s) (customCode s) (owner s) (deletedAt s).
Definition set_template v s := mk (id s) (name s) (slug s) (description s) (status s) v
  (primaryColor s) (secondaryColor s) (fontFamily s) (seo s) (customCode s) (owner s) (deletedAt s).
Definition set_primaryColor v s := mk (id s) (name s) (slug s) (description s) (status s) (template s)
  v (secondaryColor s) (fontFamily s) (seo s) (customCode s) (owner s) (deletedAt s).
Definition set_secondaryColor v s := mk (id s) (name s) (slug s) (description s) (status s) (template s)
  (primaryColor s) v (fontFamily s) (seo s) (customCode s) (owner s) (deletedAt s).
Definition set_fontFamily v s := mk (id s) (name s) (slug s) (description s) (status s) (template s)
  (primaryColor s) (secondaryColor s) v (seo s) (customCode s) (owner s) (deletedAt s).
Definition set_seo v s := mk (id s) (name s) (slug s) (description s) (status s) (template s)
  (primaryColor s) (secondaryColor s) (fontFamily s) v (customCode s) (owner s) (deletedAt s).
Definition set_customCode v s := mk (id s) (name s) (slug s) (description s) (status s) (template s)
  (primaryColor s) (secondaryColor s) (fontFamily s) (seo s) v (owner s) (deletedAt s).
End Site.

Module Page.
Inductive PageStatus := draft | published | archived.
Inductive PageType := page | home | about | contact | blog | custom.

Record t := mk {
  id : nat;
  title : string;
  slug : string;
  description : option string;
  content : option string;
  status : PageStatus;
  pageType : PageType;
  isHomepage : bool;
  order : Z;
  seo : Blob;
  settings : Blob;
  siteId : nat;
  deletedAt : option Time
}.

Definition set_id v p := mk v (title p) (slug p) (description p) (content p) (status p)
  (pageType p) (isHomepage p) (order p) (seo p) (settings p) (siteId p) (deletedAt p).
Definition set_title v p := mk (id p) v (slug p) (description p) (content p) (status p)
  (pageType p) (isHomepage p) (order p) (seo p) (settings p) (siteId p) (deletedAt p).
Definition set_slug v p := mk (id p) (title p) v (description p) (content p) (status p)
  (pageType p) (isHomepage p) (order p) (seo p) (settings p) (siteId p) (deletedAt p).
Definition set_description v p := mk (id p) (title p) (slug p) v (content p) (status p)
  (pageType p) (isHomepage p) (order p) (seo p) (settings p) (siteId p) (deletedAt p).
Definition set_content v p := mk (id p) (title p) (slug p) (description p) v (status p)
  (pageType p) (isHomepage p) (order p) (seo p) (settings p) (siteId p) (deletedAt p).
Definition set_status v p := mk (id p) (title p) (slug p) (description p) (content p) v
  (pageType p) (isHomepage p) (order p) (seo p) (settings p) (siteId p) (deletedAt p).
Definition set_pageType v p := mk (id p) (title p) (slug p) (description p) (content p) (status p)
  v (isHomepage p) (order p) (seo p) (settings p) (siteId p) (deletedAt p).
Definition set_isHomepage v p := mk (id p) (title p) (slug p) (description p) (content p) (status p)
  (pageType p) v (order p) (seo p) (settings p) (siteId p) (deletedAt p).
Definition set_order v p := mk (id p) (title p) (slug p) (description p) (content p) (status p)
  (pageType p) (isHomepage p) v (seo p) (settings p) (siteId p) (deletedAt p).
Definition set_seo v p := mk (id p) (title p) (slug p) (description p) (content p) (status p)
  (pageType p) (isHomepage p) (order p) v (settings p) (siteId p) (deletedAt p).
Definition set_settings v p := mk (id p) (title p) (slug p) (description p) (content p) (status p)
  (pageType p) (isHomepage p) (order p) (seo p) v (siteId p) (deletedAt p).
End Page.

Module PageSection.
Inductive SectionType :=
  hero | features | testimonials | cta | pricing | team | contact | content_
| gallery | custom.

Record t := mk {
  id : nat;
  title : string;
  type : SectionType;
  content : Blob;
  settings : Blob;
  order : Z;
  isActive : bool;
  pageId : nat;
  deletedAt : option Time
}.

Definition set_id v s := mk v (title s) (type s) (content s) (settings s) (order s)
  (isActive s) (pageId s) (deletedAt s).
Definition set_order v s := mk (id s) (title s) (type s) (content s) (settings s) v
  (isActive s) (pageId s) (deletedAt s).
End PageSection.

(* ===================================================================== *)
(** ** The persistence interface and the request monad *)
(* ===================================================================== *)

Module Http.
(** What a handler can end with. The first three are the errors the
    controllers throw themselves. [TypeError] is what reading a property
    of a relation that did not load raises. The last two come from the
    persistence layer: [QueryFailedError] carries the code and the detail
    of the database error (code 23505: a unique index refused the row),
    [MissingDeleteDateColumnError] is thrown by [softRemove] on an entity
    that declares no delete date column. *)
Inductive HttpError :=
| NotFoundError (msg : string)
| BadRequestError (msg : string)
| ForbiddenError (msg : string)
| TypeError (msg : string)
| QueryFailedError (code : string) (detail : string)
| MissingDeleteDateColumnError (entity : string).

Inductive Result (A : Type) :=
| Ok (a : A)
| Err (e : HttpError).
Arguments Ok {A} a.
Arguments Err {A} e.

Definition is_ok {A} (r : Result A) : bool :=
  match r with Ok _ => true | Err _ => false end.
End Http.
Export Http.

(** Tables hold their rows in storage order. The repository operations are
    those the controllers call on a TypeORM repository:
    - [find], [findOne] and [count] skip rows that carry a removal stamp;
      [findOne] without an [order] clause yields the first match in
      storage order;
    - [update(criteria, partial)] rewrites every row matching the criteria;
    - [save] of a loaded entity rewrites the row with its id, [save] of a
      new entity appends a row under a fresh id, unless a unique index
      refuses it;
    - [softRemove] throws: [Site], [Page] and [PageSection] declare no
      [@DeleteDateColumn], so nothing ever writes a removal stamp.
    There is no transaction: what was written before a [throw] stays.
    Of the column options of the entity decorators, [unique] (on
    [Site.slug] and [Page.slug]) is enforced on insertion; [length] and
    [nullable] are not interpreted. *)
Module Repo.
Section Repository.
Context {R : Type}.
Variable rid : R -> nat.
Variable removedAt : R -> option Time.

Definition live (r : R) : bool :=
  match removedAt r with None => true | Some _ => false end.

Definition find (where_ : R -> bool) (tbl : list R) : list R :=
  List.filter (fun r => live r && where_ r) tbl.

Definition findOne (where_ : R -> bool) (tbl : list R) : option R :=
  List.find (fun r => live r && where_ r) tbl.

Definition count (where_ : R -> bool) (tbl : list R) : nat :=
  length (find where_ tbl).

Definition update (criteria : R -> bool) (partial : R -> R) (tbl : list R) : list R :=
  List.map (fun r => if criteria r then partial r else r) tbl.

Definition save (r : R) (tbl : list R) : list R :=
  List.map (fun q => if Nat.eqb (rid q) (rid r) then r else q) tbl.

(** A condition on a relation, [{ site }] or [{ owner: user }], given
    the related entity: the join column is compared with the entity's id. *)
Definition by_entity (joinColumn : R -> nat) (id : nat) (r : R) : bool :=
  Nat.eqb (joinColumn r) id.

(** A condition on a relation given the bare id, [{ site: site.id }] or
    [{ page: page.id }]. [Page] and [PageSection] map their join column
    twice, as the relation and as the plain column [siteId] / [pageId];
    the query builder takes the value to compare with from that plain
    property of what it was given, which an id string does not have, and
    the comparison with the missing value holds for no row. *)
Definition by_id_string (joinColumn : R -> nat) (id : nat) (r : R) : bool :=
  false.

(** [ids.map((id, index) => repository.update(id, { order: index }))],
    the loop both reorder handlers end with. *)
Variable set_order : Z -> R -> R.

Fixpoint writeOrders (ids : list nat) (index : nat) (tbl : list R) : list R :=
  match ids with
  | [] => tbl
  | id :: rest =>
      writeOrders rest (S index)
        (update (fun r => Nat.eqb (rid r) id) (set_order (Z.of_nat index)) tbl)
  end.
End Repository.
End Repo.

Module Store.
Record DB := mkDB {
  sites : list Site.t;
  pages : list Page.t;
  sections : list PageSection.t;
  nextId : nat
}.

Definition empty : DB := mkDB [] [] [] 1%nat.

Definition set_sites v d := mkDB v (pages d) (sections d) (nextId d).
Definition set_pages v d := mkDB (sites d) v (sections d) (nextId d).
Definition set_sections v d := mkDB (sites d) (pages d) v (nextId d).

(** A request handler: reads and writes the store, returns or throws. *)
Definition M (A : Type) : Type := DB -> Result A * DB.

#[export] Instance M_ret : MRet M := fun A a d => (Ok a, d).
#[export] Instance M_bind : MBind M := fun A B f m d =>
  match m d with
  | (Ok a, d') => f a d'
  | (Err e, d') => (Err e, d')
  end.

Definition throw {A} (e : HttpError) : M A := fun d => (Err e, d).
Definition gets {A} (f : DB -> A) : M A := fun d => (Ok (f d), d).
Definition modify (f : DB -> DB) : M unit := fun d => (Ok tt, f d).

(** The state a handler leaves behind, and what it answered. *)
Definition exec {A} (m : M A) (d : DB) : DB := snd (m d).
Definition answer {A} (m : M A) (d : DB) : Result A := fst (m d).
End Store.
Export Store.

Definition siteLive := Repo.live Site.deletedAt.
Definition pageLive := Repo.live Page.deletedAt.
Definition sectionLive := Repo.live PageSection.deletedAt.

(** The database error for a row whose [slug] a row of the table has. *)
Definition uniqueViolation (slug : string) : HttpError :=
  QueryFailedError "23505" ("Key (slug)=(" ++ slug ++ ") already exists.").

(** [save(entity)] for an entity without id: the store assigns the next
    id. [Site.slug] and [Page.slug] are [@Column({ unique: true })]: the
    insertion of a slug the table holds fails and writes nothing. *)
Definition insertSite (s : Site.t) : M Site.t := fun d =>
  if existsb (fun q => String.eqb (Site.slug q) (Site.slug s)) (sites d)
  then (Err (uniqueViolation (Site.slug s)), d)
  else
    let s' := Site.set_id (nextId d) s in
    (Ok s', mkDB (sites d ++ [s']) (pages d) (sections d) (S (nextId d))).

Definition insertPage (p : Page.t) : M Page.t := fun d =>
  if existsb (fun q => String.eqb (Page.slug q) (Page.slug p)) (pages d)
  then (Err (uniqueViolation (Page.slug p)), d)
  else
    let p' := Page.set_id (nextId d) p in
    (Ok p', mkDB (sites d) (pages d ++ [p']) (sections d) (S (nextId d))).

Definition insertSection (s : PageSection.t) : M PageSection.t := fun d =>
  let s' := PageSection.set_id (nextId d) s in
  (Ok s', mkDB (sites d) (pages d) (sections d ++ [s']) (S (nextId d))).

(** [repository.softRemove(entity)]: the entity has no delete date
    column. *)
Definition softRemove (entity : string) : M unit :=
  throw (MissingDeleteDateColumnError entity).

(** [if (cond) throw e]. *)
Definition throw_if (cond : bool) (e : HttpError) : M unit :=
  if cond then throw e else mret tt.

(** [page.site.id] and [section.page] on an entity loaded with its
    relations: the joined row, whatever its removal stamp. *)
Definition page_site_id (p : Page.t) : M nat :=
  s ← gets (fun d => List.find (fun s => Nat.eqb (Site.id s) (Page.siteId p)) (sites d));
  match s with
  | Some s => mret (Site.id s)
  | None => throw (TypeError "Cannot read properties of null (reading 'id')")
  end.

Definition section_page (s : PageSection.t) : M Page.t :=
  p ← gets (fun d => List.find (fun p => Nat.eqb (Page.id p) (PageSection.pageId s)) (pages d));
  match p with
  | Some p => mret p
  | None => throw (TypeError "Cannot read properties of null (reading 'site')")
  end.

(** [siteRepository.findOne({ where: { id, owner: user } })]. *)
Definition findOwnedSite (id : nat) (user : User.t) : M (option Site.t) :=
  gets (fun d => Repo.findOne Site.deletedAt
                   (fun s => Nat.eqb (Site.id s) id && Nat.eqb (Site.owner s) (User.id user))
                   (sites d)).

(** [pageRepository.findOne({ where: { id } })]. *)
Definition findPage (id : nat) : M (option Page.t) :=
  gets (fun d => Repo.findOne Page.deletedAt (fun p => Nat.eqb (Page.id p) id) (pages d)).

(** [sectionRepository.findOne({ where: { id } })]. *)
Definition findSection (id : nat) : M (option PageSection.t) :=
  gets (fun d => Repo.findOne PageSection.deletedAt
                   (fun s => Nat.eqb (PageSection.id s) id) (sections d)).

(** [pageRepository.count({ site })], given the site entity. *)
Definition countPages (siteId : nat) (d : DB) : nat :=
  Repo.count Page.deletedAt (Repo.by_entity Page.siteId siteId) (pages d).

(** [pageRepository.count({ site: site.id })], given the id. *)
Definition countPagesById (siteId : nat) (d : DB) : nat :=
  Repo.count Page.deletedAt (Repo.by_id_string Page.siteId siteId) (pages d).

(** [sectionRepository.count({ page: page.id })], given the id. *)
Definition countSections (pageId : nat) (d : DB) : nat :=
  Repo.count PageSection.deletedAt
    (Repo.by_id_string PageSection.pageId pageId) (sections d).

(* ===================================================================== *)
(** ** controllers/site.controller.ts *)
(* ===================================================================== *)

Module SiteController.

Record CreateSiteDto := mkCreate {
  c_name : string;
  c_description : option string;
  c_template : option Site.SiteTemplate
}.

Record UpdateSiteDto := mkUpdate {
  u_name : option string;
  u_description : option string;
  u_status : option Site.SiteStatus;
  u_template : option Site.SiteTemplate;
  u_primaryColor : option string;
  u_secondaryColor : option string;
  u_fontFamily : option string;
  u_seo : option Blob;
  u_customCode : option Blob
}.

(** [validate(createSiteDto)] reports no error. *)
Definition validate (dto : CreateSiteDto) : bool :=
  negb (String.eqb (c_name dto) "")
  && (String.length (c_name dto) <=? 100)%nat
  && (String.length (default EmptyString (c_description dto)) <=? 500)%nat.

(** [siteRepository.findOne({ where: { slug } })], optionally with
    [id: Not(id)]. *)
Definition slugTaken (slug : string) (except : option nat) (d : DB) : bool :=
  bool_decide (is_Some
    (Repo.findOne Site.deletedAt
       (fun s => String.eqb (Site.slug s) slug
                 && match except with
                    | Some id => negb (Nat.eqb (Site.id s) id)
                    | None => true
                    end)
       (sites d))).

Definition createSite (dto : CreateSiteDto) (user : User.t) (rnd : string) : M Site.t :=
  throw_if (negb (validate dto)) (BadRequestError "Validation failed");;
  userSiteCount ← gets (fun d =>
    Repo.count Site.deletedAt (fun s => Nat.eqb (Site.owner s) (User.id user)) (sites d));
  let maxSites := User.limit User.maxSites 10 user in
  throw_if (maxSites <=? userSiteCount)%nat
    (ForbiddenError ("You have reached the maximum number of sites ("
                       ++ pretty maxSites ++ ") for your plan"));;
  let slug := Slug.generateSlug (c_name dto) in
  slugExists ← gets (slugTaken slug None);
  let slug := if (slugExists : bool) then Slug.with_suffix slug (Slug.suffix6 rnd) else slug in
  site ← insertSite
    (Site.mk 0 (c_name dto) slug (Some (or_string (c_description dto) ""))
       Site.draft (default Site.business (c_template dto))
       None None None ∅ ∅ (User.id user) None);
  insertPage
    (Page.mk 0 "Home" "home" None None Page.draft Page.home true 0 ∅ ∅
       (Site.id site) None);;
  mret site.

Definition updateSite (id : nat) (dto : UpdateSiteDto) (user : User.t)
    (rnd : string) : M Site.t :=
  found ← findOwnedSite id user;
  match found with
  | None => throw (NotFoundError "Site not found")
  | Some site =>
      site ← match u_name dto with
             | Some name =>
                 let site := Site.set_name name site in
                 if negb (String.eqb name (Site.name site)) then
                   let site := Site.set_slug (Slug.generateSlug name) site in
                   slugExists ← gets (slugTaken (Site.slug site) (Some id));
                   mret (if (slugExists : bool)
                         then Site.set_slug
                                (Slug.with_suffix (Site.slug site) (Slug.suffix6 rnd)) site
                         else site)
                 else mret site
             | None => mret site
             end;
      let site := match u_description dto with
                  | Some v => Site.set_description (Some v) site
                  | None => site
                  end in
      let site := match u_status dto with
                  | Some v => Site.set_status v site
                  | None => site
                  end in
      let site := match u_template dto with
                  | Some v => Site.set_template v site
                  | None => site
                  end in
      let site := if truthy (u_primaryColor dto)
                  then Site.set_primaryColor (u_primaryColor dto) site else site in
      let site := if truthy (u_secondaryColor dto)
                  then Site.set_secondaryColor (u_secondaryColor dto) site else site in
      let site := if truthy (u_fontFamily dto)
                  then Site.set_fontFamily (u_fontFamily dto) site else site in
      let site := match u_seo dto with
                  | Some v => Site.set_seo (spread (Some (Site.seo site)) v) site
                  | None => site
                  end in
      let site := match u_customCode dto with
                  | Some v => Site.set_customCode (spread (Some (Site.customCode site)) v) site
                  | None => site
                  end in
      modify (fun d => set_sites (Repo.save Site.id site (sites d)) d);;
      mret site
  end.

Definition deleteSite (id : nat) (user : User.t) : M unit :=
  found ← findOwnedSite id user;
  match found with
  | None => throw (NotFoundError "Site not found")
  | Some site => softRemove "Site"
  end.

End SiteController.

(* ===================================================================== *)
(** ** controllers/page.controller.ts *)
(* ===================================================================== *)

Module PageController.

Record CreatePageDto := mkCreate {
  c_title : string;
  c_description : option string;
  c_content : option string;
  c_pageType : option Page.PageType;
  c_isHomepage : option bool;
  c_order : option Z;
  c_siteId : nat
}.

Record UpdatePageDto := mkUpdate {
  u_title : option string;
  u_description : option string;
  u_content : option string;
  u_status : option Page.PageStatus;
  u_pageType : option Page.PageType;
  u_isHomepage : option bool;
  u_order : option Z;
  u_seo : option Blob;
  u_settings : option Blob
}.

(** [validate(createPageDto)] reports no error. *)
Definition validate (dto : CreatePageDto) : bool :=
  negb (String.eqb (c_title dto) "")
  && (String.length (c_title dto) <=? 200)%nat
  && (String.length (default EmptyString (c_description dto)) <=? 500)%nat
  && (Z.of_nat (String.length (default EmptyString (c_content dto))) <=? 10000)
  && (0 <=? default 0 (c_order dto)).

(** [pageRepository.findOne({ where: { slug, site: site.id } })],
    optionally with [id: Not(id)]. *)
Definition slugTaken (slug : string) (siteId : nat) (except : option nat) (d : DB) : bool :=
  bool_decide (is_Some
    (Repo.findOne Page.deletedAt
       (fun p => String.eqb (Page.slug p) slug
                 && Repo.by_id_string Page.siteId siteId p
                 && match except with
                    | Some id => negb (Nat.eqb (Page.id p) id)
                    | None => true
                    end)
       (pages d))).

Definition createPage (dto : CreatePageDto) (user : User.t) (rnd : string) : M Page.t :=
  throw_if (negb (validate dto)) (BadRequestError "Validation failed");;
  found ← findOwnedSite (c_siteId dto) user;
  match found with
  | None => throw (NotFoundError "Site not found or access denied")
  | Some site =>
      pageCount ← gets (countPages (Site.id site));
      let maxPages := User.limit User.maxPagesPerSite 50 user in
      throw_if (maxPages <=? pageCount)%nat
        (ForbiddenError ("You have reached the maximum number of pages ("
                           ++ pretty maxPages ++ ") for this site"));;
      let isHomepage := default false (c_isHomepage dto) in
      let slug := Slug.generateSlug (c_title dto) in
      slugExists ← gets (slugTaken slug (Site.id site) None);
      let slug := if (slugExists : bool)
                  then Slug.with_suffix slug (Slug.suffix4 rnd) else slug in
      (if isHomepage then
         modify (fun d => set_pages
           (Repo.update
              (fun p => Repo.by_id_string Page.siteId (Site.id site) p
                        && Page.isHomepage p)
              (Page.set_isHomepage false) (pages d)) d)
       else mret tt);;
      insertPage
        (Page.mk 0 (c_title dto) slug
           (Some (or_string (c_description dto) ""))
           (Some (or_string (c_content dto) ""))
           Page.draft (default Page.page (c_pageType dto)) isHomepage
           (default 0 (c_order dto)) ∅ ∅ (Site.id site) None)
  end.

Definition updatePage (id : nat) (dto : UpdatePageDto) (user : User.t)
    (rnd : string) : M Page.t :=
  found ← findPage id;
  match found with
  | None => throw (NotFoundError "Page not found")
  | Some page =>
      siteId ← page_site_id page;
      owned ← findOwnedSite siteId user;
      match owned with
      | None => throw (ForbiddenError "You do not have permission to update this page")
      | Some site =>
          page ← match u_title dto with
                 | Some title =>
                     let page := Page.set_title title page in
                     if negb (String.eqb title (Page.title page)) then
                       let page := Page.set_slug (Slug.generateSlug title) page in
                       slugExists ← gets (slugTaken (Page.slug page) (Site.id site) (Some id));
                       mret (if (slugExists : bool)
                             then Page.set_slug
                                    (Slug.with_suffix (Page.slug page) (Slug.suffix4 rnd)) page
                             else page)
                     else mret page
                 | None => mret page
                 end;
          let page := match u_description dto with
                      | Some v => Page.set_description (Some v) page
                      | None => page
                      end in
          let page := match u_content dto with
                      | Some v => Page.set_content (Some v) page
                      | None => page
                      end in
          let page := match u_status dto with
                      | Some v => Page.set_status v page
                      | None => page
                      end in
          let page := match u_pageType dto with
                      | Some v => Page.set_pageType v page
                      | None => page
                      end in
          page ← match u_isHomepage dto with
                 | Some flag =>
                     (if flag then
                        modify (fun d => set_pages
                          (Repo.update
                             (fun p => Repo.by_id_string Page.siteId (Site.id site) p
                                       && Page.isHomepage p
                                       && negb (Nat.eqb (Page.id p) id))
                             (Page.set_isHomepage false) (pages d)) d)
                      else mret tt);;
                     mret (Page.set_isHomepage flag page)
                 | None => mret page
                 end;
          let page := match u_order dto with
                      | Some v => Page.set_order v page
                      | None => page
                      end in
          let page := match u_seo dto with
                      | Some v => Page.set_seo (spread (Some (Page.seo page)) v) page
                      | None => page
                      end in
          let page := match u_settings dto with
                      | Some v => Page.set_settings (spread (Some (Page.settings page)) v) page
                      | None => page
                      end in
          modify (fun d => set_pages (Repo.save Page.id page (pages d)) d);;
          mret page
      end
  end.

(** The loop that checks the requester's access to every page found. *)
Fixpoint checkAccess (user : User.t) (found : list Page.t) : M unit :=
  match found with
  | [] => mret tt
  | page :: rest =>
      siteId ← page_site_id page;
      owned ← findOwnedSite siteId user;
      match owned with
      | None => throw (ForbiddenError ("You do not have permission to reorder page "
                                         ++ pretty (Page.id page)))
      | Some _ => checkAccess user rest
      end
  end.

(** [pageIds.map((pageId, index) => update(pageId, { order: index }))]. *)
Definition writeOrders : list nat -> nat -> list Page.t -> list Page.t :=
  Repo.writeOrders Page.id Page.set_order.

Definition reorderPages (pageIds : option (list nat)) (user : User.t) : M bool :=
  let ids := default [] pageIds in
  throw_if (Nat.eqb (length ids) 0) (BadRequestError "No page IDs provided");;
  found ← gets (fun d =>
    Repo.find Page.deletedAt (fun p => existsb (Nat.eqb (Page.id p)) ids) (pages d));
  throw_if (negb (Nat.eqb (length found) (length ids)))
    (BadRequestError "One or more pages not found");;
  checkAccess user found;;
  modify (fun d => set_pages (writeOrders ids 0 (pages d)) d);;
  mret true.

Definition deletePage (id : nat) (user : User.t) : M unit :=
  found ← findPage id;
  match found with
  | None => throw (NotFoundError "Page not found")
  | Some page =>
      siteId ← page_site_id page;
      owned ← findOwnedSite siteId user;
      match owned with
      | None => throw (ForbiddenError "You do not have permission to delete this page")
      | Some site =>
          pageCount ← gets (countPagesById (Site.id site));
          throw_if (pageCount <=? 1)%nat
            (BadRequestError "Cannot delete the last page of a site");;
          (if Page.isHomepage page then
             anotherPage ← gets (fun d =>
               Repo.findOne Page.deletedAt
                 (fun p => Repo.by_id_string Page.siteId (Site.id site) p
                           && negb (Nat.eqb (Page.id p) id))
                 (pages d));
             match anotherPage with
             | Some another =>
                 modify (fun d => set_pages
                   (Repo.save Page.id (Page.set_isHomepage true another) (pages d)) d)
             | None => mret tt
             end
           else mret tt);;
          softRemove "Page"
      end
  end.

End PageController.

(* ===================================================================== *)
(** ** controllers/section.controller.ts *)
(* ===================================================================== *)

Module SectionController.

Record CreateSectionDto := mkCreate {
  c_title : string;
  c_type : option PageSection.SectionType;
  c_content : option Blob;
  c_settings : option Blob;
  c_order : Z;
  c_isActive : option bool;
  c_pageId : nat
}.

(** [validate(createSectionDto)] reports no error. *)
Definition validate (dto : CreateSectionDto) : bool :=
  negb (String.eqb (c_title dto) "")
  && (String.length (c_title dto) <=? 200)%nat.

Definition createSection (dto : CreateSectionDto) (user : User.t) : M PageSection.t :=
  throw_if (negb (validate dto)) (BadRequestError "Validation failed");;
  found ← findPage (c_pageId dto);
  match found with
  | None => throw (NotFoundError "Page not found")
  | Some page =>
      siteId ← page_site_id page;
      owned ← findOwnedSite siteId user;
      match owned with
      | None => throw (ForbiddenError
                         "You do not have permission to add sections to this page")
      | Some _ =>
          sectionCount ← gets (countSections (Page.id page));
          let maxSections := User.limit User.maxSectionsPerPage 50 user in
          throw_if (maxSections <=? sectionCount)%nat
            (ForbiddenError ("You have reached the maximum number of sections ("
                               ++ pretty maxSections ++ ") for this page"));;
          insertSection
            (PageSection.mk 0 (c_title dto)
               (default PageSection.content_ (c_type dto))
               (default ∅ (c_content dto)) (default ∅ (c_settings dto))
               (c_order dto) (default true (c_isActive dto)) (Page.id page) None)
      end
  end.

(** [section.page.site.id] followed by the ownership query. *)
Definition sectionSite (s : PageSection.t) (user : User.t) : M (option Site.t) :=
  page ← section_page s;
  siteId ← page_site_id page;
  findOwnedSite siteId user.

Fixpoint checkAccess (user : User.t) (found : list PageSection.t) : M unit :=
  match found with
  | [] => mret tt
  | section :: rest =>
      owned ← sectionSite section user;
      match owned with
      | None => throw (ForbiddenError ("You do not have permission to reorder section "
                                         ++ pretty (PageSection.id section)))
      | Some _ => checkAccess user rest
      end
  end.

(** [sectionIds.map((sectionId, index) => update(sectionId, { order: index }))]. *)
Definition writeOrders : list nat -> nat -> list PageSection.t -> list PageSection.t :=
  Repo.writeOrders PageSection.id PageSection.set_order.

Definition reorderSections (sectionIds : option (list nat)) (user : User.t) : M bool :=
  let ids := default [] sectionIds in
  throw_if (Nat.eqb (length ids) 0) (BadRequestError "No section IDs provided");;
  found ← gets (fun d =>
    Repo.find PageSection.deletedAt
      (fun s => existsb (Nat.eqb (PageSection.id s)) ids) (sections d));
  throw_if (negb (Nat.eqb (length found) (length ids)))
    (BadRequestError "One or more sections not found");;
  checkAccess user found;;
  modify (fun d => set_sections (writeOrders ids 0 (sections d)) d);;
  mret true.

Definition deleteSection (id : nat) (user : User.t) : M unit :=
  found ← findSection id;
  match found with
  | None => throw (NotFoundError "Section not found")
  | Some section =>
      owned ← sectionSite section user;
      match owned with
      | None => throw (ForbiddenError "You do not have permission to delete this section")
      | Some _ =>
          page ← section_page section;
          sectionCount ← gets (countSections (Page.id page));
          throw_if (sectionCount <=? 1)%nat
            (BadRequestError "Cannot delete the last section of a page");;
          softRemove "PageSection"
      end
  end.

End SectionController.

(* ===================================================================== *)
(** ** entity/AICredits.ts: the periodic reset *)
(* ===================================================================== *)

Module CreditsReset.
Import AICredits.

Definition set_lastResetAt (v : option Time) (c : t) : t :=
  mk (credits c) (usedCredits c) v (nextResetAt c) (resetFrequency c) (userId c).

Definition set_nextResetAt (v : option Time) (c : t) : t :=
  mk (credits c) (usedCredits c) (lastResetAt c) v (resetFrequency c) (userId c).

Section Calendar.
(** The calendar steps of [Date], taken in the server's time zone:
    [d.setDate(d.getDate() + k)], [d.setMonth(d.getMonth() + k)] and
    [d.setFullYear(d.getFullYear() + k)] on a copy of [d]. *)
Variable plusDays : Z -> Time -> Time.
Variable plusMonths : Z -> Time -> Time.
Variable plusYears : Z -> Time -> Time.

(** The date [nextReset] the [switch] ends with. *)
Definition nextResetFrom (f : option ResetFrequency) (now : Time) : Time :=
  match f with
  | Some daily => plusDays 1 now
  | Some weekly => plusDays 7 now
  | Some monthly => plusMonths 1 now
  | Some yearly => plusYears 1 now
  | _ => now
  end.

(** [resetCreditsIfNeeded()], with [now] for [new Date()]: the returned
    boolean and the ledger afterwards. *)
Definition resetCreditsIfNeeded (now : Time) (c : t) : bool * t :=
  match resetFrequency c, nextResetAt c with
  | Some never, _ => (false, c)
  | _, None => (false, c)
  | _, Some next =>
      if next <=? now then
        let c := set_lastResetAt (Some now) c in
        let c := set_usedCredits 0 c in
        (true, set_nextResetAt (Some (nextResetFrom (resetFrequency c) now)) c)
      else (false, c)
  end.
End Calendar.
End CreditsReset.

(* ===================================================================== *)
(** ** The handlers that read one row *)
(* ===================================================================== *)

(** The answer is the row found; the relations loaded with it are not part
    of the answer here. *)
Module Reads.

(** [SiteController.getSite]. *)
Definition getSite (id : nat) (user : User.t) : M Site.t :=
  found ← findOwnedSite id user;
  match found with
  | None => throw (NotFoundError "Site not found")
  | Some site => mret site
  end.

(** [PageController.getPage]. *)
Definition getPage (id : nat) (user : User.t) : M Page.t :=
  found ← findPage id;
  match found with
  | None => throw (NotFoundError "Page not found")
  | Some page =>
      siteId ← page_site_id page;
      owned ← findOwnedSite siteId user;
      match owned with
      | None => throw (ForbiddenError "You do not have permission to access this page")
      | Some _ => mret page
      end
  end.

(** [SectionController.getSection]. *)
Definition getSection (id : nat) (user : User.t) : M PageSection.t :=
  found ← findSection id;
  match found with
  | None => throw (NotFoundError "Section not found")
  | Some section =>
      owned ← SectionController.sectionSite section user;
      match owned with
      | None => throw (ForbiddenError
                         "You do not have permission to access this section")
      | Some _ => mret section
      end
  end.
End Reads.

(* ===================================================================== *)
(** ** SectionController.updateSection *)
(* ===================================================================== *)

Module SectionUpdate.

Record UpdateSectionDto := mkUpdate {
  u_title : option string;
  u_type : option PageSection.SectionType;
  u_content : option Blob;
  u_settings : option Blob;
  u_order : option Z;
  u_isActive : option bool
}.

Definition set_title v s :=
  PageSection.mk (PageSection.id s) v (PageSection.type s) (PageSection.content s)
    (PageSection.settings s) (PageSection.order s) (PageSection.isActive s)
    (PageSection.pageId s) (PageSection.deletedAt s).
Definition set_type v s :=
  PageSection.mk (PageSection.id s) (PageSection.title s) v (PageSection.content s)
    (PageSection.settings s) (PageSection.order s) (PageSection.isActive s)
    (PageSection.pageId s) (PageSection.deletedAt s).
Definition set_content v s :=
  PageSection.mk (PageSection.id s) (PageSection.title s) (PageSection.type s) v
    (PageSection.settings s) (PageSection.order s) (PageSection.isActive s)
    (PageSection.pageId s) (PageSection.deletedAt s).
Definition set_settings v s :=
  PageSection.mk (PageSection.id s) (PageSection.title s) (PageSection.type s)
    (PageSection.content s) v (PageSection.order s) (PageSection.isActive s)
    (PageSection.pageId s) (PageSection.deletedAt s).
Definition set_isActive v s :=
  PageSection.mk (PageSection.id s) (PageSection.title s) (PageSection.type s)
    (PageSection.content s) (PageSection.settings s) (PageSection.order s) v
    (PageSection.pageId s) (PageSection.deletedAt s).

(** The assignments between the access check and [save]. *)
Definition assign (dto : UpdateSectionDto) (section : PageSection.t) : PageSection.t :=
  let section := match u_title dto with
                 | Some v => set_title v section
                 | None => section
                 end in
  let section := match u_type dto with
                 | Some v => set_type v section
                 | None => section
                 end in
  let section := match u_content dto with
                 | Some v => set_content (spread (Some (PageSection.content section)) v)
                               section
                 | None => section
                 end in
  let section := match u_settings dto with
                 | Some v => set_settings (spread (Some (PageSection.settings section)) v)
                               section
                 | None => section
                 end in
  let section := match u_order dto with
                 | Some v => PageSection.set_order v section
                 | None => section
                 end in
  match u_isActive dto with
  | Some v => set_isActive v section
  | None => section
  end.

Definition updateSection (id : nat) (dto : UpdateSectionDto) (user : User.t)
    : M PageSection.t :=
  found ← findSection id;
  match found with
  | None => throw (NotFoundError "Section not found")
  | Some section =>
      owned ← SectionController.sectionSite section user;
      match owned with
      | None => throw (ForbiddenError
                         "You do not have permission to update this section")
      | Some _ =>
          let section := assign dto section in
          modify (fun d => set_sections
                    (Repo.save PageSection.id section (sections d)) d);;
          mret section
      end
  end.
End SectionUpdate.

(* ===================================================================== *)
(** ** SiteController.transferOwnership *)
(* ===================================================================== *)

Module Ownership.

Definition set_owner v s :=
  Site.mk (Site.id s) (Site.name s) (Site.slug s) (Site.description s) (Site.status s)
    (Site.template s) (Site.primaryColor s) (Site.secondaryColor s) (Site.fontFamily s)
    (Site.seo s) (Site.customCode s) v (Site.deletedAt s).

(** [users] is the table behind [userRepository], which the handler only
    reads. *)
Definition transferOwnership (users : list User.t) (id : nat) (newOwnerId : nat)
    (user : User.t) : M Site.t :=
  found ← findOwnedSite id user;
  match found with
  | None => throw (NotFoundError "Site not found")
  | Some site =>
      match List.find (fun u => Nat.eqb (User.id u) newOwnerId) users with
      | None => throw (BadRequestError "New owner not found")
      | Some newOwner =>
          throw_if (Nat.eqb (User.id newOwner) (User.id user))
            (BadRequestError "You already own this site");;
          newOwnerSiteCount ← gets (fun d =>
            Repo.count Site.deletedAt
              (fun s => Nat.eqb (Site.owner s) (User.id newOwner)) (sites d));
          let maxSites := User.limit User.maxSites 10 newOwner in
          throw_if (maxSites <=? newOwnerSiteCount)%nat
            (BadRequestError ("The new owner has reached their maximum number of sites ("
                                ++ pretty maxSites ++ ")"));;
          let site := set_owner (User.id newOwner) site in
          modify (fun d => set_sites (Repo.save Site.id site (sites d)) d);;
          mret site
      end
  end.
End Ownership.

(* ===================================================================== *)
(** ** middleware/error.middleware.ts *)
(* ===================================================================== *)

Module ErrorMiddleware.

(** A [ValidationError] of class-validator, with the fields the middleware
    reads and one it drops. *)
Record ValidationError := mkValidationError {
  property : string;
  constraints : Blob;
  value : string;
  target : string
}.

(** An entry of [formattedErrors]. *)
Record Formatted := mkFormatted {
  f_property : string;
  f_constraints : Blob;
  f_value : string
}.

(** What reaches the error handler: an [ApiError] of this module, an array
    whose first element is a [ValidationError], an [HttpError] of
    routing-controllers, or another error, of which the handler reads
    [name], [message], [stack] and, for database errors, [code] and
    [detail]. *)
Inductive Thrown :=
| ThrownApi (statusCode : Z) (message : string) (errors : list Formatted) (stack : string)
| ThrownValidation (first : ValidationError) (rest : list ValidationError)
| ThrownHttp (httpCode : Z) (message : string) (stack : string)
| ThrownOther (name message stack : string) (code detail : option string).

(** The value under the key [stack] of a response. *)
Inductive Stack :=
| StackText (s : string)
| StackErrors (errs : list ValidationError).

(** The JSON body: a key that is not set, or set to [undefined], is [None]. *)
Record Body := mkBody {
  success : bool;
  message : string;
  errors : option (list Formatted);
  stack : option Stack;
  error : option string
}.

(** [new ValidationErrorResponse(errors)]: status 400 with the formatted
    errors. *)
Definition formatErrors (errs : list ValidationError) : list Formatted :=
  map (fun e => mkFormatted (property e) (constraints e) (value e)) errs.

Definition env_is (env : option string) (name : string) : bool :=
  match env with
  | Some s => String.eqb s name
  | None => false
  end.

(** [errorHandler(err, req, res, next)], with [env] for
    [process.env.NODE_ENV]: the status and the body sent. *)
Definition errorHandler (env : option string) (err : Thrown) : Z * Body :=
  let development := env_is env "development" in
  let production := env_is env "production" in
  match err with
  | ThrownApi statusCode message errors stack =>
      (statusCode,
       mkBody false message (Some errors)
         (if development then Some (StackText stack) else None) None)
  | ThrownValidation first rest =>
      (400,
       mkBody false "Validation failed" (Some (formatErrors (first :: rest)))
         (if development then Some (StackErrors (first :: rest)) else None) None)
  | ThrownHttp httpCode message stack =>
      (httpCode,
       mkBody false message None
         (if development then Some (StackText stack) else None) None)
  | ThrownOther name message stack code detail =>
      if String.eqb name "JsonWebTokenError" || String.eqb name "TokenExpiredError" then
        (401,
         mkBody false "Invalid or expired token" None None
           (if development then Some message else None))
      else if String.eqb name "QueryFailedError"
              && bool_decide (code = Some "23505") then
        (409,
         mkBody false "Resource already exists" None None
           (if development then detail else None))
      else if String.eqb name "QueryFailedError"
              && bool_decide (code = Some "23503") then
        (400,
         mkBody false "Referenced resource not found" None None
           (if development then detail else None))
      else
        (500,
         mkBody false
           (if production then "Internal server error"
            else or_string (Some message) "Something went wrong")
           None
           (if negb production then Some (StackText stack) else None)
           (if negb production then Some message else None))
  end.


End ErrorMiddleware.

(* ===================================================================== *)
(** * Vocabulary of the properties *)
(* ===================================================================== *)

(** Every character of [s] passes the test [f]. *)
Fixpoint string_forall (f : ascii -> bool) (s : string) : bool :=
  match s with
  | EmptyString => true
  | String c r => f c && string_forall f r
  end.

(** The alphabet [generateSlug] really produces: [[a-z0-9_-]]. *)
Definition is_slug_char_or_underscore (c : ascii) : bool :=
  Slug.is_slug_char c || Slug.is_underscore c.

(** The last character of a string, if any. *)
Fixpoint last_char (s : string) : option ascii :=
  match s with
  | EmptyString => None
  | String c EmptyString => Some c
  | String _ r => last_char r
  end.

(** *** Reordering *)

(** The rows a reorder handler loads: [find({ where: { id: In(ids) } })]. *)
Definition listed {R : Type} (rid : R -> nat) (removedAt : R -> option Time)
    (ids : list nat) (tbl : list R) : list R :=
  Repo.find removedAt (fun r => existsb (Nat.eqb (rid r)) ids) tbl.

(** The requester's access to a page or to a section, as the handlers
    establish it: the parent chain joins and a non-deleted site with the
    joined id belongs to the requester. *)
Definition canAccessPage (user : User.t) (d : DB) (p : Page.t) : bool :=
  match answer (siteId ← page_site_id p; findOwnedSite siteId user) d with
  | Ok (Some _) => true
  | _ => false
  end.

Definition canAccessSection (user : User.t) (d : DB) (s : PageSection.t) : bool :=
  match answer (SectionController.sectionSite s user) d with
  | Ok (Some _) => true
  | _ => false
  end.

(** What a reorder request does to a table: when it is accepted, and what
    the table holds afterwards. *)
Definition ReorderSpec {R : Type} (rid : R -> nat) (removedAt : R -> option Time)
    (set_order : Z -> R -> R) (access : R -> bool)
    (ids : list nat) (before : list R) (accepted : bool) (after : list R) : Prop :=
  (accepted = true <->
     ids <> []
     /\ List.NoDup ids
     /\ forall x, In x ids ->
           exists r, In r before /\ Repo.live removedAt r = true
                     /\ rid r = x /\ access r = true)
  /\ (accepted = false -> after = before)
  /\ (accepted = true ->
        map rid after = map rid before
        /\ (forall i x r', nth_error ids i = Some x -> In r' after -> rid r' = x ->
               exists r, In r before /\ rid r = x /\ r' = set_order (Z.of_nat i) r)
        /\ (forall r', ~ In (rid r') ids -> (In r' after <-> In r' before))).

(** The three tests of a reorder handler, in one boolean. *)
Definition reorder_accepts {R : Type} (rid : R -> nat) (removedAt : R -> option Time)
    (access : R -> bool) (ids : list nat) (tbl : list R) : bool :=
  negb (Nat.eqb (length ids) 0)
  && Nat.eqb (length (listed rid removedAt ids tbl)) (length ids)
  && forallb access (listed rid removedAt ids tbl).

(** *** Pages of a site *)

(** Number of non-deleted pages of a site that are flagged as homepage. *)
Definition countHomepages (siteId : nat) (d : DB) : nat :=
  Repo.count Page.deletedAt
    (fun p => Nat.eqb (Page.siteId p) siteId && Page.isHomepage p) (pages d).

(** Number of pages of a site and of sections of a page that the tables
    hold, whatever a handler's own count query reports. *)
Definition pagesOf (siteId : nat) (d : DB) : nat :=
  length (List.filter (fun p => pageLive p && Nat.eqb (Page.siteId p) siteId) (pages d)).

Definition sectionsOf (pageId : nat) (d : DB) : nat :=
  length (List.filter (fun s => sectionLive s && Nat.eqb (PageSection.pageId s) pageId)
            (sections d)).

(** Requests of the page lifecycle, with what the environment supplies
    ([rnd] for [Math.random().toString(36)]). *)
Inductive PageOp :=
| OpCreate (dto : PageController.CreatePageDto) (user : User.t) (rnd : string)
| OpUpdate (id : nat) (dto : PageController.UpdatePageDto) (user : User.t) (rnd : string)
| OpDelete (id : nat) (user : User.t).

(** The store after a request, whether it was answered or rejected. *)
Definition step (op : PageOp) (d : DB) : DB :=
  match op with
  | OpCreate dto user rnd => exec (PageController.createPage dto user rnd) d
  | OpUpdate id dto user rnd => exec (PageController.updatePage id dto user rnd) d
  | OpDelete id user => exec (PageController.deletePage id user) d
  end.

(** Page ids are pairwise distinct and below the id counter. *)
Definition page_ids_ok (d : DB) : Prop :=
  List.NoDup (map Page.id (pages d))
  /\ Forall (fun i => (i < nextId d)%nat) (map Page.id (pages d)).

(** *** The create handlers, step by step *)

(** The slug [createSite] settles on: the generated one, or, when a site
    has it, the generated one with six characters of the random text. *)
Definition site_slug (dto : SiteController.CreateSiteDto) (rnd : string) (d : DB) : string :=
  if SiteController.slugTaken (Slug.generateSlug (SiteController.c_name dto)) None d
  then Slug.with_suffix (Slug.generateSlug (SiteController.c_name dto)) (Slug.suffix6 rnd)
  else Slug.generateSlug (SiteController.c_name dto).

(** The site row [createSite] saves, under the id the store assigns, and
    the home page it saves next. *)
Definition new_site (dto : SiteController.CreateSiteDto) (user : User.t) (rnd : string)
    (d : DB) : Site.t :=
  Site.mk (nextId d) (SiteController.c_name dto) (site_slug dto rnd d)
    (Some (or_string (SiteController.c_description dto) ""))
    Site.draft (default Site.business (SiteController.c_template dto))
    None None None ∅ ∅ (User.id user) None.

Definition home_page (d : DB) : Page.t :=
  Page.mk (S (nextId d)) "Home" "home" None None Page.draft Page.home true 0 ∅ ∅
    (nextId d) None.

(** The page row [createPage] saves for a site. *)
Definition new_page (dto : PageController.CreatePageDto) (siteId : nat) (d : DB) : Page.t :=
  Page.mk (nextId d) (PageController.c_title dto)
    (Slug.generateSlug (PageController.c_title dto))
    (Some (or_string (PageController.c_description dto) ""))
    (Some (or_string (PageController.c_content dto) ""))
    Page.draft (default Page.page (PageController.c_pageType dto))
    (default false (PageController.c_isHomepage dto))
    (default 0 (PageController.c_order dto)) ∅ ∅ siteId None.

(** Number of sites a user owns, as [createSite] counts them. *)
Definition countSites (user : User.t) (d : DB) : nat :=
  Repo.count Site.deletedAt (fun s => Nat.eqb (Site.owner s) (User.id user)) (sites d).

(** *** The update handler, step by step

    [updatePage] builds the page object it saves by a chain of
    assignments; the three groups below are that chain, cut at the title
    block and at the homepage block. *)

(** The stored page, as the update and delete handlers look it up. *)
Definition stored (id : nat) (d : DB) : option Page.t :=
  Repo.findOne Page.deletedAt (fun p => Nat.eqb (Page.id p) id) (pages d).

(** The title block: the new title is assigned first and compared with
    [page.title] afterwards. *)
Definition assign_title (id : nat) (dto : PageController.UpdatePageDto) (rnd : string)
    (site : Site.t) (page : Page.t) (d : DB) : Page.t :=
  match PageController.u_title dto with
  | Some title =>
      if negb (String.eqb title (Page.title (Page.set_title title page))) then
        let page := Page.set_slug (Slug.generateSlug title) (Page.set_title title page) in
        if PageController.slugTaken (Page.slug page) (Site.id site) (Some id) d
        then Page.set_slug (Slug.with_suffix (Page.slug page) (Slug.suffix4 rnd)) page
        else page
      else Page.set_title title page
  | None => page
  end.

(** [description], [content], [status], [pageType]. *)
Definition assign_middle (dto : PageController.UpdatePageDto) (page : Page.t) : Page.t :=
  let page := match PageController.u_description dto with
              | Some v => Page.set_description (Some v) page
              | None => page
              end in
  let page := match PageController.u_content dto with
              | Some v => Page.set_content (Some v) page
              | None => page
              end in
  let page := match PageController.u_status dto with
              | Some v => Page.set_status v page
              | None => page
              end in
  match PageController.u_pageType dto with
  | Some v => Page.set_pageType v page
  | None => page
  end.

(** [isHomepage]. *)
Definition assign_flag (dto : PageController.UpdatePageDto) (page : Page.t) : Page.t :=
  match PageController.u_isHomepage dto with
  | Some flag => Page.set_isHomepage flag page
  | None => page
  end.

(** [order], [seo], [settings]. *)
Definition assign_tail (dto : PageController.UpdatePageDto) (page : Page.t) : Page.t :=
  let page := match PageController.u_order dto with
              | Some v => Page.set_order v page
              | None => page
              end in
  let page := match PageController.u_seo dto with
              | Some v => Page.set_seo (spread (Some (Page.seo page)) v) page
              | None => page
              end in
  match PageController.u_settings dto with
  | Some v => Page.set_settings (spread (Some (Page.settings page)) v) page
  | None => page
  end.

(** The page object [updatePage] saves. *)
Definition updated_page (id : nat) (dto : PageController.UpdatePageDto) (rnd : string)
    (site : Site.t) (page : Page.t) (d : DB) : Page.t :=
  assign_tail dto (assign_flag dto (assign_middle dto (assign_title id dto rnd site page d))).

(** *** Scenarios

    Stores built by the handlers themselves, from the empty store. *)

Definition alice : User.t := User.mk 100 None.

(** [alice] creates the site "Demo": site 1, with its home page 2. *)
Definition demo_site : DB :=
  exec (SiteController.createSite (SiteController.mkCreate "Demo" None None)
          alice "0.4fzyo82mvyr") Store.empty.

(** ... then the pages "Blog" (page 3, order 5) and "About Us" (page 4,
    order 1). *)
Definition demo_pages : DB :=
  exec (PageController.createPage
          (PageController.mkCreate "About Us" None None None None (Some 1) 1)
          alice "0.4fzyo82mvyr")
    (exec (PageController.createPage
             (PageController.mkCreate "Blog" None None None None (Some 5) 1)
             alice "0.4fzyo82mvyr") demo_site).

(** An update that sends nothing but [isHomepage]. *)
Definition only_flag (flag : bool) : PageController.UpdatePageDto :=
  PageController.mkUpdate None None None None None (Some flag) None None None.

(** An update that sends nothing but [title]. *)
Definition only_title (title : string) : PageController.UpdatePageDto :=
  PageController.mkUpdate (Some title) None None None None None None None None.

Definition bob : User.t := User.mk 200 (Some (User.mkPlan (Some 3) (Some 5) (Some 5)))%nat.

(** The section handlers look a section up by id. *)
Definition storedSection (id : nat) (d : DB) : option PageSection.t :=
  Repo.findOne PageSection.deletedAt (fun s => Nat.eqb (PageSection.id s) id) (sections d).

Definition new_section (title : string) (order : Z) (pageId : nat)
    : SectionController.CreateSectionDto :=
  SectionController.mkCreate title None None None order None pageId.

(** ... then [alice] adds the sections 5 and 6 to the home page and 7 to
    "Blog"; [bob] creates the site "Solo", of which the site row 8 is
    stored and the home page is refused (the slug [home] is taken), adds
    the page "Start" (page 9) to it and gives that page the single
    section 10. *)
Definition demo_full : DB :=
  exec (SectionController.createSection (new_section "Welcome" 0 9) bob)
    (exec (PageController.createPage
             (PageController.mkCreate "Start" None None None None None 8)
             bob "0.4fzyo82mvyr")
       (exec (SiteController.createSite (SiteController.mkCreate "Solo" None None)
                bob "0.4fzyo82mvyr")
          (exec (SectionController.createSection (new_section "Posts" 0 3) alice)
             (exec (SectionController.createSection (new_section "Features" 1 2) alice)
                (exec (SectionController.createSection (new_section "Hero" 0 2) alice)
                   demo_pages))))).

(** The texts [Math.random().toString(36)] can produce: [0], or [0.]
    followed by digits in base 36. *)
Definition random_text (rnd : string) : bool :=
  match rnd with
  | String "0" EmptyString => true
  | String "0" (String "." digits) => string_forall Slug.is_base36 digits
  | _ => false
  end.

Definition my_site : SiteController.CreateSiteDto :=
  SiteController.mkCreate "My Site" None None.

(** The store after a first site named "My Site" was created. *)
Definition my_site_db : DB :=
  exec (SiteController.createSite my_site alice "0.8k2j5x0q9na") Store.empty.

(** An update of a site that sends nothing but [name]. *)
Definition only_name (name : string) : SiteController.UpdateSiteDto :=
  SiteController.mkUpdate (Some name) None None None None None None None None.

(* ===================================================================== *)
(** * Further vocabulary *)
(* ===================================================================== *)

(** No two hyphens in a row; [prev] tells that the character before the
    string is a hyphen. *)
Fixpoint no_double_hyphen (prev : bool) (s : string) : bool :=
  match s with
  | EmptyString => true
  | String c r =>
      if Slug.is_hyphen c then negb prev && no_double_hyphen true r
      else no_double_hyphen false r
  end.

(** Some character of [s] passes the test [f]. *)
Fixpoint string_exists (f : ascii -> bool) (s : string) : bool :=
  match s with
  | EmptyString => false
  | String c r => f c || string_exists f r
  end.

(** The first character of a string, if any. *)
Definition first_char (s : string) : option ascii :=
  match s with
  | EmptyString => None
  | String c _ => Some c
  end.

(** *** Requests on sites and pages *)

(** The order a row ends with when the loop of a reorder handler has run:
    the row is rewritten once for every occurrence of its id. *)
Fixpoint assignOrder {R : Type} (rid : R -> nat) (set_order : Z -> R -> R)
    (ids : list nat) (index : nat) (r : R) : R :=
  match ids with
  | [] => r
  | id :: rest =>
      assignOrder rid set_order rest (S index)
        (if Nat.eqb (rid r) id then set_order (Z.of_nat index) r else r)
  end.

(** The requests that write to the store. *)
Inductive Request :=
| ReqCreateSite (dto : SiteController.CreateSiteDto) (user : User.t) (rnd : string)
| ReqUpdateSite (id : nat) (dto : SiteController.UpdateSiteDto) (user : User.t)
    (rnd : string)
| ReqDeleteSite (id : nat) (user : User.t)
| ReqPage (op : PageOp)
| ReqReorderPages (pageIds : option (list nat)) (user : User.t)
| ReqCreateSection (dto : SectionController.CreateSectionDto) (user : User.t)
| ReqReorderSections (sectionIds : option (list nat)) (user : User.t)
| ReqDeleteSection (id : nat) (user : User.t)
| ReqUpdateSection (id : nat) (dto : SectionUpdate.UpdateSectionDto) (user : User.t)
| ReqTransferOwnership (users : list User.t) (id : nat) (newOwnerId : nat)
    (user : User.t).

(** The store after a request, whether it was answered or rejected. *)
Definition handle (r : Request) (d : DB) : DB :=
  match r with
  | ReqCreateSite dto user rnd => exec (SiteController.createSite dto user rnd) d
  | ReqUpdateSite id dto user rnd => exec (SiteController.updateSite id dto user rnd) d
  | ReqDeleteSite id user => exec (SiteController.deleteSite id user) d
  | ReqPage op => step op d
  | ReqReorderPages pageIds user => exec (PageController.reorderPages pageIds user) d
  | ReqCreateSection dto user => exec (SectionController.createSection dto user) d
  | ReqReorderSections sectionIds user =>
      exec (SectionController.reorderSections sectionIds user) d
  | ReqDeleteSection id user => exec (SectionController.deleteSection id user) d
  | ReqUpdateSection id dto user => exec (SectionUpdate.updateSection id dto user) d
  | ReqTransferOwnership users id newOwnerId user =>
      exec (Ownership.transferOwnership users id newOwnerId user) d
  end.

(** Whether the handler answers the request (no error is thrown). *)
Definition accepted (r : Request) (d : DB) : bool :=
  match r with
  | ReqCreateSite dto user rnd => is_ok (answer (SiteController.createSite dto user rnd) d)
  | ReqUpdateSite id dto user rnd =>
      is_ok (answer (SiteController.updateSite id dto user rnd) d)
  | ReqDeleteSite id user => is_ok (answer (SiteController.deleteSite id user) d)
  | ReqPage (OpCreate dto user rnd) =>
      is_ok (answer (PageController.createPage dto user rnd) d)
  | ReqPage (OpUpdate id dto user rnd) =>
      is_ok (answer (PageController.updatePage id dto user rnd) d)
  | ReqPage (OpDelete id user) =>
      is_ok (answer (PageController.deletePage id user) d)
  | ReqReorderPages pageIds user =>
      is_ok (answer (PageController.reorderPages pageIds user) d)
  | ReqCreateSection dto user => is_ok (answer (SectionController.createSection dto user) d)
  | ReqReorderSections sectionIds user =>
      is_ok (answer (SectionController.reorderSections sectionIds user) d)
  | ReqDeleteSection id user =>
      is_ok (answer (SectionController.deleteSection id user) d)
  | ReqUpdateSection id dto user =>
      is_ok (answer (SectionUpdate.updateSection id dto user) d)
  | ReqTransferOwnership users id newOwnerId user =>
      is_ok (answer (Ownership.transferOwnership users id newOwnerId user) d)
  end.

(** [req.user]. *)
Definition request_user (r : Request) : User.t :=
  match r with
  | ReqCreateSite _ user _ | ReqUpdateSite _ _ user _ | ReqDeleteSite _ user
  | ReqPage (OpCreate _ user _) | ReqPage (OpUpdate _ _ user _)
  | ReqPage (OpDelete _ user)
  | ReqReorderPages _ user | ReqCreateSection _ user | ReqReorderSections _ user
  | ReqDeleteSection _ user | ReqUpdateSection _ _ user
  | ReqTransferOwnership _ _ _ user => user
  end.

Definition serve (rs : list Request) (d : DB) : DB :=
  fold_left (fun d r => handle r d) rs d.

(** The site row passes the ownership query of the handlers for [user]. *)
Definition canAccessSite (user : User.t) (s : Site.t) : bool :=
  siteLive s && Nat.eqb (Site.owner s) (User.id user).

(** Ids are pairwise distinct in every table and below the id counter,
    every page points to a stored site and every section to a stored
    page. *)
Definition StoreOk (d : DB) : Prop :=
  page_ids_ok d
  /\ (List.NoDup (map Site.id (sites d))
      /\ Forall (fun i => (i < nextId d)%nat) (map Site.id (sites d)))
  /\ (List.NoDup (map PageSection.id (sections d))
      /\ Forall (fun i => (i < nextId d)%nat) (map PageSection.id (sections d)))
  /\ (forall p, In p (pages d) -> In (Page.siteId p) (map Site.id (sites d)))
  /\ (forall x, In x (sections d) -> In (PageSection.pageId x) (map Page.id (pages d))).

(** No row carries a removal stamp. *)
Definition Unremoved (d : DB) : Prop :=
  (forall s, In s (sites d) -> Site.deletedAt s = None)
  /\ (forall p, In p (pages d) -> Page.deletedAt p = None)
  /\ (forall x, In x (sections d) -> PageSection.deletedAt x = None).

(** Slugs are pairwise distinct among the sites and among the pages, the
    pages of all sites taken together; and once a site row is stored,
    some page has the slug [home]. *)
Definition SlugsDistinct (d : DB) : Prop :=
  List.NoDup (map Site.slug (sites d))
  /\ List.NoDup (map Page.slug (pages d))
  /\ (sites d <> [] -> In "home" (map Page.slug (pages d))).

(** The requests that build the store [demo_full] from the empty store. *)
Definition demo_requests : list Request :=
  [ ReqCreateSite (SiteController.mkCreate "Demo" None None) alice "0.4fzyo82mvyr";
    ReqPage (OpCreate (PageController.mkCreate "Blog" None None None None (Some 5) 1)
               alice "0.4fzyo82mvyr");
    ReqPage (OpCreate (PageController.mkCreate "About Us" None None None None (Some 1) 1)
               alice "0.4fzyo82mvyr");
    ReqCreateSection (new_section "Hero" 0 2) alice;
    ReqCreateSection (new_section "Features" 1 2) alice;
    ReqCreateSection (new_section "Posts" 0 3) alice;
    ReqCreateSite (SiteController.mkCreate "Solo" None None) bob "0.4fzyo82mvyr";
    ReqPage (OpCreate (PageController.mkCreate "Start" None None None None None 8)
               bob "0.4fzyo82mvyr");
    ReqCreateSection (new_section "Welcome" 0 9) bob ].

(** Updates that send no field at all. *)
Definition empty_page_update : PageController.UpdatePageDto :=
  PageController.mkUpdate None None None None None None None None None.

Definition empty_site_update : SiteController.UpdateSiteDto :=
  SiteController.mkUpdate None None None None None None None None None.

(** The page a page request addresses by id. *)
Definition op_target (op : PageOp) : option nat :=
  match op with
  | OpCreate _ _ _ => None
  | OpUpdate id _ _ _ => Some id
  | OpDelete id _ => Some id
  end.

(** *** The credit ledger over time *)

(** Calls on a ledger: [useCredits(n)], [addCredits(n)] and
    [resetCreditsIfNeeded()] at a given time. *)
Inductive LedgerOp :=
| LUse (n : Z)
| LAdd (n : Z)
| LReset (now : Time).

Section Ledger.
Variable plusDays plusMonths plusYears : Z -> Time -> Time.

Definition ledger_step (c : AICredits.t) (op : LedgerOp) : AICredits.t :=
  match op with
  | LUse n => snd (AICredits.useCredits n c)
  | LAdd n => AICredits.addCredits n c
  | LReset now =>
      snd (CreditsReset.resetCreditsIfNeeded plusDays plusMonths plusYears now c)
  end.

Definition ledger_run (ops : list LedgerOp) (c : AICredits.t) : AICredits.t :=
  fold_left ledger_step ops c.
End Ledger.

(** The amount passed to [useCredits] or [addCredits] is not negative. *)
Definition amount_ok (op : LedgerOp) : bool :=
  match op with
  | LUse n | LAdd n => 0 <=? n
  | LReset _ => true
  end.

(** The credits added by the [addCredits] calls of a sequence. *)
Definition added (ops : list LedgerOp) : Z :=
  fold_right (fun op acc => match op with LAdd n => n + acc | _ => acc end) 0 ops.

(** A calendar for examples: days of 24 hours, months of 30 days, years of
    365 days, in milliseconds. *)
Definition fixedDays (k : Z) (t : Time) : Time := t + k * 86400000.
Definition fixedMonths (k : Z) (t : Time) : Time := t + k * 2592000000.
Definition fixedYears (k : Z) (t : Time) : Time := t + k * 31536000000.

(** 1 for [true], 0 for [false]. *)
Definition b2n (b : bool) : nat := if b then 1%nat else 0%nat.

(** *** What a request throws *)

Definition thrown {A : Type} (r : Result A) : option HttpError :=
  match r with
  | Ok _ => None
  | Err e => Some e
  end.

(** The requests that read one row. *)
Inductive ReadRequest :=
| ReqGetSite (id : nat) (user : User.t)
| ReqGetPage (id : nat) (user : User.t)
| ReqGetSection (id : nat) (user : User.t).

(** The error a request is rejected with, if it is rejected. *)
Definition write_error (r : Request) (d : DB) : option HttpError :=
  match r with
  | ReqCreateSite dto user rnd => thrown (answer (SiteController.createSite dto user rnd) d)
  | ReqUpdateSite id dto user rnd =>
      thrown (answer (SiteController.updateSite id dto user rnd) d)
  | ReqDeleteSite id user => thrown (answer (SiteController.deleteSite id user) d)
  | ReqPage (OpCreate dto user rnd) =>
      thrown (answer (PageController.createPage dto user rnd) d)
  | ReqPage (OpUpdate id dto user rnd) =>
      thrown (answer (PageController.updatePage id dto user rnd) d)
  | ReqPage (OpDelete id user) =>
      thrown (answer (PageController.deletePage id user) d)
  | ReqReorderPages pageIds user =>
      thrown (answer (PageController.reorderPages pageIds user) d)
  | ReqCreateSection dto user =>
      thrown (answer (SectionController.createSection dto user) d)
  | ReqReorderSections sectionIds user =>
      thrown (answer (SectionController.reorderSections sectionIds user) d)
  | ReqDeleteSection id user =>
      thrown (answer (SectionController.deleteSection id user) d)
  | ReqUpdateSection id dto user =>
      thrown (answer (SectionUpdate.updateSection id dto user) d)
  | ReqTransferOwnership users id newOwnerId user =>
      thrown (answer (Ownership.transferOwnership users id newOwnerId user) d)
  end.

Definition read_error (r : ReadRequest) (d : DB) : option HttpError :=
  match r with
  | ReqGetSite id user => thrown (answer (Reads.getSite id user) d)
  | ReqGetPage id user => thrown (answer (Reads.getPage id user) d)
  | ReqGetSection id user => thrown (answer (Reads.getSection id user) d)
  end.

(** The error is the [TypeError] of a property read on [null]. *)
Definition is_type_error (e : option HttpError) : bool :=
  match e with
  | Some (TypeError _) => true
  | _ => false
  end.

(** The error, if any, is one the controllers throw themselves. *)
Definition is_controller_error (e : option HttpError) : bool :=
  match e with
  | None => true
  | Some (NotFoundError _) | Some (BadRequestError _) | Some (ForbiddenError _) => true
  | _ => false
  end.


(** The request creates a site or a page. *)
Definition is_create (r : Request) : bool :=
  match r with
  | ReqCreateSite _ _ _ | ReqPage (OpCreate _ _ _) => true
  | _ => false
  end.

(** *** Stored slugs *)

(** The text can stand in a URL path as it is: only [[a-z0-9_-]]. *)
Definition url_safe (s : string) : bool :=
  string_forall is_slug_char_or_underscore s.

(** The random text of a create request is one [Math.random().toString(36)]
    can produce. *)
Definition creates_rnd_ok (r : Request) : bool :=
  match r with
  | ReqCreateSite _ _ rnd => random_text rnd
  | ReqPage (OpCreate _ _ rnd) => random_text rnd
  | _ => true
  end.

Definition SlugsOk (d : DB) : Prop :=
  (forall s, In s (sites d) -> url_safe (Site.slug s) = true)
  /\ (forall p, In p (pages d) -> url_safe (Page.slug p) = true).

(* ===================================================================== *)
(** * Properties of the entity helpers *)
(* ===================================================================== *)

Section CreditLedger.
Import AICredits.

Lemma hasEnoughCredits_iff required c :
  hasEnoughCredits required c = true <-> credits c - usedCredits c >= required.
Proof. unfold hasEnoughCredits. rewrite Z.leb_le. lia. Qed.

Lemma useCredits_refused amount c :
  credits c - usedCredits c < amount -> useCredits amount c = (false, c).
Proof.
  intros Hlt. unfold useCredits.
  destruct (hasEnoughCredits amount c) eqn:E; [|reflexivity].
  apply hasEnoughCredits_iff in E. lia.
Qed.

Lemma useCredits_granted amount c :
  credits c - usedCredits c >= amount ->
  useCredits amount c = (true, set_usedCredits (usedCredits c + amount) c).
Proof.
  intros Hge. unfold useCredits.
  apply hasEnoughCredits_iff in Hge. now rewrite Hge.
Qed.

(** C2. [useCredits(n)] either refuses ([credits - usedCredits < n],
    answer [false], ledger untouched) or grants ([credits - usedCredits >=
    n], answer [true], [usedCredits] advanced by exactly [n] and not past
    [credits], nothing else touched). Hence a ledger with [usedCredits <=
    credits] still has [usedCredits <= credits] afterwards. *)
Theorem useCredits_spec (c : t) (n : Z) :
  ((credits c - usedCredits c < n
    /\ fst (useCredits n c) = false
    /\ snd (useCredits n c) = c)
   \/ (credits c - usedCredits c >= n
       /\ fst (useCredits n c) = true
       /\ usedCredits (snd (useCredits n c)) = usedCredits c + n
       /\ usedCredits (snd (useCredits n c)) <= credits (snd (useCredits n c))
       /\ credits (snd (useCredits n c)) = credits c
       /\ lastResetAt (snd (useCredits n c)) = lastResetAt c
       /\ nextResetAt (snd (useCredits n c)) = nextResetAt c
       /\ resetFrequency (snd (useCredits n c)) = resetFrequency c
       /\ userId (snd (useCredits n c)) = userId c))
  /\ (usedCredits c <= credits c ->
      usedCredits (snd (useCredits n c)) <= credits (snd (useCredits n c))).
Proof.
  destruct (Z_lt_ge_dec (credits c - usedCredits c) n) as [Hlt | Hge].
  - rewrite (useCredits_refused _ _ Hlt). simpl. split; [left; auto|auto].
  - rewrite (useCredits_granted _ _ Hge). simpl. split; [|lia].
    right. repeat split; auto; lia.
Qed.

Lemma useCredits_spec_witness :
  let c := mk 10 4 None None (Some monthly) 7 in
  usedCredits c <= credits c
  /\ usedCredits (snd (useCredits 6 c)) <= credits (snd (useCredits 6 c))
  /\ fst (useCredits 6 c) = true
  /\ usedCredits (snd (useCredits 6 c)) = 10
  /\ fst (useCredits 7 c) = false.
Proof.
  intros c.
  assert (H : usedCredits c <= credits c) by (simpl; lia).
  pose proof (useCredits_spec c 6) as [H6 Hinv].
  pose proof (useCredits_spec c 7) as [H7 _].
  split; [exact H|]. split; [exact (Hinv H)|].
  destruct H6 as [[Hc _] | (_ & Hok & Hu & _)]; [simpl in Hc; lia|].
  destruct H7 as [(_ & Hno & _) | [Hc _]]; [|simpl in Hc; lia].
  split; [exact Hok|]. split; [exact Hu | exact Hno].
Defined.
End CreditLedger.

Section PaymentHelpers.
Import Payment.
Variable toISOString : Time -> string.

Lemma PaymentStatus_eqb_eq a b : PaymentStatus_eqb a b = true <-> a = b.
Proof. destruct a, b; simpl; split; congruence. Qed.

Lemma spread_lookup (a : option Blob) (b : Blob) (k : string) :
  spread a b !! k =
    match b !! k with
    | Some v => Some v
    | None => default ∅ a !! k
    end.
Proof.
  unfold spread. rewrite lookup_union.
  destruct (b !! k), (default ∅ a !! k); reflexivity.
Qed.

(** C9. [processRefund] throws exactly when the payment is not
    [completed] or the amount lies outside (0, amount], and then leaves
    the payment as it was. Otherwise it returns and records [refundAmount]
    and [refundedAt]; after a partial refund the status is [completed].
    After a full refund the status is [refunded] on a payment whose
    [amount] is the number assigned in memory, and stays [completed] on a
    payment loaded from the database, whose [amount] is a string that the
    strict comparison [amount === this.amount] never equals. *)
Theorem processRefund_spec (now : Time) (amt : Z) (reason : option string)
    (md : option Blob) (p : t) :
  ((status p <> completed \/ amt <= 0 \/ value (amount p) < amt)
   /\ exists msg, processRefund toISOString now amt reason md p = (Thrown msg, p))
  \/
  (status p = completed /\ 0 < amt <= value (amount p)
   /\ fst (processRefund toISOString now amt reason md p) = Returned
   /\ refundAmount (snd (processRefund toISOString now amt reason md p)) = Some amt
   /\ refundedAt (snd (processRefund toISOString now amt reason md p)) = Some now
   /\ amount (snd (processRefund toISOString now amt reason md p)) = amount p
   /\ ((amt < value (amount p)
        /\ status (snd (processRefund toISOString now amt reason md p)) = completed)
       \/ (amount p = AsNumber amt
           /\ status (snd (processRefund toISOString now amt reason md p)) = refunded)
       \/ (amount p = AsString amt
           /\ status (snd (processRefund toISOString now amt reason md p)) = completed))).
Proof.
  unfold processRefund.
  destruct (PaymentStatus_eqb (status p) completed) eqn:Est; simpl.
  - apply PaymentStatus_eqb_eq in Est.
    destruct (amt <=? 0) eqn:E0; simpl.
    + left. apply Z.leb_le in E0. split; [auto|eauto].
    + apply Z.leb_gt in E0.
      destruct (value (amount p) <? amt) eqn:E1; simpl.
      * left. apply Z.ltb_lt in E1. split; [auto|eauto].
      * right. apply Z.ltb_ge in E1.
        repeat split; try assumption; try lia.
        destruct (amount p) as [v|v] eqn:Eam; simpl in *.
        -- destruct (amt =? v) eqn:E2.
           ++ right. left. apply Z.eqb_eq in E2. subst v. auto.
           ++ left. apply Z.eqb_neq in E2. split; [lia|reflexivity].
        -- destruct (Z.eq_dec amt v) as [->|Hne].
           ++ right. right. auto.
           ++ left. split; [lia|reflexivity].
  - left. split; [|eauto].
    left. intros Heq. apply PaymentStatus_eqb_eq in Heq. congruence.
Qed.

(** A payment of 100.00 read back from the database and refunded in full
    is still [completed]; the same payment built in memory is [refunded]. *)
Example processRefund_full_refund_of_stored_payment now :
  let p amount := mk amount "USD" completed stripe "one_time" None None
                    (Some 5) None None 7 in
  processRefund toISOString now 10000 None None (p (AsString 10000))
  = (Returned,
     mk (AsString 10000) "USD" completed stripe "one_time" None None
       (Some 5) (Some now) (Some 10000) 7)
  /\ status (snd (processRefund toISOString now 10000 None None (p (AsNumber 10000))))
     = refunded.
Proof. split; reflexivity. Qed.

(** C10. [markAsPaid] checks nothing: from any status it sets the status
    to [completed], stamps [paidAt] with the current time and merges the
    supplied metadata over the stored one, key by key; the other fields
    keep their values. *)
Theorem markAsPaid_spec (now : Time) (md : option Blob) (p : t) :
  status (markAsPaid now md p) = completed
  /\ paidAt (markAsPaid now md p) = Some now
  /\ (exists m, metadata (markAsPaid now md p) = Some m
      /\ forall k, m !! k = match default ∅ md !! k with
                            | Some v => Some v
                            | None => default ∅ (metadata p) !! k
                            end)
  /\ amount (markAsPaid now md p) = amount p
  /\ currency (markAsPaid now md p) = currency p
  /\ refundedAt (markAsPaid now md p) = refundedAt p
  /\ refundAmount (markAsPaid now md p) = refundAmount p
  /\ userId (markAsPaid now md p) = userId p.
Proof.
  unfold markAsPaid; simpl. repeat split.
  eexists. split; [reflexivity|]. intros k. apply spread_lookup.
Qed.

(** A payment that already failed, was refunded or was cancelled is
    turned into a completed one all the same. *)
Example markAsPaid_after_failure now :
  let p st := mk (AsNumber 1999) "USD" st stripe "one_time" None None None None None 7 in
  status (markAsPaid now None (p failed)) = completed
  /\ status (markAsPaid now None (p refunded)) = completed
  /\ status (markAsPaid now None (p cancelled)) = completed.
Proof. repeat split. Qed.
End PaymentHelpers.

(* ===================================================================== *)
(** * Properties of the slug generator *)
(* ===================================================================== *)

Section SlugFacts.
Import Slug.

Ltac each_ascii c :=
  destruct c as [[] [] [] [] [] [] [] []]; vm_compute; try reflexivity; try congruence.

Lemma lower_char_not_upper c : is_upper (lower_char c) = false.
Proof. each_ascii c. Qed.

Lemma word_not_upper_is_slug c :
  is_upper c = false -> is_word c || is_hyphen c = true ->
  is_slug_char_or_underscore c = true.
Proof.
  unfold is_word, is_slug_char_or_underscore, is_slug_char.
  intros ->. destruct (is_lower c), (is_digit c), (is_underscore c), (is_hyphen c);
    simpl; congruence.
Qed.

Lemma toLowerCase_no_upper s :
  string_forall (fun c => negb (is_upper c)) (toLowerCase s) = true.
Proof.
  induction s as [|c r IH]; simpl; [reflexivity|].
  now rewrite lower_char_not_upper, IH.
Qed.

Lemma replace_spaces_no_upper s : forall b,
  string_forall (fun c => negb (is_upper c)) s = true ->
  string_forall (fun c => negb (is_upper c)) (replace_spaces b s) = true.
Proof.
  induction s as [|c r IH]; simpl; intros b H; [reflexivity|].
  apply andb_prop in H as [Hc Hr].
  destruct (is_space c); [destruct b|]; simpl.
  - auto.
  - apply (IH true Hr).
  - rewrite Hc. apply (IH false Hr).
Qed.

Lemma strip_non_word_alphabet s :
  string_forall (fun c => negb (is_upper c)) s = true ->
  string_forall is_slug_char_or_underscore (strip_non_word s) = true.
Proof.
  induction s as [|c r IH]; simpl; intros H; [reflexivity|].
  apply andb_prop in H as [Hc Hr]. apply negb_true_iff in Hc.
  destruct (is_word c || is_hyphen c) eqn:E; simpl; auto.
  rewrite (word_not_upper_is_slug c Hc E). auto.
Qed.

Lemma collapse_hyphens_forall f s : forall b,
  string_forall f s = true -> string_forall f (collapse_hyphens b s) = true.
Proof.
  induction s as [|c r IH]; simpl; intros b H; [reflexivity|].
  apply andb_prop in H as [Hc Hr].
  destruct (is_hyphen c); [destruct b|]; simpl; rewrite ?Hc; simpl; auto.
Qed.

Lemma trim_start_forall f s :
  string_forall f s = true -> string_forall f (trim_start s) = true.
Proof.
  induction s as [|c r IH]; simpl; intros H; [reflexivity|].
  destruct (is_hyphen c); [|exact H].
  apply andb_prop in H as [_ Hr]. auto.
Qed.

Lemma trim_end_forall f s :
  string_forall f s = true -> string_forall f (trim_end s) = true.
Proof.
  induction s as [|c r IH]; simpl; intros H; [reflexivity|].
  apply andb_prop in H as [Hc Hr]. specialize (IH Hr).
  destruct (trim_end r) as [|c' r'].
  - destruct (is_hyphen c); simpl; [reflexivity|]. now rewrite Hc.
  - simpl in *. now rewrite Hc, IH.
Qed.

(** What the generator does guarantee: every character of a generated
    slug is a lower-case letter, a digit, a hyphen or an underscore. *)
Lemma generateSlug_alphabet text :
  string_forall is_slug_char_or_underscore (generateSlug text) = true.
Proof.
  unfold generateSlug.
  apply trim_end_forall, trim_start_forall, collapse_hyphens_forall.
  apply strip_non_word_alphabet, replace_spaces_no_upper, toLowerCase_no_upper.
Qed.

(** A generated slug neither starts nor ends with a hyphen. *)
Lemma trim_start_head s c r : trim_start s = String c r -> is_hyphen c = false.
Proof.
  induction s as [|a s' IH]; simpl; [discriminate|].
  destruct (is_hyphen a) eqn:E; [exact IH|].
  intros [= <- _]. exact E.
Qed.

Lemma trim_end_head s c r :
  trim_end s = String c r -> exists r0, s = String c r0.
Proof.
  destruct s as [|a s']; simpl; [discriminate|].
  destruct (trim_end s'); [destruct (is_hyphen a)|]; intros [= <- _]; eauto.
Qed.

Lemma generateSlug_no_leading_hyphen text c r :
  generateSlug text = String c r -> is_hyphen c = false.
Proof.
  unfold generateSlug. intros H.
  apply trim_end_head in H as [r0 H]. eapply trim_start_head, H.
Qed.

Lemma trim_end_last s c : last_char (trim_end s) = Some c -> is_hyphen c = false.
Proof.
  induction s as [|a s' IH]; simpl; [discriminate|].
  destruct (trim_end s') as [|c' r'] eqn:E.
  - destruct (is_hyphen a) eqn:Ea; simpl; [discriminate|congruence].
  - exact IH.
Qed.

Lemma generateSlug_no_trailing_hyphen text c :
  last_char (generateSlug text) = Some c -> is_hyphen c = false.
Proof. unfold generateSlug. apply trim_end_last. Qed.

(** C5. The generator keeps an underscore: [generateSlug("a_b")] is
    [a_b], which is not a word over [[a-z0-9-]], although [Site.slug] and
    [Page.slug] are declared to match [/^[a-z0-9-]+$/]. *)
Theorem generateSlug_keeps_underscore :
  generateSlug "a_b" = "a_b"%string
  /\ string_forall is_slug_char (generateSlug "a_b") = false
  /\ generateSlug "Q3_Report 2024" = "q3_report-2024"%string.
Proof. vm_compute. auto. Qed.

(** The other steps of the description hold on examples of each kind. *)
Example generateSlug_examples :
  generateSlug "  My   Site  " = "my-site"%string
  /\ generateSlug "Hello, World!" = "hello-world"%string
  /\ generateSlug "a - b" = "a-b"%string
  /\ generateSlug "--About--Us--" = "about-us"%string
  /\ generateSlug "!!!" = ""%string.
Proof. vm_compute. auto 6. Qed.
End SlugFacts.

(* ===================================================================== *)
(** * Properties of the store and of the request handlers *)
(* ===================================================================== *)

(** Unfolding of the request monad. *)
Ltac unfold_m :=
  unfold throw_if, findOwnedSite, findPage, findSection, page_site_id,
    section_page, insertPage, insertSite, insertSection, exec, answer in *;
  unfold mbind, M_bind, mret, M_ret, throw, gets, modify in *;
  cbv beta iota zeta in *.

(** Case analysis on the next query of the handler under scrutiny. *)
Ltac case_findOne H :=
  match goal with
  | |- context [Repo.findOne ?a ?w ?tbl] =>
      let r := fresh "row" in
      destruct (Repo.findOne a w tbl) as [r|] eqn:H; cbv beta iota
  end.

Ltac case_find H :=
  match goal with
  | |- context [List.find ?w ?tbl] =>
      let r := fresh "row" in
      destruct (List.find w tbl) as [r|] eqn:H; cbv beta iota
  end.

Ltac case_leb H :=
  match goal with
  | |- context [Nat.leb ?a ?b] => destruct (Nat.leb a b) eqn:H; cbv beta iota
  end.

Section RepoFacts.
Context {R : Type}.
Variable removedAt : R -> option Time.

Lemma findOne_Some (w : R -> bool) tbl r :
  Repo.findOne removedAt w tbl = Some r ->
  In r tbl /\ Repo.live removedAt r = true /\ w r = true.
Proof.
  unfold Repo.findOne. intros H. apply find_some in H as [Hin Hb].
  apply andb_prop in Hb. tauto.
Qed.

Lemma findOne_None (w : R -> bool) tbl :
  Repo.findOne removedAt w tbl = None ->
  forall r, In r tbl -> Repo.live removedAt r = true -> w r = false.
Proof.
  unfold Repo.findOne. intros H r Hin Hl.
  pose proof (find_none _ _ H r Hin) as Hf. cbv beta in Hf. rewrite Hl in Hf. exact Hf.
Qed.

Lemma find_raw_Some (w : R -> bool) tbl r :
  List.find w tbl = Some r -> In r tbl /\ w r = true.
Proof. apply find_some. Qed.

(** A query whose condition no row meets. *)
Lemma findOne_no_match (w : R -> bool) tbl :
  (forall r, w r = false) -> Repo.findOne removedAt w tbl = None.
Proof.
  intros Hw. unfold Repo.findOne. induction tbl as [|a tbl IH]; simpl; [reflexivity|].
  now rewrite Hw, andb_false_r.
Qed.

Lemma count_no_match (w : R -> bool) tbl :
  (forall r, w r = false) -> Repo.count removedAt w tbl = 0%nat.
Proof.
  intros Hw. unfold Repo.count, Repo.find.
  induction tbl as [|a tbl IH]; simpl; [reflexivity|].
  now rewrite Hw, andb_false_r.
Qed.

Lemma update_no_match (w : R -> bool) (f : R -> R) tbl :
  (forall r, w r = false) -> Repo.update w f tbl = tbl.
Proof.
  intros Hw. unfold Repo.update. induction tbl as [|a tbl IH]; simpl; [reflexivity|].
  now rewrite Hw, IH.
Qed.
End RepoFacts.

Section TableFacts.
Context {R : Type}.
Variable rid : R -> nat.

Lemma same_id_same_row (tbl : list R) a b :
  List.NoDup (map rid tbl) -> In a tbl -> In b tbl -> rid a = rid b -> a = b.
Proof.
  induction tbl as [|x tbl IH]; simpl; [tauto|].
  intros Hnd [Ha|Ha] [Hb|Hb] Hid; subst.
  - reflexivity.
  - apply NoDup_cons_iff in Hnd as [Hnot _]. exfalso. apply Hnot.
    rewrite Hid. now apply in_map.
  - apply NoDup_cons_iff in Hnd as [Hnot _]. exfalso. apply Hnot.
    rewrite <- Hid. now apply in_map.
  - apply NoDup_cons_iff in Hnd as [_ Hnd]. auto.
Qed.

Lemma filter_length_pos (f : R -> bool) tbl :
  (1 <= length (List.filter f tbl))%nat <-> exists x, In x tbl /\ f x = true.
Proof.
  split.
  - intros Hlen. destruct (List.filter f tbl) as [|x r] eqn:E; [simpl in Hlen; lia|].
    exists x. apply filter_In. rewrite E. now left.
  - intros (x & Hin & Hf).
    assert (Hx : In x (List.filter f tbl)) by (apply filter_In; auto).
    destruct (List.filter f tbl); [destruct Hx|simpl; lia].
Qed.

Lemma filter_length_le1 (f : R -> bool) tbl :
  List.NoDup (map rid tbl) ->
  ((length (List.filter f tbl) <= 1)%nat <->
   forall x y, In x tbl -> In y tbl -> f x = true -> f y = true -> rid x = rid y).
Proof.
  induction tbl as [|a tbl IH]; simpl; intros Hnd.
  - split; [tauto|lia].
  - apply NoDup_cons_iff in Hnd as [Hnot Hnd]. specialize (IH Hnd).
    destruct (f a) eqn:Fa; simpl.
    + split.
      * intros Hlen x y Hx Hy Fx Fy.
        assert (Hnone : forall z, In z tbl -> f z = true -> False).
        { intros z Hz Fz.
          assert (Hz' : In z (List.filter f tbl)) by (apply filter_In; auto).
          destruct (List.filter f tbl); [destruct Hz'|simpl in Hlen; lia]. }
        destruct Hx as [<-|Hx], Hy as [<-|Hy]; try reflexivity;
          exfalso; eauto.
      * intros Hall.
        assert (Hnil : List.filter f tbl = []).
        { destruct (List.filter f tbl) as [|z r] eqn:E; [reflexivity|].
          assert (Hz : In z tbl /\ f z = true).
          { apply filter_In. rewrite E. now left. }
          destruct Hz as [Hz Fz]. exfalso. apply Hnot.
          rewrite (Hall a z (or_introl eq_refl) (or_intror Hz) Fa Fz).
          now apply in_map. }
        rewrite Hnil. simpl. lia.
    + rewrite IH. split.
      * intros Hall x y [<-|Hx] [<-|Hy] Fx Fy; try congruence. auto.
      * intros Hall x y Hx Hy. apply Hall; auto.
Qed.

Lemma update_rids (c : R -> bool) f (tbl : list R) :
  (forall r, rid (f r) = rid r) ->
  map rid (Repo.update c f tbl) = map rid tbl.
Proof.
  intros Hf. unfold Repo.update. rewrite map_map. apply map_ext.
  intros r. destruct (c r); auto.
Qed.

Lemma save_rids (r : R) (tbl : list R) :
  map rid (Repo.save rid r tbl) = map rid tbl.
Proof.
  unfold Repo.save. rewrite map_map. apply map_ext. intros q.
  destruct (Nat.eqb_spec (rid q) (rid r)); auto.
Qed.

Lemma In_update (c : R -> bool) f (tbl : list R) q :
  In q (Repo.update c f tbl) <->
  exists p, In p tbl /\ q = (if c p then f p else p).
Proof.
  unfold Repo.update. rewrite in_map_iff. split; intros (p & H1 & H2); eauto.
Qed.

Lemma In_save (r : R) (tbl : list R) q :
  In q (Repo.save rid r tbl) <->
  (q = r /\ exists p, In p tbl /\ rid p = rid r) \/ (In q tbl /\ rid q <> rid r).
Proof.
  unfold Repo.save. rewrite in_map_iff. split.
  - intros (p & Hq & Hin). destruct (Nat.eqb_spec (rid p) (rid r)); subst; eauto.
  - intros [(-> & p & Hin & Hid)|(Hin & Hne)].
    + exists p. rewrite Hid, Nat.eqb_refl. auto.
    + exists q. destruct (Nat.eqb_spec (rid q) (rid r)); [contradiction|auto].
Qed.

End TableFacts.

Section CountFacts.
Context {R : Type}.
Variable rid : R -> nat.
Variable removedAt : R -> option Time.

Lemma count_app (w : R -> bool) a b :
  Repo.count removedAt w (a ++ b)
  = (Repo.count removedAt w a + Repo.count removedAt w b)%nat.
Proof. unfold Repo.count, Repo.find. now rewrite List.filter_app, List.length_app. Qed.

Lemma count_map_keeps (g : R -> R) (w : R -> bool) tbl :
  (forall r, Repo.live removedAt (g r) && w (g r) = Repo.live removedAt r && w r) ->
  Repo.count removedAt w (map g tbl) = Repo.count removedAt w tbl.
Proof.
  intros Hg. unfold Repo.count, Repo.find.
  induction tbl as [|a tbl IH]; simpl; [reflexivity|].
  rewrite Hg. destruct (_ && _); simpl; now rewrite IH.
Qed.

(** Saving a loaded row back unchanged leaves the table as it was. *)
Lemma save_same (r : R) tbl :
  List.NoDup (map rid tbl) -> In r tbl -> Repo.save rid r tbl = tbl.
Proof.
  intros Hnd Hin. unfold Repo.save.
  rewrite <- (map_id tbl) at 2. apply map_ext_in. intros q Hq.
  destruct (Nat.eqb_spec (rid q) (rid r)) as [He|]; [|reflexivity].
  symmetry. now apply (same_id_same_row rid tbl q r Hnd).
Qed.

(** A saved row is the one the next lookup by id finds, when it is not
    removed. *)
Lemma findOne_save (r' : R) tbl :
  List.NoDup (map rid tbl) ->
  (exists r, In r tbl /\ rid r = rid r') ->
  Repo.live removedAt r' = true ->
  Repo.findOne removedAt (fun q => Nat.eqb (rid q) (rid r')) (Repo.save rid r' tbl)
  = Some r'.
Proof.
  intros Hnd Hex Hl.
  assert (Hnd' : List.NoDup (map rid (Repo.save rid r' tbl))) by now rewrite save_rids.
  assert (Hin' : In r' (Repo.save rid r' tbl)).
  { apply In_save. left. split; [reflexivity|exact Hex]. }
  destruct (Repo.findOne _ _ _) as [q|] eqn:H.
  - apply findOne_Some in H as (Hq & _ & Hid). apply Nat.eqb_eq in Hid.
    now rewrite (same_id_same_row rid _ q r' Hnd' Hq Hin' Hid).
  - pose proof (findOne_None _ _ _ H r' Hin' Hl) as Hf. cbv beta in Hf.
    rewrite Nat.eqb_refl in Hf. discriminate.
Qed.

(** Saving a row moves it from the counts its old value was in to the
    counts its new value is in. *)
Lemma count_save (w : R -> bool) (r r' : R) tbl :
  List.NoDup (map rid tbl) -> In r tbl -> rid r' = rid r ->
  (Repo.count removedAt w (Repo.save rid r' tbl) + b2n (Repo.live removedAt r && w r))%nat
  = (Repo.count removedAt w tbl + b2n (Repo.live removedAt r' && w r'))%nat.
Proof.
  unfold Repo.count, Repo.find, Repo.save. intros Hnd Hin Hid.
  induction tbl as [|a tbl IH]; [destruct Hin|].
  simpl in Hnd. apply NoDup_cons_iff in Hnd as [Hnot Hnd]. simpl.
  destruct Hin as [->|Hin].
  - rewrite Hid, Nat.eqb_refl.
    assert (Hrest : map (fun q => if Nat.eqb (rid q) (rid r) then r' else q) tbl = tbl).
    { rewrite <- (map_id tbl) at 2. apply map_ext_in. intros q Hq.
      destruct (Nat.eqb_spec (rid q) (rid r)) as [He|]; [|reflexivity].
      exfalso. apply Hnot. rewrite <- He. now apply in_map. }
    rewrite Hrest.
    destruct (Repo.live removedAt r' && w r'), (Repo.live removedAt r && w r);
      simpl; lia.
  - assert (Hne : rid a <> rid r').
    { intros He. apply Hnot. rewrite He, Hid. now apply in_map. }
    apply Nat.eqb_neq in Hne. rewrite Hne.
    specialize (IH Hnd Hin).
    destruct (Repo.live removedAt a && w a); simpl; lia.
Qed.
End CountFacts.

Section ListedFacts.
Context {R : Type}.
Variable rid : R -> nat.
Variable removedAt : R -> option Time.

Abbreviation listed := (listed rid removedAt).

Lemma In_listed ids tbl r :
  In r (listed ids tbl) <->
  In r tbl /\ Repo.live removedAt r = true /\ In (rid r) ids.
Proof.
  unfold listed, Repo.find. rewrite filter_In, andb_true_iff, existsb_exists.
  split.
  - intros (Hin & Hl & x & Hx & He). apply Nat.eqb_eq in He. subst x. auto.
  - intros (Hin & Hl & Hx). split; [exact Hin|]. split; [exact Hl|].
    exists (rid r). split; [exact Hx|apply Nat.eqb_refl].
Qed.

Lemma NoDup_map_filter (f : R -> bool) tbl :
  List.NoDup (map rid tbl) -> List.NoDup (map rid (List.filter f tbl)).
Proof.
  induction tbl as [|a tbl IH]; simpl; intros Hnd; [constructor|].
  apply NoDup_cons_iff in Hnd as [Hnot Hnd].
  destruct (f a); simpl; [|auto].
  constructor; [|auto]. intros Hin. apply Hnot.
  apply in_map_iff in Hin as (x & Hx & Hin). apply filter_In in Hin as [Hin _].
  rewrite <- Hx. now apply in_map.
Qed.

(** The length test of the handlers passes exactly for a duplicate-free
    list of ids of non-deleted rows. *)
Lemma listed_complete ids tbl :
  List.NoDup (map rid tbl) ->
  (length (listed ids tbl) = length ids <->
   List.NoDup ids
   /\ forall x, In x ids ->
                exists r, In r tbl /\ Repo.live removedAt r = true /\ rid r = x).
Proof.
  intros Hnd.
  assert (HndF : List.NoDup (map rid (listed ids tbl))).
  { unfold listed, Repo.find. now apply NoDup_map_filter. }
  assert (Hincl : incl (map rid (listed ids tbl)) ids).
  { intros x Hx. apply in_map_iff in Hx as (r & <- & Hr).
    now apply In_listed in Hr. }
  split.
  - intros Hlen.
    assert (Hle : (length ids <= length (map rid (listed ids tbl)))%nat).
    { rewrite length_map. lia. }
    split.
    + eapply NoDup_incl_NoDup; eauto.
    + intros x Hx.
      assert (Hx' : In x (map rid (listed ids tbl))).
      { eapply NoDup_length_incl; eauto. }
      apply in_map_iff in Hx' as (r & <- & Hr). apply In_listed in Hr.
      exists r. tauto.
  - intros [Hids Hall].
    assert (Hincl' : incl ids (map rid (listed ids tbl))).
    { intros x Hx. destruct (Hall x Hx) as (r & Hr & Hl & <-).
      apply in_map. apply In_listed. auto. }
    pose proof (NoDup_incl_length HndF Hincl) as H1.
    pose proof (NoDup_incl_length Hids Hincl') as H2.
    rewrite length_map in H1, H2. lia.
Qed.

End ListedFacts.

Section WriteOrdersFacts.
Context {R : Type}.
Variable rid : R -> nat.
Variable set_order : Z -> R -> R.
Hypothesis rid_set_order : forall v r, rid (set_order v r) = rid r.

Lemma writeOrders_rids ids : forall k tbl,
  map rid (Repo.writeOrders rid set_order ids k tbl) = map rid tbl.
Proof.
  induction ids as [|a ids IH]; intros k tbl; simpl; [reflexivity|].
  rewrite IH. apply update_rids. auto.
Qed.

(** Rows that are not listed are left as they were. *)
Lemma writeOrders_unlisted ids : forall k tbl r,
  ~ In (rid r) ids ->
  (In r (Repo.writeOrders rid set_order ids k tbl) <-> In r tbl).
Proof.
  induction ids as [|a ids IH]; intros k tbl r Hnot; simpl; [tauto|].
  rewrite IH by (intros H; apply Hnot; now right).
  rewrite In_update. split.
  - intros (p & Hp & ->). destruct (Nat.eqb_spec (rid p) a) as [Heq|Hne]; [|exact Hp].
    exfalso. apply Hnot. left. now rewrite rid_set_order in *.
  - intros Hr. exists r. split; [exact Hr|].
    destruct (Nat.eqb_spec (rid r) a) as [Heq|Hne]; [|reflexivity].
    exfalso. apply Hnot. now left.
Qed.

(** The row listed at position [i] ends with [order = index + i]. *)
Lemma writeOrders_listed ids : forall k tbl i x r',
  List.NoDup ids -> nth_error ids i = Some x ->
  In r' (Repo.writeOrders rid set_order ids k tbl) -> rid r' = x ->
  exists r, In r tbl /\ rid r = x /\ r' = set_order (Z.of_nat (k + i)) r.
Proof.
  induction ids as [|a ids IH]; intros k tbl i x r' Hnd Hi Hr' Hx.
  - destruct i; discriminate.
  - apply NoDup_cons_iff in Hnd as [Hnot Hnd]. simpl in Hr'.
    destruct i as [|i]; simpl in Hi.
    + injection Hi as ->.
      apply writeOrders_unlisted in Hr'; [|congruence].
      apply In_update in Hr' as (p & Hp & ->).
      destruct (Nat.eqb_spec (rid p) x) as [Heq|Hne].
      * exists p. rewrite Nat.add_0_r. auto.
      * contradiction.
    + destruct (IH (S k) _ i x r' Hnd Hi Hr' Hx) as (r1 & Hr1 & Hid & ->).
      apply In_update in Hr1 as (p & Hp & ->).
      destruct (Nat.eqb_spec (rid p) a) as [Heq|Hne].
      * exfalso. apply Hnot. rewrite rid_set_order in Hid.
        apply nth_error_In in Hi. congruence.
      * exists p. replace (k + S i)%nat with (S k + i)%nat by lia. auto.
Qed.
End WriteOrdersFacts.

Section IdConditions.

(** The queries that name a relation by its bare id find nothing. *)
Lemma slugTaken_false slug siteId except d :
  PageController.slugTaken slug siteId except d = false.
Proof.
  unfold PageController.slugTaken. rewrite findOne_no_match.
  - apply bool_decide_eq_false. intros [x Hx]. discriminate.
  - intros r. unfold Repo.by_id_string. now rewrite andb_false_r.
Qed.

Lemma countPagesById_zero siteId d : countPagesById siteId d = 0%nat.
Proof. unfold countPagesById. now apply count_no_match. Qed.

Lemma countSections_zero pageId d : countSections pageId d = 0%nat.
Proof. unfold countSections. now apply count_no_match. Qed.

Lemma unset_homepage_no_match siteId (c : Page.t -> bool) tbl :
  Repo.update (fun p => Repo.by_id_string Page.siteId siteId p && c p)
    (Page.set_isHomepage false) tbl = tbl.
Proof. now apply update_no_match. Qed.

Lemma unset_other_homepage_no_match siteId (c c' : Page.t -> bool) tbl :
  Repo.update (fun p => Repo.by_id_string Page.siteId siteId p && c p && c' p)
    (Page.set_isHomepage false) tbl = tbl.
Proof. now apply update_no_match. Qed.
End IdConditions.

Section InsertFacts.

(** The unique index on [slug]: the test of the insertion, read as a
    statement about the table. *)
Lemma slug_held_sites slug tbl :
  existsb (fun q => String.eqb (Site.slug q) slug) tbl = true
  <-> In slug (map Site.slug tbl).
Proof.
  rewrite existsb_exists, in_map_iff. split.
  - intros (q & Hq & He). apply String.eqb_eq in He. eauto.
  - intros (q & He & Hq). exists q. split; [exact Hq|]. now apply String.eqb_eq.
Qed.

Lemma slug_held_pages slug tbl :
  existsb (fun q => String.eqb (Page.slug q) slug) tbl = true
  <-> In slug (map Page.slug tbl).
Proof.
  rewrite existsb_exists, in_map_iff. split.
  - intros (q & Hq & He). apply String.eqb_eq in He. eauto.
  - intros (q & He & Hq). exists q. split; [exact Hq|]. now apply String.eqb_eq.
Qed.

Lemma slug_free_sites slug tbl :
  existsb (fun q => String.eqb (Site.slug q) slug) tbl = false
  <-> ~ In slug (map Site.slug tbl).
Proof. rewrite <- slug_held_sites. destruct (existsb _ tbl); split; congruence. Qed.

Lemma slug_free_pages slug tbl :
  existsb (fun q => String.eqb (Page.slug q) slug) tbl = false
  <-> ~ In slug (map Page.slug tbl).
Proof. rewrite <- slug_held_pages. destruct (existsb _ tbl); split; congruence. Qed.
End InsertFacts.

Ltac case_insert H :=
  match goal with
  | |- context [existsb ?f ?tbl] => destruct (existsb f tbl) eqn:H; cbv beta iota
  end.

Section PageShapes.
Import PageController.

(** [createPage], with its queries answered: the lookup of the slug and
    the unset of the former homepage name the site by its id and meet no
    row, so the handler appends its row under the generated slug or is
    refused by the unique index, and touches no other row. *)
Lemma createPage_eq dto user rnd d :
  createPage dto user rnd d =
    if negb (validate dto) then (Err (BadRequestError "Validation failed"), d)
    else
      match Repo.findOne Site.deletedAt
              (fun s => Nat.eqb (Site.id s) (c_siteId dto)
                        && Nat.eqb (Site.owner s) (User.id user)) (sites d) with
      | None => (Err (NotFoundError "Site not found or access denied"), d)
      | Some site =>
          if (User.limit User.maxPagesPerSite 50 user <=? countPages (Site.id site) d)%nat
          then (Err (ForbiddenError
                       ("You have reached the maximum number of pages ("
                          ++ pretty (User.limit User.maxPagesPerSite 50 user)
                          ++ ") for this site")), d)
          else if existsb (fun q => String.eqb (Page.slug q)
                                      (Slug.generateSlug (c_title dto))) (pages d)
          then (Err (uniqueViolation (Slug.generateSlug (c_title dto))), d)
          else (Ok (new_page dto (Site.id site) d),
                mkDB (sites d) (pages d ++ [new_page dto (Site.id site) d])
                  (sections d) (S (nextId d)))
      end.
Proof.
  unfold createPage, new_page. unfold_m.
  destruct (negb (validate dto)) eqn:Hv; [reflexivity|].
  case_findOne Hs; [|reflexivity].
  case_leb Hq; [reflexivity|].
  rewrite slugTaken_false. cbv beta iota.
  assert (Hupd : forall tbl,
    Repo.update (fun p => Repo.by_id_string Page.siteId (Site.id row) p && Page.isHomepage p)
      (Page.set_isHomepage false) tbl = tbl)
    by (intros; apply unset_homepage_no_match).
  destruct (default false (c_isHomepage dto)) eqn:Hhp; cbv beta iota.
  - unfold set_pages. cbn [sites pages sections nextId Page.slug]. rewrite Hupd.
    case_insert Hu; [destruct d|]; reflexivity.
  - cbn [sites pages sections nextId Page.slug].
    case_insert Hu; reflexivity.
Qed.

Lemma createPage_effect dto user rnd d :
  (exists e, createPage dto user rnd d = (Err e, d))
  \/ (exists site newp,
        In site (sites d) /\ siteLive site = true
        /\ Site.id site = c_siteId dto /\ Site.owner site = User.id user
        /\ validate dto = true
        /\ (countPages (Site.id site) d < User.limit User.maxPagesPerSite 50 user)%nat
        /\ createPage dto user rnd d
           = (Ok newp, mkDB (sites d) (pages d ++ [newp]) (sections d) (S (nextId d)))
        /\ newp = new_page dto (Site.id site) d
        /\ ~ In (Page.slug newp) (map Page.slug (pages d))).
Proof.
  rewrite createPage_eq.
  destruct (negb (validate dto)) eqn:Hv; [left; eauto|].
  case_findOne Hs; [|left; eauto].
  case_leb Hq; [left; eauto|].
  case_insert Hu; [left; eauto|].
  apply findOne_Some in Hs as (Hin & Hlive & Hw).
  apply andb_prop in Hw as [Hid Hown]. apply Nat.eqb_eq in Hid, Hown.
  apply Nat.leb_gt in Hq. apply negb_false_iff in Hv.
  right. exists row. eexists. repeat (split; [eassumption || reflexivity|]).
  now apply slug_free_pages.
Qed.

Ltac case_each :=
  repeat match goal with
         | |- context [match ?x with _ => _ end] => destruct x
         end.

(** The comparison that guards the slug regeneration is made after
    [page.title] was overwritten: it never succeeds. *)
Lemma assign_title_eq id dto rnd site page d :
  assign_title id dto rnd site page d =
    match u_title dto with
    | Some title => Page.set_title title page
    | None => page
    end.
Proof.
  unfold assign_title. destruct (u_title dto) as [title|]; [|reflexivity].
  cbn [Page.title Page.set_title]. now rewrite String.eqb_refl.
Qed.

Lemma updated_page_id id dto rnd site page d :
  Page.id (updated_page id dto rnd site page d) = Page.id page.
Proof.
  unfold updated_page. rewrite assign_title_eq.
  unfold assign_tail, assign_flag, assign_middle. case_each; reflexivity.
Qed.

Lemma updated_page_siteId id dto rnd site page d :
  Page.siteId (updated_page id dto rnd site page d) = Page.siteId page.
Proof.
  unfold updated_page. rewrite assign_title_eq.
  unfold assign_tail, assign_flag, assign_middle. case_each; reflexivity.
Qed.

Lemma updated_page_deletedAt id dto rnd site page d :
  Page.deletedAt (updated_page id dto rnd site page d) = Page.deletedAt page.
Proof.
  unfold updated_page. rewrite assign_title_eq.
  unfold assign_tail, assign_flag, assign_middle. case_each; reflexivity.
Qed.

Lemma updated_page_isHomepage id dto rnd site page d :
  Page.isHomepage (updated_page id dto rnd site page d)
  = default (Page.isHomepage page) (u_isHomepage dto).
Proof.
  unfold updated_page. rewrite assign_title_eq.
  unfold assign_tail, assign_flag, assign_middle. case_each; reflexivity.
Qed.

Lemma updated_page_title id dto rnd site page d :
  Page.title (updated_page id dto rnd site page d)
  = default (Page.title page) (u_title dto).
Proof.
  unfold updated_page. rewrite assign_title_eq.
  unfold assign_tail, assign_flag, assign_middle. case_each; reflexivity.
Qed.

(** Whatever title is sent, the saved page keeps the slug it had. *)
Lemma updated_page_slug id dto rnd site page d :
  Page.slug (updated_page id dto rnd site page d) = Page.slug page.
Proof.
  unfold updated_page. rewrite assign_title_eq.
  unfold assign_tail, assign_flag, assign_middle. case_each; reflexivity.
Qed.

(** [updatePage], with the assignments grouped: the only row written is
    the page itself. *)
Lemma updatePage_eq id dto user rnd d :
  updatePage id dto user rnd d =
    match stored id d with
    | None => (Err (NotFoundError "Page not found"), d)
    | Some page =>
        match List.find (fun s => Nat.eqb (Site.id s) (Page.siteId page)) (sites d) with
        | None => (Err (TypeError "Cannot read properties of null (reading 'id')"), d)
        | Some joined =>
            match Repo.findOne Site.deletedAt
                    (fun s => Nat.eqb (Site.id s) (Site.id joined)
                              && Nat.eqb (Site.owner s) (User.id user)) (sites d) with
            | None =>
                (Err (ForbiddenError "You do not have permission to update this page"), d)
            | Some site =>
                let page' := updated_page id dto rnd site page d in
                (Ok page', set_pages (Repo.save Page.id page' (pages d)) d)
            end
        end
    end.
Proof.
  unfold updatePage, stored, updated_page, assign_title, assign_flag. unfold_m.
  case_findOne Hp; [|reflexivity].
  case_find Hj; [|reflexivity].
  case_findOne Hs; [|reflexivity].
  assert (Hupd : forall tbl,
    Repo.update (fun p => Repo.by_id_string Page.siteId (Site.id row1) p
                          && Page.isHomepage p && negb (Nat.eqb (Page.id p) id))
      (Page.set_isHomepage false) tbl = tbl)
    by (intros; apply unset_other_homepage_no_match).
  destruct (u_title dto) as [title|]; [destruct (negb _)|];
    destruct (u_isHomepage dto) as [[]|]; cbv beta iota;
    unfold set_pages; cbn [sites pages sections nextId]; rewrite ?Hupd;
    try reflexivity; destruct d; reflexivity.
Qed.

Lemma updatePage_effect id dto user rnd d :
  (exists e, updatePage id dto user rnd d = (Err e, d))
  \/ (exists page site,
        stored id d = Some page
        /\ In site (sites d) /\ siteLive site = true
        /\ Site.id site = Page.siteId page /\ Site.owner site = User.id user
        /\ updatePage id dto user rnd d
           = (Ok (updated_page id dto rnd site page d),
              set_pages (Repo.save Page.id (updated_page id dto rnd site page d)
                           (pages d)) d)).
Proof.
  rewrite updatePage_eq.
  destruct (stored id d) as [page|] eqn:Hp; [|left; eauto].
  case_find Hj; [|left; eauto].
  case_findOne Hs; [|left; eauto].
  right. exists page, row0. split; [reflexivity|].
  apply find_raw_Some in Hj as [_ Hj]. apply Nat.eqb_eq in Hj.
  apply findOne_Some in Hs as (Hin & Hlive & Hs).
  apply andb_prop in Hs as [Hs Hown]. apply Nat.eqb_eq in Hs, Hown.
  repeat split; auto; congruence.
Qed.

(** [deletePage] never gets past its count: [count({ site: site.id })]
    reports no page, and the request of a requester who may delete the
    page is answered as if the page were the last one. *)
Lemma deletePage_eq id user d :
  deletePage id user d =
    match stored id d with
    | None => (Err (NotFoundError "Page not found"), d)
    | Some page =>
        match List.find (fun s => Nat.eqb (Site.id s) (Page.siteId page)) (sites d) with
        | None => (Err (TypeError "Cannot read properties of null (reading 'id')"), d)
        | Some joined =>
            match Repo.findOne Site.deletedAt
                    (fun s => Nat.eqb (Site.id s) (Site.id joined)
                              && Nat.eqb (Site.owner s) (User.id user)) (sites d) with
            | None =>
                (Err (ForbiddenError "You do not have permission to delete this page"), d)
            | Some site =>
                (Err (BadRequestError "Cannot delete the last page of a site"), d)
            end
        end
    end.
Proof.
  unfold deletePage, stored. unfold_m.
  case_findOne Hp; [|reflexivity].
  case_find Hj; [|reflexivity].
  case_findOne Hs; [|reflexivity].
  now rewrite countPagesById_zero.
Qed.

Lemma deletePage_rejects id user d :
  exists e, deletePage id user d = (Err e, d).
Proof.
  rewrite deletePage_eq.
  destruct (stored id d); [|eauto].
  case_find Hj; [|eauto]. case_findOne Hs; eauto.
Qed.
End PageShapes.

Section SiteShapes.
Import SiteController.

(** [createSite], with its queries answered. The site row is saved
    before the home page: when a page of any site has the slug [home],
    the request fails on the home page and the site row stays. *)
Lemma createSite_eq dto user rnd d :
  createSite dto user rnd d =
    if negb (validate dto) then (Err (BadRequestError "Validation failed"), d)
    else if (User.limit User.maxSites 10 user <=? countSites user d)%nat
    then (Err (ForbiddenError
                 ("You have reached the maximum number of sites ("
                    ++ pretty (User.limit User.maxSites 10 user) ++ ") for your plan")), d)
    else if existsb (fun q => String.eqb (Site.slug q) (site_slug dto rnd d)) (sites d)
    then (Err (uniqueViolation (site_slug dto rnd d)), d)
    else if existsb (fun q => String.eqb (Page.slug q) "home") (pages d)
    then (Err (uniqueViolation "home"),
          mkDB (sites d ++ [new_site dto user rnd d]) (pages d) (sections d)
            (S (nextId d)))
    else (Ok (new_site dto user rnd d),
          mkDB (sites d ++ [new_site dto user rnd d]) (pages d ++ [home_page d])
            (sections d) (S (S (nextId d)))).
Proof.
  unfold createSite, new_site, home_page, site_slug, countSites. unfold_m.
  destruct (negb (validate dto)); [reflexivity|].
  case_leb Hq; [reflexivity|].
  cbn [Site.slug]. case_insert Hu; [reflexivity|].
  cbn [sites pages sections nextId Page.slug Site.id Site.set_id].
  case_insert Hh; reflexivity.
Qed.

Lemma createSite_effect dto user rnd d :
  (exists e, createSite dto user rnd d = (Err e, d))
  \/ (validate dto = true
      /\ (countSites user d < User.limit User.maxSites 10 user)%nat
      /\ ~ In (site_slug dto rnd d) (map Site.slug (sites d))
      /\ ((In "home" (map Page.slug (pages d))
           /\ createSite dto user rnd d
              = (Err (uniqueViolation "home"),
                 mkDB (sites d ++ [new_site dto user rnd d]) (pages d) (sections d)
                   (S (nextId d))))
          \/ (~ In "home" (map Page.slug (pages d))
              /\ createSite dto user rnd d
                 = (Ok (new_site dto user rnd d),
                    mkDB (sites d ++ [new_site dto user rnd d]) (pages d ++ [home_page d])
                      (sections d) (S (S (nextId d))))))).
Proof.
  rewrite createSite_eq.
  destruct (negb (validate dto)) eqn:Hv; [left; eauto|].
  case_leb Hq; [left; eauto|].
  case_insert Hu; [left; eauto|].
  right. apply negb_false_iff in Hv. apply Nat.leb_gt in Hq.
  apply slug_free_sites in Hu.
  split; [exact Hv|]. split; [exact Hq|]. split; [exact Hu|].
  case_insert Hh.
  - left. split; [now apply slug_held_pages|reflexivity].
  - right. split; [now apply slug_free_pages|reflexivity].
Qed.

Lemma updateSite_shape id dto user rnd d :
  (exists e, updateSite id dto user rnd d = (Err e, d))
  \/ (exists site site',
        updateSite id dto user rnd d
        = (Ok site', set_sites (Repo.save Site.id site' (sites d)) d)
        /\ In site (sites d) /\ siteLive site = true
        /\ Site.id site = id /\ Site.owner site = User.id user
        /\ Site.id site' = Site.id site
        /\ Site.owner site' = Site.owner site
        /\ Site.deletedAt site' = Site.deletedAt site
        /\ Site.slug site' = Site.slug site).
Proof.
  unfold updateSite. unfold_m.
  case_findOne Hs; [|left; eauto].
  right. exists row.
  apply findOne_Some in Hs as (Hin & Hlive & Hw).
  apply andb_prop in Hw as [Hid Hown]. apply Nat.eqb_eq in Hid, Hown.
  destruct (u_name dto) as [name|].
  - cbn [Site.name Site.set_name]. rewrite String.eqb_refl. cbv beta iota. simpl.
    eexists. split; [reflexivity|].
    repeat split; auto;
      repeat match goal with
             | |- context [match ?x with _ => _ end] => destruct x
             end; reflexivity.
  - simpl. eexists. split; [reflexivity|].
    repeat split; auto;
      repeat match goal with
             | |- context [match ?x with _ => _ end] => destruct x
             end; reflexivity.
Qed.
End SiteShapes.
(* ===================================================================== *)
(** * The homepage flag *)
(* ===================================================================== *)

Section Homepage.
Import PageController.

(** An accepted [createPage] adds its page to the homepages of the site
    when it carries the flag, and leaves the flags of all other pages. *)
Lemma countHomepages_create dto user rnd d newp d' :
  createPage dto user rnd d = (Ok newp, d') ->
  countHomepages (c_siteId dto) d'
  = (countHomepages (c_siteId dto) d + b2n (default false (c_isHomepage dto)))%nat.
Proof.
  intros H.
  destruct (createPage_effect dto user rnd d)
    as [[e He]|(site & p & _ & _ & Hid & _ & _ & _ & Hc & Hp & _)]; [congruence|].
  rewrite Hc in H. injection H as <- <-.
  unfold countHomepages. cbn [pages]. rewrite count_app. f_equal.
  rewrite Hp, Hid. unfold Repo.count, Repo.find, Repo.live. cbn.
  rewrite Nat.eqb_refl. now destruct (default false (c_isHomepage dto)).
Qed.

(** An accepted [updatePage] changes the flag of the page it saves and of
    no other page. *)
Lemma countHomepages_update id dto user rnd d page page' d' :
  List.NoDup (map Page.id (pages d)) ->
  stored id d = Some page ->
  updatePage id dto user rnd d = (Ok page', d') ->
  (countHomepages (Page.siteId page) d' + b2n (Page.isHomepage page))%nat
  = (countHomepages (Page.siteId page) d
     + b2n (default (Page.isHomepage page) (u_isHomepage dto)))%nat.
Proof.
  intros Hnd Hst H.
  destruct (updatePage_effect id dto user rnd d)
    as [[e He]|(page0 & site & Hst0 & _ & _ & _ & _ & Hu)]; [congruence|].
  rewrite Hst in Hst0. injection Hst0 as <-.
  rewrite Hu in H. injection H as <- <-.
  apply findOne_Some in Hst as (Hin & Hlive & _).
  unfold countHomepages, set_pages. cbn [pages].
  pose proof (count_save Page.id Page.deletedAt
                (fun p => Nat.eqb (Page.siteId p) (Page.siteId page) && Page.isHomepage p)
                page (updated_page id dto rnd site page d) (pages d) Hnd Hin
                (updated_page_id _ _ _ _ _ _)) as Hc.
  unfold Repo.live in Hc, Hlive.
  rewrite updated_page_deletedAt, updated_page_siteId, updated_page_isHomepage in Hc.
  destruct (Page.deletedAt page); [discriminate|].
  rewrite Nat.eqb_refl in Hc. simpl in Hc. exact Hc.
Qed.

(** C1. The number of homepages of a site is not kept at one. The site
    "Demo" has the single homepage "Home". A page created with
    [isHomepage: true] is accepted and the site then has two homepages;
    so it does when the page "Blog" is updated with [isHomepage: true]:
    the update that is meant to unset the former homepage names the site
    by its id and matches no row. An update of "Home" with
    [isHomepage: false] is accepted as well and leaves the site without a
    homepage. In general an accepted create with the flag raises the
    number of homepages of the site by one, and an accepted update
    changes the flag of its own page only. *)
Theorem homepage_not_unset :
  let landing := mkCreate "Landing" None None None (Some true) None 1 in
  countHomepages 1 demo_site = 1%nat
  /\ is_ok (answer (createPage landing alice "0.4fzyo82mvyr") demo_site) = true
  /\ map (fun p => (Page.id p, Page.isHomepage p))
       (pages (exec (createPage landing alice "0.4fzyo82mvyr") demo_site))
     = [(2%nat, true); (3%nat, true)]
  /\ countHomepages 1 (exec (createPage landing alice "0.4fzyo82mvyr") demo_site) = 2%nat
  /\ countHomepages 1 demo_pages = 1%nat
  /\ is_ok (answer (updatePage 3 (only_flag true) alice "0.4fzyo82mvyr") demo_pages) = true
  /\ map (fun p => (Page.id p, Page.isHomepage p))
       (pages (exec (updatePage 3 (only_flag true) alice "0.4fzyo82mvyr") demo_pages))
     = [(2%nat, true); (3%nat, true); (4%nat, false)]
  /\ is_ok (answer (updatePage 2 (only_flag false) alice "0.4fzyo82mvyr") demo_site) = true
  /\ countHomepages 1 (exec (updatePage 2 (only_flag false) alice "0.4fzyo82mvyr") demo_site)
     = 0%nat
  /\ (forall dto user rnd d newp d',
        createPage dto user rnd d = (Ok newp, d') ->
        c_isHomepage dto = Some true ->
        pages d' = pages d ++ [newp]
        /\ countHomepages (c_siteId dto) d' = S (countHomepages (c_siteId dto) d))
  /\ (forall id dto user rnd d page page' d',
        List.NoDup (map Page.id (pages d)) ->
        stored id d = Some page ->
        updatePage id dto user rnd d = (Ok page', d') ->
        (forall q, In q (pages d) -> Page.id q <> id -> In q (pages d'))
        /\ (Page.isHomepage page = false -> u_isHomepage dto = Some true ->
            countHomepages (Page.siteId page) d' = S (countHomepages (Page.siteId page) d))
        /\ (Page.isHomepage page = true -> u_isHomepage dto = Some false ->
            S (countHomepages (Page.siteId page) d') = countHomepages (Page.siteId page) d)).
Proof.
  intros landing.
  repeat (split; [vm_compute; reflexivity|]).
  split.
  - intros dto user rnd d newp d' H Hflag. split.
    + destruct (createPage_effect dto user rnd d)
        as [[e He]|(site & p & _ & _ & _ & _ & _ & _ & Hc & _)]; [congruence|].
      rewrite Hc in H. now injection H as <- <-.
    + rewrite (countHomepages_create _ _ _ _ _ _ H), Hflag. simpl. lia.
  - intros id dto user rnd d page page' d' Hnd Hst H.
    pose proof (countHomepages_update _ _ _ _ _ _ _ _ Hnd Hst H) as Hc.
    split; [|split].
    + intros q Hq Hne.
      destruct (updatePage_effect id dto user rnd d)
        as [[e He]|(page0 & site & Hst0 & _ & _ & _ & _ & Hu)]; [congruence|].
      rewrite Hu in H. injection H as <- <-. cbn [pages set_pages].
      apply findOne_Some in Hst0 as (_ & _ & Hid). apply Nat.eqb_eq in Hid.
      apply In_save. right. split; [exact Hq|]. rewrite updated_page_id. congruence.
    + intros Hf Hflag. rewrite Hf, Hflag in Hc. simpl in Hc. lia.
    + intros Hf Hflag. rewrite Hf, Hflag in Hc. simpl in Hc. lia.
Qed.
End Homepage.

(* ===================================================================== *)
(** * Reordering pages and sections *)
(* ===================================================================== *)

Section ReorderCore.
Context {R : Type}.
Variable rid : R -> nat.
Variable removedAt : R -> option Time.
Variable set_order : Z -> R -> R.
Variable access : R -> bool.
Hypothesis rid_set_order : forall v r, rid (set_order v r) = rid r.

Lemma reorder_core ids tbl :
  List.NoDup (map rid tbl) ->
  ReorderSpec rid removedAt set_order access ids tbl
    (reorder_accepts rid removedAt access ids tbl)
    (if reorder_accepts rid removedAt access ids tbl
     then Repo.writeOrders rid set_order ids 0 tbl else tbl).
Proof.
  intros Hnd.
  assert (Hiff : reorder_accepts rid removedAt access ids tbl = true <->
            ids <> [] /\ List.NoDup ids
            /\ forall x, In x ids ->
                  exists r, In r tbl /\ Repo.live removedAt r = true
                            /\ rid r = x /\ access r = true).
  { unfold reorder_accepts. rewrite !andb_true_iff, negb_true_iff.
    rewrite Nat.eqb_neq, Nat.eqb_eq, (listed_complete rid removedAt ids tbl Hnd).
    rewrite forallb_forall. split.
    - intros [[Hne [Hids Hall]] Hacc].
      split; [intros ->; now apply Hne|]. split; [exact Hids|].
      intros x Hx. destruct (Hall x Hx) as (r & Hr & Hl & Hid).
      exists r. repeat split; auto. apply Hacc. apply In_listed. subst x. auto.
    - intros (Hne & Hids & Hall). split; [split; [|split; [exact Hids|]]|].
      + destruct ids; [congruence|simpl; lia].
      + intros x Hx. destruct (Hall x Hx) as (r & Hr & Hl & Hid & _). eauto.
      + intros r Hr. apply In_listed in Hr as (Hr & Hl & Hx).
        destruct (Hall _ Hx) as (r2 & Hr2 & _ & Hid & Hacc).
        now rewrite (same_id_same_row rid tbl r r2 Hnd Hr Hr2 (eq_sym Hid)). }
  unfold ReorderSpec. split; [exact Hiff|]. split.
  - now intros ->.
  - intros Hacc. rewrite Hacc. apply Hiff in Hacc as (_ & Hids & _).
    split; [|split].
    + now apply writeOrders_rids.
    + intros i x r' Hi Hr' Hid.
      apply (writeOrders_listed rid set_order rid_set_order ids 0 tbl i x r'); auto.
    + intros r' Hnot. now apply writeOrders_unlisted.
Qed.
End ReorderCore.

Section ReorderHandlers.

Lemma checkAccess_pages user d l :
  exists r, PageController.checkAccess user l d = (r, d)
            /\ is_ok r = forallb (canAccessPage user d) l.
Proof.
  induction l as [|p l (r & IH & Hr)]; simpl.
  - exists (Ok tt). split; reflexivity.
  - unfold canAccessPage. unfold_m.
    case_find Hj; [|eexists; split; reflexivity].
    case_findOne Hs; [|eexists; split; reflexivity].
    exists r. split; [exact IH|exact Hr].
Qed.

Lemma checkAccess_sections user d l :
  exists r, SectionController.checkAccess user l d = (r, d)
            /\ is_ok r = forallb (canAccessSection user d) l.
Proof.
  induction l as [|s l (r & IH & Hr)]; simpl.
  - exists (Ok tt). split; reflexivity.
  - unfold canAccessSection, SectionController.sectionSite. unfold_m.
    case_find Hp; [|eexists; split; reflexivity].
    case_find Hj; [|eexists; split; reflexivity].
    case_findOne Hs; [|eexists; split; reflexivity].
    exists r. split; [exact IH|exact Hr].
Qed.

Lemma reorderPages_outcome ids user d :
  is_ok (answer (PageController.reorderPages (Some ids) user) d)
  = reorder_accepts Page.id Page.deletedAt (canAccessPage user d) ids (pages d)
  /\ exec (PageController.reorderPages (Some ids) user) d
     = if reorder_accepts Page.id Page.deletedAt (canAccessPage user d) ids (pages d)
       then set_pages (PageController.writeOrders ids 0 (pages d)) d
       else d.
Proof.
  unfold PageController.reorderPages, reorder_accepts, listed, answer, exec.
  unfold mbind, M_bind, mret, M_ret, throw_if, throw, gets, modify. simpl.
  destruct (Nat.eqb (length ids) 0); simpl; [auto|].
  destruct (Nat.eqb _ (length ids)); simpl; [|auto].
  destruct (checkAccess_pages user d
              (Repo.find Page.deletedAt
                 (fun p => existsb (Nat.eqb (Page.id p)) ids) (pages d)))
    as (r & -> & Hr).
  rewrite <- Hr. destruct r; simpl; auto.
Qed.

Lemma reorderSections_outcome ids user d :
  is_ok (answer (SectionController.reorderSections (Some ids) user) d)
  = reorder_accepts PageSection.id PageSection.deletedAt (canAccessSection user d)
      ids (sections d)
  /\ exec (SectionController.reorderSections (Some ids) user) d
     = if reorder_accepts PageSection.id PageSection.deletedAt
            (canAccessSection user d) ids (sections d)
       then set_sections (SectionController.writeOrders ids 0 (sections d)) d
       else d.
Proof.
  unfold SectionController.reorderSections, reorder_accepts, listed, answer, exec.
  unfold mbind, M_bind, mret, M_ret, throw_if, throw, gets, modify. simpl.
  destruct (Nat.eqb (length ids) 0); simpl; [auto|].
  destruct (Nat.eqb _ (length ids)); simpl; [|auto].
  destruct (checkAccess_sections user d
              (Repo.find PageSection.deletedAt
                 (fun s => existsb (Nat.eqb (PageSection.id s)) ids) (sections d)))
    as (r & -> & Hr).
  rewrite <- Hr. destruct r; simpl; auto.
Qed.

(** A request without an id list is rejected like one with an empty list. *)
Lemma reorder_absent_list_rejected user d :
  PageController.reorderPages None user d
  = (Err (BadRequestError "No page IDs provided"), d)
  /\ SectionController.reorderSections None user d
     = (Err (BadRequestError "No section IDs provided"), d).
Proof. split; reflexivity. Qed.

(** C3 (amended). A reorder request is accepted exactly when its id list
    is not empty, has no duplicate, and names only non-deleted rows whose
    site the requester owns; the list is not compared with the members
    of any scope. When accepted, the row listed at index [i] gets
    [order = i] and is otherwise unchanged, rows that are not listed are
    left as they were, and no other table changes. When rejected, the
    store does not change. *)
Theorem reorder_spec (d : DB) (user : User.t) (ids : list nat) :
  List.NoDup (map Page.id (pages d)) ->
  List.NoDup (map PageSection.id (sections d)) ->
  (ReorderSpec Page.id Page.deletedAt Page.set_order (canAccessPage user d)
     ids (pages d)
     (is_ok (answer (PageController.reorderPages (Some ids) user) d))
     (pages (exec (PageController.reorderPages (Some ids) user) d))
   /\ sites (exec (PageController.reorderPages (Some ids) user) d) = sites d
   /\ sections (exec (PageController.reorderPages (Some ids) user) d) = sections d)
  /\
  (ReorderSpec PageSection.id PageSection.deletedAt PageSection.set_order
     (canAccessSection user d) ids (sections d)
     (is_ok (answer (SectionController.reorderSections (Some ids) user) d))
     (sections (exec (SectionController.reorderSections (Some ids) user) d))
   /\ sites (exec (SectionController.reorderSections (Some ids) user) d) = sites d
   /\ pages (exec (SectionController.reorderSections (Some ids) user) d) = pages d).
Proof.
  intros Hp Hs. split.
  - destruct (reorderPages_outcome ids user d) as [-> ->].
    pose proof (reorder_core Page.id Page.deletedAt Page.set_order
                  (canAccessPage user d) (fun _ _ => eq_refl) ids (pages d) Hp) as H.
    destruct (reorder_accepts _ _ _ ids (pages d)); simpl; auto.
  - destruct (reorderSections_outcome ids user d) as [-> ->].
    pose proof (reorder_core PageSection.id PageSection.deletedAt PageSection.set_order
                  (canAccessSection user d) (fun _ _ => eq_refl) ids (sections d) Hs) as H.
    destruct (reorder_accepts _ _ _ ids (sections d)); simpl; auto.
Qed.

(** C3 as stated fails: the one-element list [[4]] is accepted for the
    site "Demo", whose pages are 2, 3 and 4; afterwards pages 2 and 4 both
    have [order = 0] and page 3 has [order = 5]. *)
Lemma reorder_subset_counterexample :
  ~ (forall ids,
       is_ok (answer (PageController.reorderPages (Some ids) alice) demo_pages) = true ->
       exists siteId,
         Permutation ids
           (map Page.id
              (Repo.find Page.deletedAt (fun p => Nat.eqb (Page.siteId p) siteId)
                 (pages demo_pages)))).
Proof.
  intros H. destruct (H [4%nat] eq_refl) as [s Hperm].
  apply Permutation_length in Hperm.
  destruct s as [|[|s]]; vm_compute in Hperm; discriminate.
Qed.

Example reorder_subset_orders :
  map (fun p => (Page.id p, Page.order p))
    (pages (exec (PageController.reorderPages (Some [4%nat]) alice) demo_pages))
  = [(2%nat, 0); (3%nat, 5); (4%nat, 0)].
Proof. reflexivity. Qed.

(** Sections of two different pages are reordered together as well. *)
Example reorder_across_pages :
  answer (SectionController.reorderSections (Some [7; 5]%nat) alice) demo_full = Ok true
  /\ map (fun s => (PageSection.id s, PageSection.pageId s, PageSection.order s))
       (sections (exec (SectionController.reorderSections (Some [7; 5]%nat) alice)
                    demo_full))
     = [(5%nat, 2%nat, 1); (6%nat, 2%nat, 1); (7%nat, 3%nat, 0); (10%nat, 9%nat, 0)].
Proof. split; reflexivity. Qed.

Lemma reorder_spec_witness :
  List.NoDup (map Page.id (pages demo_full))
  /\ List.NoDup (map PageSection.id (sections demo_full))
  /\ ReorderSpec Page.id Page.deletedAt Page.set_order (canAccessPage alice demo_full)
       [4; 2; 3]%nat (pages demo_full)
       (is_ok (answer (PageController.reorderPages (Some [4; 2; 3]%nat) alice) demo_full))
       (pages (exec (PageController.reorderPages (Some [4; 2; 3]%nat) alice) demo_full))
  /\ ReorderSpec PageSection.id PageSection.deletedAt PageSection.set_order
       (canAccessSection alice demo_full) [6; 5]%nat (sections demo_full)
       (is_ok (answer (SectionController.reorderSections (Some [6; 5]%nat) alice)
                 demo_full))
       (sections (exec (SectionController.reorderSections (Some [6; 5]%nat) alice)
                    demo_full)).
Proof.
  assert (Hp : List.NoDup (map Page.id (pages demo_full))).
  { vm_compute. repeat constructor; simpl; intuition lia. }
  assert (Hs : List.NoDup (map PageSection.id (sections demo_full))).
  { vm_compute. repeat constructor; simpl; intuition lia. }
  split; [exact Hp|]. split; [exact Hs|]. split.
  - exact (proj1 (proj1 (reorder_spec demo_full alice [4; 2; 3]%nat Hp Hs))).
  - exact (proj1 (proj2 (reorder_spec demo_full alice [6; 5]%nat Hp Hs))).
Defined.
End ReorderHandlers.
(* ===================================================================== *)
(** * Deleting pages and sections *)
(* ===================================================================== *)

Section DeleteHandlers.
Import PageController.

(** A delete of a page the requester has access to is answered as the
    delete of a last page, however many pages the site has. *)
Lemma deletePage_accessible id user d page :
  stored id d = Some page ->
  canAccessPage user d page = true ->
  deletePage id user d
  = (Err (BadRequestError "Cannot delete the last page of a site"), d).
Proof.
  intros Hst Hacc. rewrite deletePage_eq, Hst.
  unfold canAccessPage in Hacc. unfold_m. revert Hacc.
  case_find Hj; [|discriminate].
  case_findOne Hs; [reflexivity|discriminate].
Qed.

(** [deleteSection] never gets past its count either:
    [count({ page: section.page.id })] reports no section. *)
Lemma deleteSection_rejects id user d :
  exists e, SectionController.deleteSection id user d = (Err e, d).
Proof.
  unfold SectionController.deleteSection, SectionController.sectionSite. unfold_m.
  case_findOne Hsec; [|eauto].
  case_find Hp; [|eauto].
  case_find Hj; [|eauto].
  case_findOne Hs; [|eauto].
  rewrite Hp. cbv beta iota. rewrite countSections_zero. simpl. eauto.
Qed.

Lemma deleteSection_accessible id user d section :
  storedSection id d = Some section ->
  canAccessSection user d section = true ->
  SectionController.deleteSection id user d
  = (Err (BadRequestError "Cannot delete the last section of a page"), d).
Proof.
  intros Hst Hacc.
  unfold storedSection, canAccessSection in *.
  unfold SectionController.deleteSection, SectionController.sectionSite in *. unfold_m.
  rewrite Hst. revert Hacc. case_find Hp; [|discriminate].
  case_find Hj; [|discriminate].
  case_findOne Hs; [intros _|discriminate].
  rewrite Hp. cbv beta iota. now rewrite countSections_zero.
Qed.

(** [deleteSite] ends at [softRemove] for the owner of the site, and at
    the lookup for anybody else. *)
Lemma deleteSite_eq id user d :
  SiteController.deleteSite id user d =
    match Repo.findOne Site.deletedAt
            (fun s => Nat.eqb (Site.id s) id && Nat.eqb (Site.owner s) (User.id user))
            (sites d) with
    | None => (Err (NotFoundError "Site not found"), d)
    | Some _ => (Err (MissingDeleteDateColumnError "Site"), d)
    end.
Proof.
  unfold SiteController.deleteSite, softRemove. unfold_m.
  case_findOne Hs; reflexivity.
Qed.

Lemma deleteSite_rejects id user d :
  exists e, SiteController.deleteSite id user d = (Err e, d).
Proof. rewrite deleteSite_eq. case_findOne Hs; eauto. Qed.

(** C7. The sole remaining page of a site is not deleted, and neither is
    the sole remaining section of a page: for a requester with access to
    it the request is answered with the bad-request error of the handler,
    the store is left as it was, and the site (the page) still has its
    one page (its one section). *)
Theorem delete_last_child_rejected (d : DB) (user : User.t) :
  (forall pid page,
     stored pid d = Some page ->
     canAccessPage user d page = true ->
     pagesOf (Page.siteId page) d = 1%nat ->
     deletePage pid user d
     = (Err (BadRequestError "Cannot delete the last page of a site"), d)
     /\ pagesOf (Page.siteId page) (exec (deletePage pid user) d) = 1%nat)
  /\ (forall sid section,
        storedSection sid d = Some section ->
        canAccessSection user d section = true ->
        sectionsOf (PageSection.pageId section) d = 1%nat ->
        SectionController.deleteSection sid user d
        = (Err (BadRequestError "Cannot delete the last section of a page"), d)
        /\ sectionsOf (PageSection.pageId section)
             (exec (SectionController.deleteSection sid user) d) = 1%nat).
Proof.
  split.
  - intros pid page Hst Hacc Hc.
    pose proof (deletePage_accessible pid user d page Hst Hacc) as H.
    split; [exact H|]. unfold exec. now rewrite H.
  - intros sid section Hst Hacc Hc.
    pose proof (deleteSection_accessible sid user d section Hst Hacc) as H.
    split; [exact H|]. unfold exec. now rewrite H.
Qed.

Lemma delete_last_child_rejected_witness :
  let home := Page.mk 2 "Home" "home" None None Page.draft Page.home true 0 ∅ ∅ 1 None in
  let posts := PageSection.mk 7 "Posts" PageSection.content_ ∅ ∅ 0 true 3 None in
  (stored 2 demo_site = Some home
   /\ pagesOf 1 demo_site = 1%nat
   /\ deletePage 2 alice demo_site
      = (Err (BadRequestError "Cannot delete the last page of a site"), demo_site))
  /\ (storedSection 7 demo_full = Some posts
      /\ sectionsOf 3 demo_full = 1%nat
      /\ SectionController.deleteSection 7 alice demo_full
         = (Err (BadRequestError "Cannot delete the last section of a page"), demo_full)).
Proof.
  intros home posts.
  assert (H1 : stored 2 demo_site = Some home) by reflexivity.
  assert (H2 : storedSection 7 demo_full = Some posts) by reflexivity.
  assert (C1 : pagesOf 1 demo_site = 1%nat) by reflexivity.
  assert (C2 : sectionsOf 3 demo_full = 1%nat) by reflexivity.
  split.
  - split; [exact H1|]. split; [exact C1|].
    exact (proj1 (proj1 (delete_last_child_rejected demo_site alice) 2%nat home
                    H1 eq_refl C1)).
  - split; [exact H2|]. split; [exact C2|].
    exact (proj1 (proj2 (delete_last_child_rejected demo_full alice) 7%nat posts
                    H2 eq_refl C2)).
Defined.

(** C8. No page delete is accepted, so no homepage is ever handed on. The
    site "Demo" has the three pages "Home" (its homepage), "Blog" and
    "About Us"; its owner's request to delete "Home" is answered with
    'Cannot delete the last page of a site' and nothing is written: the
    count that guards the delete names the site by its id and reports no
    page. So it is for every page and every requester with access to it,
    and no request to delete a page is answered without an error. Behind
    the guard, the lookup of the successor names the site in the same
    way, and [softRemove] throws for want of a delete date column. *)
Theorem deletePage_never_accepted :
  stored 2 demo_pages
  = Some (Page.mk 2 "Home" "home" None None Page.draft Page.home true 0 ∅ ∅ 1 None)
  /\ pagesOf 1 demo_pages = 3%nat
  /\ deletePage 2 alice demo_pages
     = (Err (BadRequestError "Cannot delete the last page of a site"), demo_pages)
  /\ (forall id user d page,
        stored id d = Some page -> canAccessPage user d page = true ->
        deletePage id user d
        = (Err (BadRequestError "Cannot delete the last page of a site"), d))
  /\ (forall id user d, exists e, deletePage id user d = (Err e, d))
  /\ (forall siteId id d,
        countPagesById siteId d = 0%nat
        /\ Repo.findOne Page.deletedAt
             (fun p => Repo.by_id_string Page.siteId siteId p
                       && negb (Nat.eqb (Page.id p) id)) (pages d) = None
        /\ softRemove "Page" d = (Err (MissingDeleteDateColumnError "Page"), d)).
Proof.
  split; [reflexivity|]. split; [reflexivity|]. split; [reflexivity|].
  split; [exact deletePage_accessible|]. split; [exact deletePage_rejects|].
  intros siteId id d. split; [apply countPagesById_zero|].
  split; [|reflexivity]. now apply findOne_no_match.
Qed.
End DeleteHandlers.

(* ===================================================================== *)
(** * Slugs in the create and update handlers *)
(* ===================================================================== *)

Section SlugHandlers.
Import Slug.

Lemma length_append (a b : string) :
  String.length (a ++ b) = (String.length a + String.length b)%nat.
Proof. induction a as [|c a IH]; simpl; [reflexivity|now rewrite IH]. Qed.

Lemma substring_length_le s : forall n m,
  (String.length (substring n m s) <= m)%nat.
Proof.
  induction s as [|c s IH]; intros [|n] [|m]; simpl; try lia.
  - specialize (IH 0%nat m). lia.
  - apply (IH n 0%nat).
  - apply (IH n (S m)).
Qed.

Lemma substring_length_exact s : forall n m,
  (n + m <= String.length s)%nat -> String.length (substring n m s) = m.
Proof.
  induction s as [|c s IH]; intros [|n] [|m]; simpl; intros H; try lia.
  - rewrite (IH 0%nat m); lia.
  - apply (IH n 0%nat). lia.
  - apply (IH n (S m)). lia.
Qed.

Lemma substring_forall f s : forall n m,
  string_forall f s = true -> string_forall f (substring n m s) = true.
Proof.
  induction s as [|c s IH]; intros [|n] [|m]; simpl; intros H; try reflexivity;
    apply andb_prop in H as [Hc Hs].
  - rewrite Hc. apply (IH 0%nat m Hs).
  - apply (IH n 0%nat Hs).
  - apply (IH n (S m) Hs).
Qed.

Lemma with_suffix_differs slug suffix : with_suffix slug suffix <> slug.
Proof.
  unfold with_suffix. intros H. apply (f_equal String.length) in H.
  rewrite length_append in H. simpl in H. lia.
Qed.

(** The appended characters come from the digits of the random text. *)
Lemma random_suffix_base36 rnd m :
  random_text rnd = true -> string_forall is_base36 (substring 2 m rnd) = true.
Proof.
  intros H. destruct rnd as [|a [|b digits]]; [discriminate| |].
  - destruct m; reflexivity.
  - destruct a as [[] [] [] [] [] [] [] []]; try discriminate H;
      destruct b as [[] [] [] [] [] [] [] []]; try discriminate H.
    change (string_forall is_base36 (substring 0 m digits) = true).
    apply substring_forall. exact H.
Qed.

(** C6 (amended). When the slug generated for a new site is held by a
    stored site, [createSite] appends a hyphen and the characters of the
    random text from position 2 on: at most six of them ([substring(2,
    8)]), each a digit in base 36, and exactly six when the random text
    has that many digits. The result differs from the colliding slug; it
    is not looked up again, and unless a site holds it as well the site
    row is stored under it. *)
Theorem slug_collision_suffix (d : DB) (user : User.t) (rnd : string)
    (dto : SiteController.CreateSiteDto) :
  random_text rnd = true ->
  SiteController.validate dto = true ->
  (countSites user d < User.limit User.maxSites 10 user)%nat ->
  SiteController.slugTaken (generateSlug (SiteController.c_name dto)) None d = true ->
  ~ In (with_suffix (generateSlug (SiteController.c_name dto)) (suffix6 rnd))
       (map Site.slug (sites d)) ->
  exists site',
    sites (exec (SiteController.createSite dto user rnd) d) = sites d ++ [site']
    /\ Site.slug site'
       = with_suffix (generateSlug (SiteController.c_name dto)) (suffix6 rnd)
    /\ Site.slug site' <> generateSlug (SiteController.c_name dto)
    /\ (String.length (suffix6 rnd) <= 6)%nat
    /\ ((8 <= String.length rnd)%nat -> String.length (suffix6 rnd) = 6%nat)
    /\ string_forall is_base36 (suffix6 rnd) = true.
Proof.
  intros Hrnd Hv Hq Htaken Hfree.
  assert (Hslug : site_slug dto rnd d
                  = with_suffix (generateSlug (SiteController.c_name dto)) (suffix6 rnd)).
  { unfold site_slug. now rewrite Htaken. }
  exists (new_site dto user rnd d).
  split.
  - destruct (createSite_effect dto user rnd d)
      as [[e He]|(_ & _ & _ & [[_ He]|[_ He]])]; unfold exec; rewrite He;
      [|reflexivity|reflexivity].
    exfalso. rewrite createSite_eq in He. rewrite Hv in He. simpl in He.
    apply Nat.leb_gt in Hq. rewrite Hq in He.
    rewrite <- Hslug in Hfree. apply slug_free_sites in Hfree. rewrite Hfree in He.
    destruct (existsb _ (pages d)); [|discriminate].
    injection He as _ He. apply (f_equal (fun x => length (sites x))) in He.
    cbn [sites] in He. rewrite List.length_app in He. simpl in He. lia.
  - cbn [new_site Site.slug]. rewrite Hslug.
    split; [reflexivity|]. split; [apply with_suffix_differs|].
    split; [apply substring_length_le|].
    split; [intros H; apply substring_length_exact; lia|].
    now apply random_suffix_base36.
Qed.

(** Two sites named "My Site": whatever the random texts, the site rows
    stored are [my-site] and [my-site-] followed by the six characters of
    the second random text. *)
Example two_sites_named_my_site rnd1 rnd2 :
  map Site.slug
    (sites (exec (SiteController.createSite my_site alice rnd2)
              (exec (SiteController.createSite my_site alice rnd1) Store.empty)))
  = ["my-site"; with_suffix "my-site" (suffix6 rnd2)]%string.
Proof. reflexivity. Qed.

(** C6 as stated fails: the second site named "My Site" is stored with a
    suffix of six characters, not four. *)
Lemma slug_suffix_length_counterexample :
  ~ (forall rnd,
       random_text rnd = true ->
       exists x, String.length x = 4%nat
                 /\ map Site.slug
                      (sites (exec (SiteController.createSite my_site alice rnd) my_site_db))
                    = ["my-site"; "my-site-" ++ x]%string).
Proof.
  intros H.
  destruct (H "0.4fzyo82mvyr"%string eq_refl) as (x & Hlen & Hx).
  vm_compute in Hx. injection Hx as Hx. subst x. discriminate Hlen.
Qed.

Lemma slug_collision_suffix_witness :
  let rnd := "0.4fzyo82mvyr"%string in
  random_text rnd = true
  /\ SiteController.slugTaken (generateSlug "My Site") None my_site_db = true
  /\ map Site.slug (sites my_site_db) = ["my-site"]%string
  /\ map Site.slug (sites (exec (SiteController.createSite my_site alice rnd) my_site_db))
     = ["my-site"; "my-site-4fzyo8"]%string.
Proof.
  intros rnd.
  assert (Hq : (countSites alice my_site_db < User.limit User.maxSites 10 alice)%nat)
    by (vm_compute; lia).
  assert (Hfree : ~ In (with_suffix (generateSlug (SiteController.c_name my_site))
                          (suffix6 rnd)) (map Site.slug (sites my_site_db))).
  { vm_compute. intros [H|[]]. discriminate H. }
  destruct (slug_collision_suffix my_site_db alice rnd my_site
              eq_refl eq_refl Hq eq_refl Hfree) as (s & Hs & Hslug & _).
  split; [reflexivity|]. split; [reflexivity|]. split; [reflexivity|].
  rewrite Hs, map_app. cbn [map]. rewrite Hslug. reflexivity.
Defined.

(** [updatePage] saves the page under the slug it had, whatever the new
    title. *)
Lemma updatePage_keeps_slug id dto user rnd d page' :
  answer (PageController.updatePage id dto user rnd) d = Ok page' ->
  exists page, stored id d = Some page
               /\ Page.slug page' = Page.slug page
               /\ Page.title page'
                  = default (Page.title page) (PageController.u_title dto).
Proof.
  unfold answer. intros Hans.
  destruct (updatePage_effect id dto user rnd d)
    as [[e He]|(page & site & Hst & _ & _ & _ & _ & He)];
    rewrite He in Hans; simpl in Hans; [discriminate|].
  injection Hans as <-. exists page. split; [exact Hst|].
  split; [apply updated_page_slug|apply updated_page_title].
Qed.

(** So does [updateSite], which has the same title block. *)
Lemma updateSite_keeps_slug id dto user rnd d site' :
  answer (SiteController.updateSite id dto user rnd) d = Ok site' ->
  exists site,
    Repo.findOne Site.deletedAt
      (fun s => Nat.eqb (Site.id s) id && Nat.eqb (Site.owner s) (User.id user))
      (sites d) = Some site
    /\ Site.slug site' = Site.slug site
    /\ Site.name site' = default (Site.name site) (SiteController.u_name dto).
Proof.
  unfold SiteController.updateSite. unfold_m.
  case_findOne Hs; [|discriminate].
  intros Hans. exists row. split; [reflexivity|].
  destruct (SiteController.u_name dto) as [name|].
  - cbn [Site.name Site.set_name] in Hans. rewrite String.eqb_refl in Hans.
    cbv beta iota in Hans. simpl in Hans. injection Hans as <-.
    repeat match goal with
           | |- context [match ?x with _ => _ end] => destruct x
           end; split; reflexivity.
  - simpl in Hans. injection Hans as <-.
    repeat match goal with
           | |- context [match ?x with _ => _ end] => destruct x
           end; split; reflexivity.
Qed.

(** C4. The slug is not regenerated when the title changes: renaming
    the page "Home" of the site "Demo" to "Landing Page" is accepted and
    the page keeps the slug [home], where the slug of the new title is
    [landing-page]; renaming the site "Demo" to "Portfolio" keeps the
    slug [demo]. *)
Theorem update_title_keeps_slug :
  (exists page',
     PageController.updatePage 2 (only_title "Landing Page") alice "0.4fzyo82mvyr" demo_site
     = (Ok page', set_pages [page'] demo_site)
     /\ Page.title page' = "Landing Page"%string
     /\ Page.slug page' = "home"%string
     /\ generateSlug "Landing Page" = "landing-page"%string)
  /\
  (exists site',
     SiteController.updateSite 1 (only_name "Portfolio") alice "0.4fzyo82mvyr" demo_site
     = (Ok site', set_sites [site'] demo_site)
     /\ Site.name site' = "Portfolio"%string
     /\ Site.slug site' = "demo"%string
     /\ generateSlug "Portfolio" = "portfolio"%string).
Proof.
  split; eexists; (split; [vm_compute; reflexivity|]); repeat split; reflexivity.
Qed.
End SlugHandlers.

(* ===================================================================== *)
(** * Further properties of the entity helpers *)
(* ===================================================================== *)

Section CreditLedgerMore.
Import AICredits.

(** X1. Spending in two steps is spending the sum: for [b >= 0],
    [useCredits(a)] followed by [useCredits(b)] grants both exactly when
    [useCredits(a + b)] grants, and then both ways end in the same
    ledger. *)
Theorem useCredits_in_two_steps (c : t) (a b : Z) :
  0 <= b ->
  fst (useCredits (a + b) c)
  = fst (useCredits a c) && fst (useCredits b (snd (useCredits a c)))
  /\ (fst (useCredits (a + b) c) = true ->
      snd (useCredits b (snd (useCredits a c))) = snd (useCredits (a + b) c)).
Proof.
  intros Hb.
  destruct (Z_lt_ge_dec (credits c - usedCredits c) (a + b)) as [Hlt|Hge].
  - rewrite (useCredits_refused _ _ Hlt). simpl. split; [|discriminate].
    destruct (Z_lt_ge_dec (credits c - usedCredits c) a) as [Ha|Ha].
    + now rewrite (useCredits_refused _ _ Ha).
    + rewrite (useCredits_granted _ _ Ha). simpl.
      rewrite useCredits_refused; [reflexivity|simpl; lia].
  - rewrite (useCredits_granted _ _ Hge). simpl.
    assert (Ha : credits c - usedCredits c >= a) by lia.
    rewrite (useCredits_granted _ _ Ha). simpl.
    rewrite useCredits_granted by (simpl; lia). simpl.
    split; [reflexivity|]. intros _. unfold set_usedCredits. simpl.
    f_equal. lia.
Qed.

Lemma useCredits_in_two_steps_witness :
  let c := mk 10 4 None None (Some monthly) 7 in
  0 <= 2
  /\ fst (useCredits (3 + 2) c) = true
  /\ usedCredits (snd (useCredits 2 (snd (useCredits 3 c)))) = 9.
Proof.
  intros c. assert (H : 0 <= 2) by lia.
  destruct (useCredits_in_two_steps c 3 2 H) as [Hok Hsame].
  split; [exact H|]. split; [reflexivity|].
  rewrite (Hsame eq_refl). reflexivity.
Defined.

(** X2. Credits that were added can be spent at once: on a ledger with
    [usedCredits <= credits], [addCredits(n)] followed by [useCredits(n)]
    is granted for every [n], and the available balance [credits -
    usedCredits] is the same as before the two calls. *)
Theorem addCredits_then_useCredits (c : t) (n : Z) :
  usedCredits c <= credits c ->
  fst (useCredits n (addCredits n c)) = true
  /\ credits (snd (useCredits n (addCredits n c)))
     - usedCredits (snd (useCredits n (addCredits n c)))
     = credits c - usedCredits c
  /\ hasEnoughCredits 0 (snd (useCredits n (addCredits n c))) = true.
Proof.
  intros Hinv.
  rewrite useCredits_granted by (unfold addCredits; simpl; lia).
  unfold addCredits, hasEnoughCredits. simpl.
  split; [reflexivity|]. split; [lia|]. apply Z.leb_le. lia.
Qed.

Lemma addCredits_then_useCredits_witness :
  let c := mk 10 10 None None (Some monthly) 7 in
  usedCredits c <= credits c
  /\ fst (useCredits 1 c) = false
  /\ fst (useCredits 25 (addCredits 25 c)) = true.
Proof.
  intros c. assert (H : usedCredits c <= credits c) by (simpl; lia).
  split; [exact H|]. split; [reflexivity|].
  exact (proj1 (addCredits_then_useCredits c 25 H)).
Defined.
End CreditLedgerMore.

Section PaymentMore.
Import Payment.
Variable toISOString : Time -> string.

Lemma processRefund_accepted now amt reason md p :
  status p = completed -> 0 < amt <= amount p ->
  processRefund toISOString now amt reason md p =
    (Returned,
     mk (amount p) (currency p) (if strict_eq amt (amount p) then refunded else completed)
        (paymentMethod p) (paymentType p) (description p)
        (if truthy reason
         then Some (<["refundedAt" := toISOString now]>
                      (<["refundReason" := default EmptyString reason]>
                         (spread (metadata p) (default ∅ md))))
         else metadata p)
        (paidAt p) (Some now) (Some amt) (userId p)).
Proof.
  intros Hst [H0 H1]. unfold processRefund. rewrite Hst. simpl.
  destruct (amt <=? 0) eqn:E0; [apply Z.leb_le in E0; lia|].
  destruct (value (amount p) <? amt) eqn:E1; [apply Z.ltb_lt in E1; lia|].
  reflexivity.
Qed.

Lemma strict_eq_differs amt x : amt <> value x -> strict_eq amt x = false.
Proof. destruct x as [v|v]; simpl; [apply Z.eqb_neq|reflexivity]. Qed.

(** X3. Refunds are not added up: after a partial refund of [a], a
    further refund of any [b] in (0, amount] is accepted as well, and the
    payment then records [refundAmount = b] and the time of the second
    call; the first amount is overwritten. *)
Theorem processRefund_overwrites (now1 now2 : Time) (a b : Z)
    (reason1 reason2 : option string) (md1 md2 : option Blob) (p : t) :
  status p = completed ->
  0 < a < amount p ->
  0 < b <= amount p ->
  let p1 := snd (processRefund toISOString now1 a reason1 md1 p) in
  status p1 = completed
  /\ fst (processRefund toISOString now2 b reason2 md2 p1) = Returned
  /\ refundAmount (snd (processRefund toISOString now2 b reason2 md2 p1)) = Some b
  /\ refundedAt (snd (processRefund toISOString now2 b reason2 md2 p1)) = Some now2
  /\ amount (snd (processRefund toISOString now2 b reason2 md2 p1)) = amount p.
Proof.
  intros Hst Ha Hb p1. subst p1.
  rewrite (processRefund_accepted now1 a reason1 md1 p Hst) by lia. simpl.
  assert (Hne : strict_eq a (amount p) = false) by (apply strict_eq_differs; lia).
  rewrite Hne. split; [reflexivity|].
  rewrite processRefund_accepted; simpl; rewrite ?Hne; auto.
Qed.

(** X4. A full refund is final only on a payment whose amount is the
    number assigned in memory: once the whole amount was refunded, the
    status is [refunded], every further [processRefund] throws and leaves
    the payment as it is, and after [markAsPaid], which checks nothing, a
    refund within (0, amount] is accepted once more. On a payment loaded
    from the database, whose amount is a string, the refund of the whole
    amount leaves the status [completed], and any further refund within
    (0, amount], the whole amount included, is accepted again. *)
Theorem processRefund_after_full_refund (now1 now2 now3 : Time) (b : Z)
    (reason1 reason2 : option string) (md1 md2 md3 : option Blob) (p : t) :
  status p = completed ->
  0 < value (amount p) ->
  let p1 := snd (processRefund toISOString now1 (value (amount p)) reason1 md1 p) in
  match amount p with
  | AsNumber _ =>
      status p1 = refunded
      /\ processRefund toISOString now2 b reason2 md2 p1
         = (Thrown "Only completed payments can be refunded", p1)
      /\ (0 < b <= value (amount p) ->
          fst (processRefund toISOString now2 b reason2 md2 (markAsPaid now3 md3 p1))
          = Returned)
  | AsString _ =>
      status p1 = completed
      /\ (0 < b <= value (amount p) ->
          fst (processRefund toISOString now2 b reason2 md2 p1) = Returned
          /\ status (snd (processRefund toISOString now2 b reason2 md2 p1)) = completed)
  end.
Proof.
  intros Hst Hpos p1. subst p1.
  rewrite (processRefund_accepted now1 (value (amount p)) reason1 md1 p Hst) by lia.
  destruct (amount p) as [v|v] eqn:Eam; simpl in *.
  - rewrite Z.eqb_refl. split; [reflexivity|]. split; [reflexivity|].
    intros Hb. rewrite processRefund_accepted; simpl; auto.
  - split; [reflexivity|]. intros Hb.
    rewrite processRefund_accepted; simpl; auto.
Qed.

(** X5. The metadata argument of [processRefund] counts only together
    with a reason: without a non-empty reason an accepted refund leaves
    the stored metadata untouched, whatever metadata was passed; with a
    reason the stored metadata is merged with the passed one (passed keys
    win) and [refundReason] and [refundedAt] are set on top. *)
Theorem processRefund_metadata (now : Time) (amt : Z) (reason : option string)
    (md : option Blob) (p : t) :
  status p = completed ->
  0 < amt <= amount p ->
  (truthy reason = false /\
   metadata (snd (processRefund toISOString now amt reason md p)) = metadata p)
  \/
  (exists text m,
     reason = Some text /\ text <> EmptyString
     /\ metadata (snd (processRefund toISOString now amt reason md p)) = Some m
     /\ m !! "refundReason" = Some text
     /\ m !! "refundedAt" = Some (toISOString now)
     /\ forall k, k <> "refundReason" -> k <> "refundedAt" ->
          m !! k = match default ∅ md !! k with
                   | Some v => Some v
                   | None => default ∅ (metadata p) !! k
                   end).
Proof.
  intros Hst Hamt. rewrite (processRefund_accepted now amt reason md p Hst Hamt). simpl.
  destruct reason as [[|ch text]|]; simpl; try (left; split; reflexivity).
  right. exists (String ch text). eexists. split; [reflexivity|].
  split; [discriminate|]. split; [reflexivity|].
  split; [|split].
  - rewrite lookup_insert_ne by discriminate. apply lookup_insert_eq.
  - apply lookup_insert_eq.
  - intros k H1 H2. rewrite !lookup_insert_ne by congruence. apply spread_lookup.
Qed.
End PaymentMore.

Lemma processRefund_overwrites_witness :
  let p := Payment.mk (Payment.AsNumber 10000) "USD" Payment.completed Payment.stripe "one_time"
             None None (Some 5) None None 7 in
  Payment.status p = Payment.completed
  /\ 0 < 6000 < Payment.value (Payment.amount p)
  /\ Payment.refundAmount
       (snd (Payment.processRefund (fun t => pretty t) 20 6000 None None
               (snd (Payment.processRefund (fun t => pretty t) 10 6000 None None p))))
     = Some 6000.
Proof.
  intros p.
  assert (Hst : Payment.status p = Payment.completed) by reflexivity.
  assert (Ha : 0 < 6000 < Payment.value (Payment.amount p)) by (simpl; lia).
  assert (Hb : 0 < 6000 <= Payment.value (Payment.amount p)) by (simpl; lia).
  split; [exact Hst|]. split; [exact Ha|].
  exact (proj1 (proj2 (proj2
           (processRefund_overwrites (fun t => pretty t) 10 20 6000 6000
              None None None None p Hst Ha Hb)))).
Defined.

Lemma processRefund_after_full_refund_witness :
  let p := Payment.mk (Payment.AsString 10000) "USD" Payment.completed Payment.stripe
             "one_time" None None (Some 5) None None 7 in
  let p1 := snd (Payment.processRefund (fun t => pretty t) 10 10000 None None p) in
  Payment.status p = Payment.completed
  /\ 0 < Payment.value (Payment.amount p)
  /\ Payment.status p1 = Payment.completed
  /\ fst (Payment.processRefund (fun t => pretty t) 20 10000 None None p1)
     = Payment.Returned.
Proof.
  intros p p1.
  assert (Hst : Payment.status p = Payment.completed) by reflexivity.
  assert (Hpos : 0 < Payment.value (Payment.amount p)) by (simpl; lia).
  assert (Hb : 0 < 10000 <= Payment.value (Payment.amount p)) by (simpl; lia).
  split; [exact Hst|]. split; [exact Hpos|].
  pose proof (processRefund_after_full_refund (fun t => pretty t) 10 20 30 10000
                None None None None None p Hst Hpos) as H.
  cbv zeta in H. destruct H as [H1 H2].
  split; [exact H1|]. exact (proj1 (H2 Hb)).
Defined.

Lemma processRefund_metadata_witness :
  let p := Payment.mk (Payment.AsNumber 10000) "USD" Payment.completed Payment.stripe "one_time"
             None (Some {["chargeId" := "ch_1"]}) (Some 5) None None 7 in
  Payment.status p = Payment.completed
  /\ 0 < 2500 <= Payment.value (Payment.amount p)
  /\ Payment.metadata
       (snd (Payment.processRefund (fun t => pretty t) 10 2500 None
               (Some {["refundId" := "re_1"]}) p))
     = Some {["chargeId" := "ch_1"]}.
Proof.
  intros p.
  assert (Hst : Payment.status p = Payment.completed) by reflexivity.
  assert (Hamt : 0 < 2500 <= Payment.value (Payment.amount p)) by (simpl; lia).
  split; [exact Hst|]. split; [exact Hamt|].
  destruct (processRefund_metadata (fun t => pretty t) 10 2500 None
              (Some {["refundId" := "re_1"]}) p Hst Hamt)
    as [[_ H]|(text & m & Hr & _)]; [exact H|discriminate Hr].
Defined.

(* ===================================================================== *)
(** * Further properties of the slug generator *)
(* ===================================================================== *)

Section SlugShape.
Import Slug.

Ltac by_ascii c :=
  destruct c as [[] [] [] [] [] [] [] []]; vm_compute; try reflexivity; try congruence.

Lemma collapse_hyphens_no_double s : forall b,
  no_double_hyphen b (collapse_hyphens b s) = true.
Proof.
  induction s as [|c r IH]; intros b; simpl; [reflexivity|].
  destruct (is_hyphen c) eqn:E.
  - destruct b; simpl; [apply IH|]. rewrite E. simpl. apply IH.
  - simpl. rewrite E. apply IH.
Qed.

Lemma trim_start_no_double s : forall b,
  no_double_hyphen b s = true -> no_double_hyphen false (trim_start s) = true.
Proof.
  induction s as [|c r IH]; intros b H; simpl in *; [reflexivity|].
  destruct (is_hyphen c) eqn:E.
  - apply andb_prop in H as [_ H]. now apply (IH true).
  - simpl. now rewrite E.
Qed.

Lemma trim_end_no_double s : forall b,
  no_double_hyphen b s = true -> no_double_hyphen b (trim_end s) = true.
Proof.
  induction s as [|c r IH]; intros b H; simpl in *; [reflexivity|].
  destruct (is_hyphen c) eqn:E.
  - apply andb_prop in H as [Hb H]. specialize (IH true H).
    destruct (trim_end r) as [|c' r']; [reflexivity|].
    simpl no_double_hyphen at 1. rewrite E, Hb. exact IH.
  - specialize (IH false H).
    destruct (trim_end r) as [|c' r']; simpl; rewrite E; [reflexivity|exact IH].
Qed.

Lemma trim_end_first s :
  first_char (trim_end s) = None \/ first_char (trim_end s) = first_char s.
Proof.
  destruct s as [|c r]; simpl; [now left|].
  destruct (trim_end r); [destruct (is_hyphen c)|]; simpl; auto.
Qed.

Lemma trim_start_first s c : first_char (trim_start s) = Some c -> is_hyphen c = false.
Proof.
  induction s as [|a r IH]; simpl; [discriminate|].
  destruct (is_hyphen a) eqn:E; [exact IH|]. simpl. congruence.
Qed.

Lemma generateSlug_no_double text :
  no_double_hyphen false (generateSlug text) = true.
Proof.
  unfold generateSlug. apply trim_end_no_double.
  apply (trim_start_no_double _ false), collapse_hyphens_no_double.
Qed.

Lemma generateSlug_first text c :
  first_char (generateSlug text) = Some c -> is_hyphen c = false.
Proof.
  intros Hc. unfold generateSlug in Hc.
  destruct (trim_end_first
              (trim_start (collapse_hyphens false
                 (strip_non_word (replace_spaces false (toLowerCase text))))))
    as [Hn|He]; [congruence|].
  rewrite He in Hc. eapply trim_start_first, Hc.
Qed.

(** X6. Whatever the text, a generated slug is a word over lower-case
    letters, digits, hyphens and underscores in which no two hyphens are
    adjacent and which neither starts nor ends with a hyphen. *)
Theorem generateSlug_shape (text : string) :
  string_forall is_slug_char_or_underscore (generateSlug text) = true
  /\ no_double_hyphen false (generateSlug text) = true
  /\ (forall c, first_char (generateSlug text) = Some c -> is_hyphen c = false)
  /\ (forall c, last_char (generateSlug text) = Some c -> is_hyphen c = false).
Proof.
  split; [apply generateSlug_alphabet|].
  split; [apply generateSlug_no_double|].
  split; intros c Hc.
  - eapply generateSlug_first, Hc.
  - eapply generateSlug_no_trailing_hyphen, Hc.
Qed.

(** The steps of the generator leave a string of that shape as it is. *)
Lemma lower_char_fixed c : is_slug_char_or_underscore c = true -> lower_char c = c.
Proof. by_ascii c. Qed.

Lemma slug_char_not_space c : is_slug_char_or_underscore c = true -> is_space c = false.
Proof. by_ascii c. Qed.

Lemma slug_char_kept c :
  is_slug_char_or_underscore c = true -> is_word c || is_hyphen c = true.
Proof. by_ascii c. Qed.

Lemma toLowerCase_fixed s :
  string_forall is_slug_char_or_underscore s = true -> toLowerCase s = s.
Proof.
  induction s as [|c r IH]; simpl; intros H; [reflexivity|].
  apply andb_prop in H as [Hc Hr]. now rewrite (lower_char_fixed c Hc), IH.
Qed.

Lemma replace_spaces_fixed s : forall b,
  string_forall is_slug_char_or_underscore s = true -> replace_spaces b s = s.
Proof.
  induction s as [|c r IH]; simpl; intros b H; [reflexivity|].
  apply andb_prop in H as [Hc Hr]. now rewrite (slug_char_not_space c Hc), IH.
Qed.

Lemma strip_non_word_fixed s :
  string_forall is_slug_char_or_underscore s = true -> strip_non_word s = s.
Proof.
  induction s as [|c r IH]; simpl; intros H; [reflexivity|].
  apply andb_prop in H as [Hc Hr]. now rewrite (slug_char_kept c Hc), IH.
Qed.

Lemma collapse_hyphens_fixed s : forall b,
  no_double_hyphen b s = true -> collapse_hyphens b s = s.
Proof.
  induction s as [|c r IH]; simpl; intros b H; [reflexivity|].
  destruct (is_hyphen c).
  - apply andb_prop in H as [Hb H]. apply negb_true_iff in Hb. subst b.
    now rewrite IH.
  - now rewrite IH.
Qed.

Lemma trim_start_fixed s :
  (forall c, first_char s = Some c -> is_hyphen c = false) -> trim_start s = s.
Proof.
  destruct s as [|c r]; simpl; intros H; [reflexivity|].
  now rewrite (H c eq_refl).
Qed.

Lemma trim_end_fixed s :
  (forall c, last_char s = Some c -> is_hyphen c = false) -> trim_end s = s.
Proof.
  induction s as [|c r IH]; simpl; intros H; [reflexivity|].
  destruct r as [|c' r'].
  - simpl. now rewrite (H c eq_refl).
  - rewrite IH by exact H. reflexivity.
Qed.

Lemma generateSlug_idempotent_aux (text : string) :
  generateSlug (generateSlug text) = generateSlug text.
Proof.
  pose proof (generateSlug_alphabet text) as Halpha.
  pose proof (generateSlug_no_double text) as Hnd.
  pose proof (generateSlug_first text) as Hfirst.
  pose proof (generateSlug_no_trailing_hyphen text) as Hlast.
  unfold generateSlug at 1.
  rewrite (toLowerCase_fixed _ Halpha), (replace_spaces_fixed _ false Halpha),
    (strip_non_word_fixed _ Halpha), (collapse_hyphens_fixed _ false Hnd),
    (trim_start_fixed _ Hfirst), (trim_end_fixed _ Hlast).
  reflexivity.
Qed.

(** X7. Generating a slug from a generated slug changes nothing: the
    lower-casing, the two replacements, the collapsing and the trimming
    each leave a generated slug as it is. *)
Theorem generateSlug_idempotent (text : string) :
  generateSlug (generateSlug text) = generateSlug text
  /\ toLowerCase (generateSlug text) = generateSlug text
  /\ replace_spaces false (generateSlug text) = generateSlug text
  /\ strip_non_word (generateSlug text) = generateSlug text
  /\ collapse_hyphens false (generateSlug text) = generateSlug text
  /\ trim_start (generateSlug text) = generateSlug text
  /\ trim_end (generateSlug text) = generateSlug text.
Proof.
  split; [apply generateSlug_idempotent_aux|].
  split; [apply toLowerCase_fixed, generateSlug_alphabet|].
  split; [apply replace_spaces_fixed, generateSlug_alphabet|].
  split; [apply strip_non_word_fixed, generateSlug_alphabet|].
  split; [apply collapse_hyphens_fixed, generateSlug_no_double|].
  split; [apply trim_start_fixed, generateSlug_first|].
  apply trim_end_fixed, generateSlug_no_trailing_hyphen.
Qed.

(** Characters that are not word characters stay so in lower case, and
    word characters stay word characters. *)
Lemma is_word_lower_char c : is_word (lower_char c) = is_word c.
Proof. by_ascii c. Qed.

Lemma word_not_space c : is_word c = true -> is_space c = false.
Proof. by_ascii c. Qed.

Lemma word_not_hyphen c : is_word c = true -> is_hyphen c = false.
Proof. by_ascii c. Qed.

Lemma hyphen_not_word c : is_hyphen c = true -> is_word c = false.
Proof. by_ascii c. Qed.

Lemma toLowerCase_exists_word s :
  string_exists is_word (toLowerCase s) = string_exists is_word s.
Proof.
  induction s as [|c r IH]; simpl; [reflexivity|].
  now rewrite is_word_lower_char, IH.
Qed.

Lemma replace_spaces_exists_word s : forall b,
  string_exists is_word (replace_spaces b s) = string_exists is_word s.
Proof.
  induction s as [|c r IH]; intros b; simpl; [reflexivity|].
  destruct (is_space c) eqn:Es.
  - assert (Hw : is_word c = false).
    { destruct (is_word c) eqn:Ew; [|reflexivity].
      apply word_not_space in Ew. congruence. }
    rewrite Hw. destruct b; simpl; apply IH.
  - simpl. now rewrite IH.
Qed.

Lemma strip_non_word_exists_word s :
  string_exists is_word (strip_non_word s) = string_exists is_word s.
Proof.
  induction s as [|c r IH]; simpl; [reflexivity|].
  destruct (is_word c) eqn:Ew; simpl; [now rewrite Ew|].
  destruct (is_hyphen c); simpl; rewrite ?Ew; exact IH.
Qed.

Lemma collapse_hyphens_exists_word s : forall b,
  string_exists is_word (collapse_hyphens b s) = string_exists is_word s.
Proof.
  induction s as [|c r IH]; intros b; simpl; [reflexivity|].
  destruct (is_hyphen c) eqn:Eh.
  - rewrite (hyphen_not_word c Eh). destruct b; simpl; rewrite ?(hyphen_not_word c Eh);
      apply IH.
  - simpl. now rewrite IH.
Qed.

Lemma trim_start_exists_word s :
  string_exists is_word (trim_start s) = string_exists is_word s.
Proof.
  induction s as [|c r IH]; simpl; [reflexivity|].
  destruct (is_hyphen c) eqn:Eh; [|reflexivity].
  now rewrite (hyphen_not_word c Eh).
Qed.

Lemma trim_end_exists_word s :
  string_exists is_word (trim_end s) = string_exists is_word s.
Proof.
  induction s as [|c r IH]; simpl; [reflexivity|].
  rewrite <- IH. destruct (trim_end r) as [|c' r'].
  - destruct (is_hyphen c) eqn:Eh; simpl; [|reflexivity].
    now rewrite (hyphen_not_word c Eh).
  - reflexivity.
Qed.

Lemma generateSlug_exists_word text :
  string_exists is_word (generateSlug text) = string_exists is_word text.
Proof.
  unfold generateSlug.
  rewrite trim_end_exists_word, trim_start_exists_word, collapse_hyphens_exists_word,
    strip_non_word_exists_word, replace_spaces_exists_word, toLowerCase_exists_word.
  reflexivity.
Qed.

(** X8. A text with a letter, a digit or an underscore never has an
    empty slug: such a character survives every step of [generateSlug]
    (a capital as its lower case), so the slug has one as well. *)
Theorem generateSlug_nonempty (text : string) :
  string_exists is_word text = true ->
  generateSlug text <> EmptyString
  /\ string_exists is_word (generateSlug text) = true.
Proof.
  intros H. rewrite <- generateSlug_exists_word in H. split; [|exact H].
  intros He. rewrite He in H. discriminate H.
Qed.

Lemma generateSlug_nonempty_witness :
  string_exists is_word " - My_Site! - " = true
  /\ generateSlug " - My_Site! - " = "my_site"%string
  /\ generateSlug " - My_Site! - " <> EmptyString.
Proof.
  assert (H : string_exists is_word " - My_Site! - " = true) by reflexivity.
  split; [exact H|]. split; [reflexivity|].
  exact (proj1 (generateSlug_nonempty " - My_Site! - " H)).
Defined.
End SlugShape.
(* ===================================================================== *)
(** * Further properties of the request handlers *)
(* ===================================================================== *)

Section AccessFacts.

Lemma canAccessPage_owner user d p :
  canAccessPage user d p = true ->
  exists site, In site (sites d) /\ siteLive site = true
               /\ Site.id site = Page.siteId p /\ Site.owner site = User.id user.
Proof.
  unfold canAccessPage. unfold_m.
  case_find Hj; [|discriminate].
  case_findOne Hs; [|discriminate].
  intros _. apply find_raw_Some in Hj as [_ Hj]. apply Nat.eqb_eq in Hj.
  apply findOne_Some in Hs as (Hin & Hlive & Hw).
  apply andb_prop in Hw as [Hid Hown]. apply Nat.eqb_eq in Hid, Hown.
  exists row0. repeat split; auto; congruence.
Qed.

Lemma owner_canAccessPage user d p site :
  In site (sites d) -> siteLive site = true ->
  Site.id site = Page.siteId p -> Site.owner site = User.id user ->
  canAccessPage user d p = true.
Proof.
  intros Hin Hlive Hid Hown. unfold canAccessPage. unfold_m.
  case_find Hj.
  - apply find_raw_Some in Hj as [_ Hj]. apply Nat.eqb_eq in Hj.
    case_findOne Hs; [reflexivity|].
    pose proof (findOne_None _ _ _ Hs site Hin Hlive) as Hf. cbv beta in Hf.
    rewrite Hj, Hid, Hown, !Nat.eqb_refl in Hf. discriminate.
  - pose proof (find_none _ _ Hj site Hin) as Hf. cbv beta in Hf.
    rewrite Hid, Nat.eqb_refl in Hf. discriminate.
Qed.

Lemma canAccessSection_page user d x :
  canAccessSection user d x = true ->
  exists page, In page (pages d) /\ Page.id page = PageSection.pageId x
               /\ canAccessPage user d page = true.
Proof.
  unfold canAccessSection, SectionController.sectionSite, canAccessPage. unfold_m.
  case_find Hp; [|discriminate].
  intros H. apply find_raw_Some in Hp as [Hin Hp]. apply Nat.eqb_eq in Hp.
  exists row. auto.
Qed.
End AccessFacts.

Section SectionEffects.
Import SectionController.

Lemma limit_pos field dflt user :
  (1 <= dflt)%nat -> (1 <= User.limit field dflt user)%nat.
Proof.
  intros Hd. unfold User.limit.
  destruct (User.plan user) as [pl|]; [|exact Hd].
  destruct (field pl) as [[|n]|]; lia.
Qed.

(** The row [createSection] saves. *)
Lemma createSection_eq dto user d :
  createSection dto user d =
    if negb (validate dto) then (Err (BadRequestError "Validation failed"), d)
    else
      match stored (c_pageId dto) d with
      | None => (Err (NotFoundError "Page not found"), d)
      | Some page =>
          match List.find (fun s => Nat.eqb (Site.id s) (Page.siteId page)) (sites d) with
          | None => (Err (TypeError "Cannot read properties of null (reading 'id')"), d)
          | Some joined =>
              match Repo.findOne Site.deletedAt
                      (fun s => Nat.eqb (Site.id s) (Site.id joined)
                                && Nat.eqb (Site.owner s) (User.id user)) (sites d) with
              | None =>
                  (Err (ForbiddenError
                          "You do not have permission to add sections to this page"), d)
              | Some _ =>
                  let x := PageSection.mk (nextId d) (c_title dto)
                             (default PageSection.content_ (c_type dto))
                             (default ∅ (c_content dto)) (default ∅ (c_settings dto))
                             (c_order dto) (default true (c_isActive dto))
                             (Page.id page) None in
                  (Ok x, mkDB (sites d) (pages d) (sections d ++ [x]) (S (nextId d)))
              end
          end
      end.
Proof.
  unfold createSection, stored. unfold_m.
  destruct (negb (validate dto)); [reflexivity|].
  case_findOne Hp; [|reflexivity].
  case_find Hj; [|reflexivity].
  case_findOne Hs; [|reflexivity].
  rewrite countSections_zero.
  pose proof (limit_pos User.maxSectionsPerPage 50 user ltac:(lia)) as Hl.
  destruct (Nat.leb_spec (User.limit User.maxSectionsPerPage 50 user) 0) as [H0|H0];
    [lia|reflexivity].
Qed.

Lemma createSection_effect dto user d :
  (exists e, createSection dto user d = (Err e, d))
  \/ (exists page x,
        stored (c_pageId dto) d = Some page
        /\ canAccessPage user d page = true
        /\ validate dto = true
        /\ createSection dto user d
           = (Ok x, mkDB (sites d) (pages d) (sections d ++ [x]) (S (nextId d)))
        /\ PageSection.id x = nextId d
        /\ PageSection.pageId x = Page.id page
        /\ PageSection.deletedAt x = None).
Proof.
  rewrite createSection_eq.
  destruct (negb (validate dto)) eqn:Hv; [left; eauto|].
  destruct (stored (c_pageId dto) d) as [page|] eqn:Hp; [|left; eauto].
  case_find Hj; [|left; eauto].
  case_findOne Hs; [|left; eauto].
  right. exists page. eexists. split; [reflexivity|].
  apply find_raw_Some in Hj as [_ Hj]. apply Nat.eqb_eq in Hj.
  apply findOne_Some in Hs as (Hsin & Hslive & Hs).
  apply andb_prop in Hs as [Hs Hown]. apply Nat.eqb_eq in Hs, Hown.
  apply negb_false_iff in Hv.
  split; [|repeat split; auto].
  apply owner_canAccessPage with row0; auto. congruence.
Qed.

Lemma assign_keeps dto section :
  PageSection.id (SectionUpdate.assign dto section) = PageSection.id section
  /\ PageSection.pageId (SectionUpdate.assign dto section) = PageSection.pageId section
  /\ PageSection.deletedAt (SectionUpdate.assign dto section)
     = PageSection.deletedAt section.
Proof.
  unfold SectionUpdate.assign.
  destruct (SectionUpdate.u_title dto), (SectionUpdate.u_type dto),
    (SectionUpdate.u_content dto), (SectionUpdate.u_settings dto),
    (SectionUpdate.u_order dto), (SectionUpdate.u_isActive dto); auto.
Qed.

Lemma updateSection_effect id dto user d :
  (exists e, SectionUpdate.updateSection id dto user d = (Err e, d))
  \/ (exists section,
        storedSection id d = Some section
        /\ canAccessSection user d section = true
        /\ SectionUpdate.updateSection id dto user d =
             (Ok (SectionUpdate.assign dto section),
              set_sections
                (Repo.save PageSection.id (SectionUpdate.assign dto section)
                   (sections d)) d)).
Proof.
  unfold SectionUpdate.updateSection, sectionSite, storedSection.
  unfold_m.
  case_findOne Hsec; [|left; eauto].
  case_find Hp; [|left; eauto].
  case_find Hj; [|left; eauto].
  case_findOne Hs; [|left; eauto].
  right. exists row. split; [reflexivity|].
  split; [|reflexivity].
  unfold canAccessSection, sectionSite. unfold_m. rewrite Hp. simpl.
  rewrite Hj. simpl. now rewrite Hs.
Qed.
End SectionEffects.

Section OwnershipEffects.
Import Ownership.

Lemma transferOwnership_effect users id newOwnerId user d :
  (exists e, transferOwnership users id newOwnerId user d = (Err e, d))
  \/ (exists site newOwner,
        In site (sites d) /\ siteLive site = true
        /\ Site.id site = id /\ Site.owner site = User.id user
        /\ In newOwner users /\ User.id newOwner = newOwnerId
        /\ User.id newOwner <> User.id user
        /\ (countSites newOwner d < User.limit User.maxSites 10 newOwner)%nat
        /\ transferOwnership users id newOwnerId user d
           = (Ok (set_owner (User.id newOwner) site),
              set_sites (Repo.save Site.id (set_owner (User.id newOwner) site)
                           (sites d)) d)).
Proof.
  unfold transferOwnership, countSites. unfold_m.
  case_findOne Hs; [|left; eauto].
  destruct (List.find _ users) as [newOwner|] eqn:Hu; cbv beta iota; [|left; eauto].
  destruct (Nat.eqb (User.id newOwner) (User.id user)) eqn:Hsame; cbv beta iota;
    [left; eauto|].
  case_leb Hq; [left; eauto|].
  right. exists row, newOwner.
  apply findOne_Some in Hs as (Hin & Hlive & Hw).
  apply andb_prop in Hw as [Hid Hown]. apply Nat.eqb_eq in Hid, Hown.
  apply find_raw_Some in Hu as [Huin Hu]. apply Nat.eqb_eq in Hu.
  apply Nat.eqb_neq in Hsame. apply Nat.leb_gt in Hq.
  repeat split; auto.
Qed.
End OwnershipEffects.

Section RowwiseFacts.
Context {R : Type}.
Variable rid : R -> nat.
Variable set_order : Z -> R -> R.

Lemma writeOrders_map ids : forall k tbl,
  Repo.writeOrders rid set_order ids k tbl = map (assignOrder rid set_order ids k) tbl.
Proof.
  induction ids as [|a ids IH]; intros k tbl; simpl.
  - now rewrite map_id.
  - rewrite IH. unfold Repo.update. now rewrite map_map.
Qed.

Lemma assignOrder_keeps {A : Type} (proj : R -> A) ids :
  (forall v r, proj (set_order v r) = proj r) ->
  forall k r, proj (assignOrder rid set_order ids k r) = proj r.
Proof.
  intros Hproj. induction ids as [|a ids IH]; intros k r; simpl; [reflexivity|].
  rewrite IH. destruct (Nat.eqb (rid r) a); auto.
Qed.
End RowwiseFacts.

Section StoreInvariant.

Lemma Forall_lt_weaken (l : list nat) n m :
  (n <= m)%nat -> Forall (fun i => (i < n)%nat) l -> Forall (fun i => (i < m)%nat) l.
Proof.
  intros Hle H. rewrite List.Forall_forall in *. intros i Hi. specialize (H i Hi). lia.
Qed.

Lemma NoDup_snoc_fresh (l : list nat) n :
  List.NoDup l -> Forall (fun i => (i < n)%nat) l -> List.NoDup (l ++ [n]).
Proof.
  intros Hnd Hlt. rewrite List.Forall_forall in Hlt.
  apply List.NoDup_app; [exact Hnd| |].
  - constructor; [intros []|constructor].
  - intros x Hx [<-|[]]. specialize (Hlt _ Hx). lia.
Qed.

Lemma Forall_snoc_lt (l : list nat) n m :
  (n < m)%nat -> Forall (fun i => (i < n)%nat) l -> Forall (fun i => (i < m)%nat) (l ++ [n]).
Proof.
  intros Hlt H. apply Forall_app. split.
  - apply Forall_lt_weaken with n; [lia|exact H].
  - constructor; [exact Hlt|constructor].
Qed.

Lemma NoDup_snoc_new {A : Type} (l : list A) (a : A) :
  List.NoDup l -> ~ In a l -> List.NoDup (l ++ [a]).
Proof.
  intros Hnd Hnot. apply List.NoDup_app; [exact Hnd| |].
  - constructor; [intros []|constructor].
  - intros x Hx [<-|[]]. contradiction.
Qed.

(** A request leaves a store that is in order in order. *)
Lemma handle_storeOk r d : StoreOk d -> StoreOk (handle r d).
Proof.
  intros Hok.
  pose proof Hok as ((Hnd & Hlt) & (Hnds & Hslt) & (Hndx & Hxlt) & Hpages & Hsecs).
  destruct r as [dto user rnd|id dto user rnd|id user|[dto user rnd|id dto user rnd|id user]
                |ids user|dto user|ids user|id user|id dto user|users id newOwnerId user];
    unfold handle, step, exec.
  - destruct (createSite_effect dto user rnd d)
      as [[e ->]|(_ & _ & _ & [[_ ->]|[_ ->]])]; [exact Hok| |];
      unfold StoreOk, page_ids_ok; cbn [fst snd sites pages sections nextId];
      rewrite ?map_app; cbn [map new_site home_page Site.id Page.id Page.siteId].
    + split; [split; [exact Hnd|]|split; [split|split; [split|split]]].
      * apply Forall_lt_weaken with (nextId d); [lia|exact Hlt].
      * now apply NoDup_snoc_fresh.
      * apply Forall_snoc_lt; [lia|exact Hslt].
      * exact Hndx.
      * apply Forall_lt_weaken with (nextId d); [lia|exact Hxlt].
      * intros p Hp. apply in_app_iff. left. auto.
      * exact Hsecs.
    + split; [split|split; [split|split; [split|split]]].
      * apply NoDup_snoc_fresh; [exact Hnd|].
        apply Forall_lt_weaken with (nextId d); [lia|exact Hlt].
      * apply Forall_snoc_lt; [lia|].
        apply Forall_lt_weaken with (nextId d); [lia|exact Hlt].
      * now apply NoDup_snoc_fresh.
      * apply Forall_snoc_lt; [lia|exact Hslt].
      * exact Hndx.
      * apply Forall_lt_weaken with (nextId d); [lia|exact Hxlt].
      * intros p Hp. apply in_app_iff.
        apply in_app_iff in Hp as [Hp|[<-|[]]]; [left; auto|].
        right. now left.
      * intros x Hx. apply in_app_iff. left. auto.
  - destruct (updateSite_shape id dto user rnd d)
      as [[e ->]|(site & site' & -> & _)]; [exact Hok|].
    unfold StoreOk, page_ids_ok. simpl. rewrite save_rids.
    exact Hok.
  - destruct (deleteSite_rejects id user d) as [e ->]. exact Hok.
  - destruct (createPage_effect dto user rnd d)
      as [[e ->]|(site & newp & Hin & _ & _ & _ & _ & _ & -> & -> & _)]; [exact Hok|].
    unfold StoreOk, page_ids_ok. cbn [fst snd sites pages sections nextId].
    rewrite !map_app. cbn [map new_page Page.id Page.siteId].
    split; [split|split; [split; [exact Hnds|]|split; [split; [exact Hndx|]|split]]].
    + now apply NoDup_snoc_fresh.
    + apply Forall_snoc_lt; [lia|exact Hlt].
    + apply Forall_lt_weaken with (nextId d); [lia|exact Hslt].
    + apply Forall_lt_weaken with (nextId d); [lia|exact Hxlt].
    + intros p Hp. apply in_app_iff in Hp as [Hp|[<-|[]]]; [auto|].
      cbn [new_page Page.siteId]. now apply in_map.
    + intros x Hx. apply in_app_iff. left. auto.
  - destruct (updatePage_effect id dto user rnd d)
      as [[e ->]|(page & site & Hst & _ & _ & _ & _ & ->)]; [exact Hok|].
    apply findOne_Some in Hst as (Hpin & _).
    unfold StoreOk, page_ids_ok. simpl. rewrite save_rids.
    split; [exact (conj Hnd Hlt)|]. split; [exact (conj Hnds Hslt)|].
    split; [exact (conj Hndx Hxlt)|]. split; [|exact Hsecs].
    intros p' Hp'. apply In_save in Hp' as [[-> _]|[Hp' _]]; [|auto].
    rewrite updated_page_siteId. auto.
  - destruct (deletePage_rejects id user d) as [e ->]. exact Hok.
  - destruct ids as [ids|]; [|exact Hok].
    destruct (reorderPages_outcome ids user d) as [_ He].
    unfold exec in He. rewrite He.
    destruct (reorder_accepts _ _ _ ids (pages d)); [|exact Hok].
    unfold PageController.writeOrders. rewrite writeOrders_map.
    unfold StoreOk, page_ids_ok. simpl. rewrite map_map.
    rewrite (map_ext (fun x => Page.id (assignOrder Page.id Page.set_order ids 0 x)) Page.id)
      by (intros p; apply (assignOrder_keeps Page.id Page.set_order Page.id); reflexivity).
    split; [exact (conj Hnd Hlt)|]. split; [exact (conj Hnds Hslt)|].
    split; [exact (conj Hndx Hxlt)|]. split; [|exact Hsecs].
    intros p' Hp'. apply in_map_iff in Hp' as (p & <- & Hp).
    rewrite (assignOrder_keeps Page.id Page.set_order Page.siteId) by reflexivity.
    auto.
  - destruct (createSection_effect dto user d)
      as [[e ->]|(page & x & Hst & _ & _ & -> & Hxid & Hxp & _)]; [exact Hok|].
    apply findOne_Some in Hst as (Hpin & _).
    unfold StoreOk, page_ids_ok. simpl. rewrite !map_app. simpl. rewrite Hxid.
    split; [split; [exact Hnd|]|split; [split; [exact Hnds|]|split; [split|]]].
    + apply Forall_lt_weaken with (nextId d); [lia|exact Hlt].
    + apply Forall_lt_weaken with (nextId d); [lia|exact Hslt].
    + now apply NoDup_snoc_fresh.
    + apply Forall_snoc_lt; [lia|exact Hxlt].
    + split; [exact Hpages|].
      intros y Hy. apply in_app_iff in Hy as [Hy|[<-|[]]]; [auto|].
      rewrite Hxp. now apply in_map.
  - destruct ids as [ids|]; [|exact Hok].
    destruct (reorderSections_outcome ids user d) as [_ He].
    unfold exec in He. rewrite He.
    destruct (reorder_accepts _ _ _ ids (sections d)); [|exact Hok].
    unfold SectionController.writeOrders. rewrite writeOrders_map.
    unfold StoreOk, page_ids_ok. simpl. rewrite map_map.
    rewrite (map_ext
               (fun x => PageSection.id
                           (assignOrder PageSection.id PageSection.set_order ids 0 x))
               PageSection.id)
      by (intros p; apply (assignOrder_keeps PageSection.id PageSection.set_order
                             PageSection.id); reflexivity).
    split; [exact (conj Hnd Hlt)|]. split; [exact (conj Hnds Hslt)|].
    split; [exact (conj Hndx Hxlt)|]. split; [exact Hpages|].
    intros x' Hx'. apply in_map_iff in Hx' as (x & <- & Hx).
    rewrite (assignOrder_keeps PageSection.id PageSection.set_order PageSection.pageId)
      by reflexivity.
    auto.
  - destruct (deleteSection_rejects id user d) as [e ->]. exact Hok.
  - destruct (updateSection_effect id dto user d)
      as [[e ->]|(section & Hst & _ & ->)]; [exact Hok|].
    apply findOne_Some in Hst as (Hxin & _).
    destruct (assign_keeps dto section) as (_ & Hpg & _).
    unfold StoreOk, page_ids_ok. simpl. rewrite save_rids.
    split; [exact (conj Hnd Hlt)|]. split; [exact (conj Hnds Hslt)|].
    split; [exact (conj Hndx Hxlt)|]. split; [exact Hpages|].
    intros x' Hx'. apply In_save in Hx' as [[-> _]|[Hx' _]]; [|auto].
    rewrite Hpg. auto.
  - destruct (transferOwnership_effect users id newOwnerId user d)
      as [[e ->]|(site & newOwner & _ & _ & _ & _ & _ & _ & _ & _ & ->)]; [exact Hok|].
    unfold StoreOk, page_ids_ok. simpl. rewrite save_rids. exact Hok.
Qed.

Lemma serve_storeOk rs : forall d, StoreOk d -> StoreOk (serve rs d).
Proof.
  induction rs as [|r rs IH]; intros d Hok; simpl; [exact Hok|].
  apply IH, handle_storeOk, Hok.
Qed.

Lemma empty_storeOk : StoreOk Store.empty.
Proof.
  unfold StoreOk, page_ids_ok. simpl.
  repeat split; try constructor.
  - intros p [].
  - intros x [].
Qed.

Lemma reachable_ok rs : StoreOk (serve rs Store.empty).
Proof. apply serve_storeOk, empty_storeOk. Qed.

Lemma live_unremoved {R : Type} (removedAt : R -> option Time) r :
  Repo.live removedAt r = true -> removedAt r = None.
Proof. unfold Repo.live. destruct (removedAt r); [discriminate|reflexivity]. Qed.

(** No request writes a removal stamp. *)
Lemma handle_unremoved r d : Unremoved d -> Unremoved (handle r d).
Proof.
  intros Hun. pose proof Hun as (Us & Up & Ux).
  destruct r as [dto user rnd|id dto user rnd|id user|[dto user rnd|id dto user rnd|id user]
                |ids user|dto user|ids user|id user|id dto user|users id newOwnerId user];
    unfold handle, step, exec.
  - destruct (createSite_effect dto user rnd d)
      as [[e ->]|(_ & _ & _ & [[_ ->]|[_ ->]])]; [exact Hun| |];
      unfold Unremoved; cbn [fst snd sites pages sections].
    + split; [|auto]. intros s Hs. apply in_app_iff in Hs as [Hs|[<-|[]]]; auto.
    + split; [|split; [|exact Ux]].
      * intros s Hs. apply in_app_iff in Hs as [Hs|[<-|[]]]; auto.
      * intros p Hp. apply in_app_iff in Hp as [Hp|[<-|[]]]; auto.
  - destruct (updateSite_shape id dto user rnd d)
      as [[e ->]|(site & site' & -> & Hin & _ & _ & _ & _ & _ & Hdel & _)]; [exact Hun|].
    split; [|auto]. intros s Hs. simpl in Hs.
    apply In_save in Hs as [[-> _]|[Hs _]]; [|auto]. rewrite Hdel. auto.
  - destruct (deleteSite_rejects id user d) as [e ->]. exact Hun.
  - destruct (createPage_effect dto user rnd d)
      as [[e ->]|(site & newp & _ & _ & _ & _ & _ & _ & -> & -> & _)]; [exact Hun|].
    split; [exact Us|split; [|exact Ux]].
    intros p Hp. simpl in Hp. apply in_app_iff in Hp as [Hp|[<-|[]]]; auto.
  - destruct (updatePage_effect id dto user rnd d)
      as [[e ->]|(page & site & Hst & _ & _ & _ & _ & ->)]; [exact Hun|].
    apply findOne_Some in Hst as (Hpin & _).
    split; [exact Us|split; [|exact Ux]].
    intros p Hp. simpl in Hp. apply In_save in Hp as [[-> _]|[Hp _]]; [|auto].
    rewrite updated_page_deletedAt. auto.
  - destruct (deletePage_rejects id user d) as [e ->]. exact Hun.
  - destruct ids as [ids|]; [|exact Hun].
    destruct (reorderPages_outcome ids user d) as [_ He].
    unfold exec in He. rewrite He.
    destruct (reorder_accepts _ _ _ ids (pages d)); [|exact Hun].
    unfold PageController.writeOrders. rewrite writeOrders_map.
    split; [exact Us|split; [|exact Ux]].
    intros p' Hp'. simpl in Hp'. apply in_map_iff in Hp' as (p & <- & Hp).
    rewrite (assignOrder_keeps Page.id Page.set_order Page.deletedAt) by reflexivity.
    auto.
  - destruct (createSection_effect dto user d)
      as [[e ->]|(page & x & _ & _ & _ & -> & _ & _ & Hdel)]; [exact Hun|].
    split; [exact Us|split; [exact Up|]].
    intros y Hy. simpl in Hy. apply in_app_iff in Hy as [Hy|[<-|[]]]; auto.
  - destruct ids as [ids|]; [|exact Hun].
    destruct (reorderSections_outcome ids user d) as [_ He].
    unfold exec in He. rewrite He.
    destruct (reorder_accepts _ _ _ ids (sections d)); [|exact Hun].
    unfold SectionController.writeOrders. rewrite writeOrders_map.
    split; [exact Us|split; [exact Up|]].
    intros x' Hx'. simpl in Hx'. apply in_map_iff in Hx' as (x & <- & Hx).
    rewrite (assignOrder_keeps PageSection.id PageSection.set_order PageSection.deletedAt)
      by reflexivity.
    auto.
  - destruct (deleteSection_rejects id user d) as [e ->]. exact Hun.
  - destruct (updateSection_effect id dto user d)
      as [[e ->]|(section & Hst & _ & ->)]; [exact Hun|].
    apply findOne_Some in Hst as (Hxin & _).
    destruct (assign_keeps dto section) as (_ & _ & Hdel).
    split; [exact Us|split; [exact Up|]].
    intros x' Hx'. simpl in Hx'. apply In_save in Hx' as [[-> _]|[Hx' _]]; [|auto].
    rewrite Hdel. auto.
  - destruct (transferOwnership_effect users id newOwnerId user d)
      as [[e ->]|(site & newOwner & Hin & _ & _ & _ & _ & _ & _ & _ & ->)]; [exact Hun|].
    split; [|auto]. intros s Hs. simpl in Hs.
    apply In_save in Hs as [[-> _]|[Hs _]]; [|auto]. simpl. auto.
Qed.

Lemma reachable_unremoved rs : Unremoved (serve rs Store.empty).
Proof.
  assert (H : forall d, Unremoved d -> Unremoved (serve rs d)).
  { induction rs as [|r rs IH]; intros d Hd; simpl; [exact Hd|].
    apply IH, handle_unremoved, Hd. }
  apply H. repeat split; intros ? [].
Qed.

(** Saving a row under its id keeps a column the new value shares with
    the stored row. *)
Lemma save_keeps_column {R A : Type} (rid : R -> nat) (col : R -> A) (r r' : R) tbl :
  List.NoDup (map rid tbl) -> In r tbl -> rid r' = rid r -> col r' = col r ->
  map col (Repo.save rid r' tbl) = map col tbl.
Proof.
  intros Hnd Hin Hid Hcol. unfold Repo.save. rewrite map_map.
  apply map_ext_in. intros q Hq.
  destruct (Nat.eqb_spec (rid q) (rid r')) as [He|]; [|reflexivity].
  rewrite Hcol. f_equal. symmetry.
  apply (same_id_same_row rid tbl q r Hnd Hq Hin). congruence.
Qed.

(** A request keeps the slugs of each table pairwise distinct, and the
    slug [home] taken once a site is stored. *)
Lemma handle_slugsDistinct r d :
  StoreOk d -> SlugsDistinct d -> SlugsDistinct (handle r d).
Proof.
  intros Hok Hsl.
  pose proof Hok as ((Hnd & _) & (Hnds & _) & _).
  pose proof Hsl as (Ss & Sp & Sh).
  destruct r as [dto user rnd|id dto user rnd|id user|[dto user rnd|id dto user rnd|id user]
                |ids user|dto user|ids user|id user|id dto user|users id newOwnerId user];
    unfold handle, step, exec.
  - destruct (createSite_effect dto user rnd d)
      as [[e ->]|(_ & _ & Hfree & [[Hhome ->]|[Hhome ->]])]; [exact Hsl| |];
      unfold SlugsDistinct; cbn [fst snd sites pages sections]; rewrite ?map_app;
      cbn [map new_site home_page Site.slug Page.slug].
    + split; [now apply NoDup_snoc_new|]. split; [exact Sp|]. auto.
    + split; [now apply NoDup_snoc_new|]. split; [now apply NoDup_snoc_new|].
      intros _. apply in_app_iff. right. now left.
  - destruct (updateSite_shape id dto user rnd d)
      as [[e ->]|(site & site' & -> & Hin & _ & _ & _ & Hid & _ & _ & Hslug)];
      [exact Hsl|].
    unfold SlugsDistinct. cbn [fst snd sites pages set_sites].
    rewrite (save_keeps_column Site.id Site.slug site site' (sites d) Hnds Hin Hid Hslug).
    split; [exact Ss|]. split; [exact Sp|].
    intros _. apply Sh. intros He. rewrite He in Hin. destruct Hin.
  - destruct (deleteSite_rejects id user d) as [e ->]. exact Hsl.
  - destruct (createPage_effect dto user rnd d)
      as [[e ->]|(site & newp & Hin & _ & _ & _ & _ & _ & -> & _ & Hfree)]; [exact Hsl|].
    unfold SlugsDistinct. cbn [fst snd sites pages]. rewrite map_app. cbn [map].
    split; [exact Ss|]. split; [now apply NoDup_snoc_new|].
    intros Hne. apply in_app_iff. left. auto.
  - destruct (updatePage_effect id dto user rnd d)
      as [[e ->]|(page & site & Hst & _ & _ & _ & _ & ->)]; [exact Hsl|].
    apply findOne_Some in Hst as (Hpin & _).
    unfold SlugsDistinct. cbn [fst snd sites pages set_pages].
    rewrite (save_keeps_column Page.id Page.slug page _ (pages d) Hnd Hpin
               (updated_page_id _ _ _ _ _ _) (updated_page_slug _ _ _ _ _ _)).
    exact Hsl.
  - destruct (deletePage_rejects id user d) as [e ->]. exact Hsl.
  - destruct ids as [ids|]; [|exact Hsl].
    destruct (reorderPages_outcome ids user d) as [_ He].
    unfold exec in He. rewrite He.
    destruct (reorder_accepts _ _ _ ids (pages d)); [|exact Hsl].
    unfold PageController.writeOrders. rewrite writeOrders_map.
    unfold SlugsDistinct. cbn [sites pages set_pages]. rewrite map_map.
    rewrite (map_ext (fun x => Page.slug (assignOrder Page.id Page.set_order ids 0 x))
               Page.slug)
      by (intros p; apply (assignOrder_keeps Page.id Page.set_order Page.slug);
          reflexivity).
    exact Hsl.
  - destruct (createSection_effect dto user d)
      as [[e ->]|(page & x & _ & _ & _ & -> & _)]; exact Hsl.
  - destruct ids as [ids|]; [|exact Hsl].
    destruct (reorderSections_outcome ids user d) as [_ He].
    unfold exec in He. rewrite He.
    destruct (reorder_accepts _ _ _ ids (sections d)); exact Hsl.
  - destruct (deleteSection_rejects id user d) as [e ->]. exact Hsl.
  - destruct (updateSection_effect id dto user d)
      as [[e ->]|(section & _ & _ & ->)]; exact Hsl.
  - destruct (transferOwnership_effect users id newOwnerId user d)
      as [[e ->]|(site & newOwner & Hin & _ & _ & _ & _ & _ & _ & _ & ->)]; [exact Hsl|].
    unfold SlugsDistinct. cbn [fst snd sites pages set_sites].
    rewrite (save_keeps_column Site.id Site.slug site
               (Ownership.set_owner (User.id newOwner) site) (sites d) Hnds Hin
               eq_refl eq_refl).
    split; [exact Ss|]. split; [exact Sp|].
    intros _. apply Sh. intros He. rewrite He in Hin. destruct Hin.
Qed.

Lemma reachable_slugsDistinct rs : SlugsDistinct (serve rs Store.empty).
Proof.
  assert (H : forall d, StoreOk d -> SlugsDistinct d -> SlugsDistinct (serve rs d)).
  { induction rs as [|r rs IH]; intros d Hok Hd; simpl; [exact Hd|].
    apply IH; [now apply handle_storeOk|now apply handle_slugsDistinct]. }
  apply H; [apply empty_storeOk|].
  split; [constructor|]. split; [constructor|]. intros Hne. now contradiction Hne.
Qed.

(** X9. Whatever requests a store has served since it was empty (site
    create, update, delete, transfer; page create, update, delete,
    reorder; section create, update, reorder, delete; accepted or
    rejected), ids are pairwise distinct within each table, every page
    row points to a stored site and every section row to a stored page,
    no row carries a removal stamp, and slugs are pairwise distinct among
    the sites and among the pages of all sites together. *)
Theorem reachable_store_in_order (rs : list Request) :
  let d := serve rs Store.empty in
  List.NoDup (map Site.id (sites d))
  /\ List.NoDup (map Page.id (pages d))
  /\ List.NoDup (map PageSection.id (sections d))
  /\ (forall p, In p (pages d) -> exists s, In s (sites d) /\ Site.id s = Page.siteId p)
  /\ (forall x, In x (sections d) ->
        exists p, In p (pages d) /\ Page.id p = PageSection.pageId x)
  /\ (forall s, In s (sites d) -> Site.deletedAt s = None)
  /\ (forall p, In p (pages d) -> Page.deletedAt p = None)
  /\ (forall x, In x (sections d) -> PageSection.deletedAt x = None)
  /\ List.NoDup (map Site.slug (sites d))
  /\ List.NoDup (map Page.slug (pages d)).
Proof.
  intros d.
  pose proof (reachable_ok rs) as Hok. fold d in Hok.
  pose proof Hok as ((Hnd & _) & (Hnds & _) & (Hndx & _) & Hpages & Hsecs).
  destruct (reachable_unremoved rs) as (Us & Up & Ux). fold d in Us, Up, Ux.
  destruct (reachable_slugsDistinct rs) as (Ss & Sp & _). fold d in Ss, Sp.
  split; [exact Hnds|]. split; [exact Hnd|]. split; [exact Hndx|].
  split; [|split; [|repeat split; assumption]].
  - intros p Hp. apply Hpages in Hp. apply in_map_iff in Hp as (s & Hs & Hin). eauto.
  - intros x Hx. apply Hsecs in Hx. apply in_map_iff in Hx as (p & Hp & Hin). eauto.
Qed.
End StoreInvariant.
(* ===================================================================== *)
(** * Requests against the store *)
(* ===================================================================== *)

Section ReorderIsolation.
Context {R : Type}.
Variable rid : R -> nat.
Variable removedAt : R -> option Time.
Variable set_order : Z -> R -> R.
Variable access : R -> bool.
Hypothesis rid_set_order : forall v r, rid (set_order v r) = rid r.

(** An accepted reorder lists only rows its requester has access to. *)
Lemma reorder_leaves_inaccessible ids tbl r :
  List.NoDup (map rid tbl) -> In r tbl -> access r = false ->
  In r (if reorder_accepts rid removedAt access ids tbl
        then Repo.writeOrders rid set_order ids 0 tbl else tbl).
Proof.
  intros Hnd Hin Hacc.
  pose proof (reorder_core rid removedAt set_order access rid_set_order ids tbl Hnd)
    as (Hiff & _ & Hafter).
  destruct (reorder_accepts rid removedAt access ids tbl); [|exact Hin].
  destruct (Hafter eq_refl) as (_ & _ & Hunl).
  apply Hunl; [|exact Hin]. intros Hlisted.
  destruct (proj1 Hiff eq_refl) as (_ & _ & Hall).
  destruct (Hall _ Hlisted) as (r2 & Hr2 & _ & Hid & Hacc2).
  rewrite (same_id_same_row rid tbl r2 r Hnd Hr2 Hin Hid) in Hacc2. congruence.
Qed.
End ReorderIsolation.

Section Requests.
Import PageController.


End Requests.

Section Quotas.


End Quotas.

Section Isolation.

Lemma owned_site_accessible user site :
  siteLive site = true -> Site.owner site = User.id user ->
  canAccessSite user site = true.
Proof.
  intros Hl Ho. unfold canAccessSite. now rewrite Hl, Ho, Nat.eqb_refl.
Qed.

(** In a store that is in order, a request leaves the rows its requester
    has no access to as they were. *)
Lemma handle_isolation r d :
  StoreOk d ->
  (forall s, In s (sites d) -> canAccessSite (request_user r) s = false ->
             In s (sites (handle r d)))
  /\ (forall p, In p (pages d) -> canAccessPage (request_user r) d p = false ->
                In p (pages (handle r d)))
  /\ (forall x, In x (sections d) -> canAccessSection (request_user r) d x = false ->
                In x (sections (handle r d))).
Proof.
  intros ((Hnd & _) & (Hnds & _) & (Hndx & _) & _).
  destruct r as [dto user rnd|id dto user rnd|id user
                |[dto user rnd|id dto user rnd|id user]|ids user
                |dto user|ids user|id user|id dto user|users id newOwnerId user];
    unfold handle, step, exec, request_user.
  - destruct (createSite_effect dto user rnd d)
      as [[e ->]|(_ & _ & _ & [[_ ->]|[_ ->]])]; [auto| |]; simpl;
      repeat split; auto; intros; apply in_app_iff; auto.
  - destruct (updateSite_shape id dto user rnd d)
      as [[e ->]|(site & site' & -> & Hin & Hlive & _ & Hown & Hid' & _)]; [auto|].
    simpl. split; [|auto]. intros s Hs Hacc.
    apply In_save. right. split; [exact Hs|]. rewrite Hid'. intros Heq.
    rewrite (same_id_same_row Site.id (sites d) s site Hnds Hs Hin Heq) in Hacc.
    rewrite owned_site_accessible in Hacc; [discriminate|assumption|assumption].
  - destruct (deleteSite_rejects id user d) as [e ->]. auto.
  - destruct (createPage_effect dto user rnd d)
      as [[e ->]|(site & newp & _ & _ & _ & _ & _ & _ & -> & _)]; [auto|].
    simpl. split; [auto|]. split; [|auto]. intros p Hp Hacc.
    apply in_app_iff. now left.
  - destruct (updatePage_effect id dto user rnd d)
      as [[e ->]|(page & site & Hst & Hin & Hlive & Hsid & Hown & ->)]; [auto|].
    apply findOne_Some in Hst as (Hpin & _ & _).
    simpl. split; [auto|]. split; [|auto]. intros p Hp Hacc.
    assert (Hother : Page.siteId p <> Site.id site).
    { intros Heq. rewrite (owner_canAccessPage user d p site) in Hacc; auto.
      discriminate. }
    apply In_save. right. rewrite updated_page_id. split; [exact Hp|].
    intros Heq. apply Hother.
    rewrite (same_id_same_row Page.id (pages d) p page Hnd Hp Hpin Heq). auto.
  - destruct (deletePage_rejects id user d) as [e ->]. auto.
  - destruct ids as [ids|]; [|auto].
    destruct (reorderPages_outcome ids user d) as [_ He].
    unfold exec in He. rewrite He.
    split; [|split].
    + destruct (reorder_accepts _ _ _ ids (pages d)); auto.
    + intros p Hp Hacc.
      pose proof (reorder_leaves_inaccessible Page.id Page.deletedAt Page.set_order
                    (canAccessPage user d) (fun _ _ => eq_refl) ids (pages d) p
                    Hnd Hp Hacc) as H.
      unfold PageController.writeOrders.
      destruct (reorder_accepts _ _ _ ids (pages d)); exact H.
    + destruct (reorder_accepts _ _ _ ids (pages d)); auto.
  - destruct (createSection_effect dto user d)
      as [[e ->]|(page & x & _ & _ & _ & -> & _)]; [auto|].
    simpl. repeat split; auto. intros; apply in_app_iff; auto.
  - destruct ids as [ids|]; [|auto].
    destruct (reorderSections_outcome ids user d) as [_ He].
    unfold exec in He. rewrite He.
    split; [|split].
    + destruct (reorder_accepts _ _ _ ids (sections d)); auto.
    + destruct (reorder_accepts _ _ _ ids (sections d)); auto.
    + intros x Hx Hacc.
      pose proof (reorder_leaves_inaccessible PageSection.id PageSection.deletedAt
                    PageSection.set_order (canAccessSection user d)
                    (fun _ _ => eq_refl) ids (sections d) x Hndx Hx Hacc) as H.
      unfold SectionController.writeOrders.
      destruct (reorder_accepts _ _ _ ids (sections d)); exact H.
  - destruct (deleteSection_rejects id user d) as [e ->]. auto.
  - destruct (updateSection_effect id dto user d)
      as [[e ->]|(section & Hst & Hacc' & ->)]; [auto|].
    apply findOne_Some in Hst as (Hxin & _ & _).
    destruct (assign_keeps dto section) as (Hid' & _).
    simpl. split; [auto|]. split; [auto|]. intros x Hx Hacc.
    apply In_save. right. split; [exact Hx|]. rewrite Hid'. intros Heq.
    rewrite (same_id_same_row PageSection.id (sections d) x section Hndx Hx Hxin Heq)
      in Hacc.
    congruence.
  - destruct (transferOwnership_effect users id newOwnerId user d)
      as [[e ->]|(site & newOwner & Hin & Hlive & _ & Hown & _ & _ & _ & _ & ->)];
      [auto|].
    simpl. split; [|auto]. intros s Hs Hacc.
    apply In_save. right. split; [exact Hs|]. simpl. intros Heq.
    rewrite (same_id_same_row Site.id (sites d) s site Hnds Hs Hin Heq) in Hacc.
    rewrite owned_site_accessible in Hacc; [discriminate|assumption|assumption].
Qed.

(** X12. No request changes what its requester has no access to. In any
    store reached from the empty one, a request leaves in place, unchanged,
    every site row that does not pass the ownership query for the
    requester, every page row whose site does not, and every section row
    whose page's site does not. *)
Theorem tenant_isolation (rs : list Request) (r : Request) :
  let d := serve rs Store.empty in
  (forall s, In s (sites d) -> canAccessSite (request_user r) s = false ->
             In s (sites (handle r d)))
  /\ (forall p, In p (pages d) -> canAccessPage (request_user r) d p = false ->
                In p (pages (handle r d)))
  /\ (forall x, In x (sections d) -> canAccessSection (request_user r) d x = false ->
                In x (sections (handle r d))).
Proof. intros d. apply handle_isolation, reachable_ok. Qed.
End Isolation.

Section Deletes.

(** Ids a table holds are ids the table holds after any request. *)
Lemma handle_keeps_ids r d :
  incl (map Site.id (sites d)) (map Site.id (sites (handle r d)))
  /\ incl (map Page.id (pages d)) (map Page.id (pages (handle r d)))
  /\ incl (map PageSection.id (sections d)) (map PageSection.id (sections (handle r d))).
Proof.
  assert (Hrefl : forall l : list nat, incl l l) by (intros l x Hx; exact Hx).
  assert (Happ : forall l l' : list nat, incl l (l ++ l'))
    by (intros l l' x Hx; apply in_app_iff; now left).
  destruct r as [dto user rnd|id dto user rnd|id user
                |[dto user rnd|id dto user rnd|id user]|ids user
                |dto user|ids user|id user|id dto user|users id newOwnerId user];
    unfold handle, step, exec.
  - destruct (createSite_effect dto user rnd d)
      as [[e ->]|(_ & _ & _ & [[_ ->]|[_ ->]])]; cbn [fst snd sites pages sections];
      rewrite ?map_app; auto.
  - destruct (updateSite_shape id dto user rnd d)
      as [[e ->]|(site & site' & -> & _)]; [auto|].
    simpl. rewrite save_rids. auto.
  - destruct (deleteSite_rejects id user d) as [e ->]. auto.
  - destruct (createPage_effect dto user rnd d)
      as [[e ->]|(site & newp & _ & _ & _ & _ & _ & _ & -> & _)];
      cbn [fst snd sites pages sections]; rewrite ?map_app; auto.
  - destruct (updatePage_effect id dto user rnd d)
      as [[e ->]|(page & site & _ & _ & _ & _ & _ & ->)]; [auto|].
    simpl. rewrite save_rids. auto.
  - destruct (deletePage_rejects id user d) as [e ->]. auto.
  - destruct ids as [ids|]; [|auto].
    destruct (reorderPages_outcome ids user d) as [_ He].
    unfold exec in He. rewrite He.
    destruct (reorder_accepts _ _ _ ids (pages d)); [|auto].
    unfold PageController.writeOrders. simpl.
    rewrite (writeOrders_rids Page.id Page.set_order) by reflexivity. auto.
  - destruct (createSection_effect dto user d)
      as [[e ->]|(page & x & _ & _ & _ & -> & _)];
      cbn [fst snd sites pages sections]; rewrite ?map_app; auto.
  - destruct ids as [ids|]; [|auto].
    destruct (reorderSections_outcome ids user d) as [_ He].
    unfold exec in He. rewrite He.
    destruct (reorder_accepts _ _ _ ids (sections d)); [|auto].
    unfold SectionController.writeOrders. simpl.
    rewrite (writeOrders_rids PageSection.id PageSection.set_order) by reflexivity. auto.
  - destruct (deleteSection_rejects id user d) as [e ->]. auto.
  - destruct (updateSection_effect id dto user d)
      as [[e ->]|(section & _ & _ & ->)]; [auto|].
    simpl. rewrite save_rids. auto.
  - destruct (transferOwnership_effect users id newOwnerId user d)
      as [[e ->]|(site & newOwner & _ & _ & _ & _ & _ & _ & _ & _ & ->)]; [auto|].
    simpl. rewrite save_rids. auto.
Qed.

(** X13. Nothing is ever deleted. Whatever the store, a request to
    delete a page or a section is answered with an error and writes
    nothing: for a requester with access, with the error of a last page
    or last section, since the handler's count reports no row. A request
    to delete a site is answered with "Site not found" unless the
    requester owns the site, and then [softRemove] throws for want of a
    delete date column; it writes nothing either. No request of any kind
    takes a row out of a table. *)
Theorem nothing_is_deleted (d : DB) :
  (forall id user, exists e, PageController.deletePage id user d = (Err e, d))
  /\ (forall id user page,
        stored id d = Some page -> canAccessPage user d page = true ->
        PageController.deletePage id user d
        = (Err (BadRequestError "Cannot delete the last page of a site"), d))
  /\ (forall id user, exists e, SectionController.deleteSection id user d = (Err e, d))
  /\ (forall id user section,
        storedSection id d = Some section -> canAccessSection user d section = true ->
        SectionController.deleteSection id user d
        = (Err (BadRequestError "Cannot delete the last section of a page"), d))
  /\ (forall id user,
        SiteController.deleteSite id user d
        = (Err (if existsb (fun s => Nat.eqb (Site.id s) id && canAccessSite user s)
                     (sites d)
                then MissingDeleteDateColumnError "Site"
                else NotFoundError "Site not found"), d))
  /\ (forall r,
        incl (map Site.id (sites d)) (map Site.id (sites (handle r d)))
        /\ incl (map Page.id (pages d)) (map Page.id (pages (handle r d)))
        /\ incl (map PageSection.id (sections d))
             (map PageSection.id (sections (handle r d)))).
Proof.
  split; [intros id user; apply deletePage_rejects|].
  split; [intros id user page; apply deletePage_accessible|].
  split; [intros id user; apply deleteSection_rejects|].
  split; [intros id user section; apply deleteSection_accessible|].
  split; [|intros r; apply handle_keeps_ids].
  intros id user. rewrite deleteSite_eq.
  destruct (Repo.findOne Site.deletedAt _ (sites d)) as [site|] eqn:Hs.
  - apply findOne_Some in Hs as (Hin & Hlive & Hw).
    apply andb_prop in Hw as [Hid Hown].
    assert (Hex : existsb (fun s => Nat.eqb (Site.id s) id && canAccessSite user s)
                    (sites d) = true).
    { apply existsb_exists. exists site. split; [exact Hin|].
      unfold canAccessSite, siteLive. now rewrite Hid, Hlive, Hown. }
    now rewrite Hex.
  - assert (Hex : existsb (fun s => Nat.eqb (Site.id s) id && canAccessSite user s)
                    (sites d) = false).
    { destruct (existsb _ (sites d)) eqn:E; [|reflexivity].
      apply existsb_exists in E as (s & Hin & Hw).
      apply andb_prop in Hw as [Hid Hacc]. unfold canAccessSite in Hacc.
      apply andb_prop in Hacc as [Hlive Hown].
      pose proof (findOne_None _ _ _ Hs s Hin Hlive) as Hf. cbv beta in Hf.
      rewrite Hid, Hown in Hf. discriminate. }
    now rewrite Hex.
Qed.
End Deletes.

Section Updates.

Lemma set_pages_same d : set_pages (pages d) d = d.
Proof. now destruct d. Qed.

Lemma set_sites_same d : set_sites (sites d) d = d.
Proof. now destruct d. Qed.

(** X15. An update that sends no field changes nothing. In any store
    reached from the empty one, [updatePage] and [updateSite] called with
    an empty body leave the store as it was, and when they answer, they
    answer with the stored row. *)
Theorem empty_update_changes_nothing (rs : list Request) (id : nat) (user : User.t)
    (rnd : string) :
  let d := serve rs Store.empty in
  exec (PageController.updatePage id empty_page_update user rnd) d = d
  /\ (forall page,
        answer (PageController.updatePage id empty_page_update user rnd) d = Ok page ->
        stored id d = Some page)
  /\ exec (SiteController.updateSite id empty_site_update user rnd) d = d
  /\ (forall site,
        answer (SiteController.updateSite id empty_site_update user rnd) d = Ok site ->
        In site (sites d) /\ Site.id site = id /\ canAccessSite user site = true).
Proof.
  intros d.
  pose proof (reachable_ok rs) as ((Hnd & _) & (Hnds & _) & _). fold d in Hnd, Hnds.
  assert (Hpage : exec (PageController.updatePage id empty_page_update user rnd) d = d
                  /\ forall page,
                       answer (PageController.updatePage id empty_page_update user rnd) d
                       = Ok page -> stored id d = Some page).
  { unfold exec, answer.
    destruct (updatePage_effect id empty_page_update user rnd d)
      as [[e ->]|(page & site & Hst & _ & _ & _ & _ & ->)];
      [split; [reflexivity|discriminate]|].
    assert (Hsame : updated_page id empty_page_update rnd site page d = page)
      by reflexivity.
    rewrite Hsame. simpl.
    pose proof Hst as Hst0. apply findOne_Some in Hst as (Hin & _).
    rewrite (save_same Page.id page (pages d) Hnd Hin), set_pages_same.
    split; [reflexivity|]. intros p' [= <-]. exact Hst0. }
  destruct Hpage as [Hp1 Hp2].
  split; [exact Hp1|]. split; [exact Hp2|].
  unfold exec, answer, SiteController.updateSite. unfold_m. simpl.
  destruct (Repo.findOne Site.deletedAt _ (sites d)) as [site|] eqn:Hs; simpl;
    [|split; [reflexivity|discriminate]].
  apply findOne_Some in Hs as (Hin & Hlive & Hw).
  apply andb_prop in Hw as [Hid Hown]. apply Nat.eqb_eq in Hid, Hown.
  rewrite (save_same Site.id site (sites d) Hnds Hin), set_sites_same.
  split; [reflexivity|]. intros s [= <-].
  split; [exact Hin|]. split; [exact Hid|]. now apply owned_site_accessible.
Qed.
End Updates.

Section PageFrame.

(** X16. A page request never alters another page. Whatever the store,
    every page row other than the one the request addresses by id is
    still stored afterwards exactly as it was, its homepage flag
    included: a create or an update that carries [isHomepage: true]
    leaves the flag of the former homepage set. *)
Theorem page_request_frame (d : DB) (op : PageOp) (q : Page.t) :
  In q (pages d) -> op_target op <> Some (Page.id q) ->
  In q (pages (step op d)).
Proof.
  intros Hq Htarget.
  destruct op as [dto user rnd|id dto user rnd|id user]; unfold step, exec.
  - destruct (createPage_effect dto user rnd d)
      as [[e ->]|(site & newp & _ & _ & _ & _ & _ & _ & -> & _)]; [exact Hq|].
    simpl. apply in_app_iff. now left.
  - destruct (updatePage_effect id dto user rnd d)
      as [[e ->]|(page & site & Hst & _ & _ & _ & _ & ->)]; [exact Hq|].
    simpl. apply In_save. right. split; [exact Hq|].
    rewrite updated_page_id.
    apply findOne_Some in Hst as (_ & _ & Hid). apply Nat.eqb_eq in Hid.
    intros Heq. apply Htarget. simpl. congruence.
  - destruct (deletePage_rejects id user d) as [e ->]. exact Hq.
Qed.

Lemma page_request_frame_witness :
  let d := serve demo_requests Store.empty in
  let home := Page.mk 2 "Home" "home" None None Page.draft Page.home true 0 ∅ ∅ 1 None in
  In home (pages d)
  /\ In home (pages (step (OpUpdate 3 (only_flag true) alice "0.4fzyo82mvyr") d)).
Proof.
  intros d home.
  assert (Hin : In home (pages d)) by (vm_compute; auto).
  split; [exact Hin|].
  apply (page_request_frame d (OpUpdate 3 (only_flag true) alice "0.4fzyo82mvyr") home Hin).
  simpl. discriminate.
Defined.
End PageFrame.

(* ===================================================================== *)
(** * The periodic reset of the credit ledger *)
(* ===================================================================== *)

Section CreditsResetFacts.
Import AICredits CreditsReset.
Variable plusDays plusMonths plusYears : Z -> Time -> Time.

Abbreviation reset := (resetCreditsIfNeeded plusDays plusMonths plusYears).

Lemma reset_fired now c :
  fst (reset now c) = true ->
  exists next,
    nextResetAt c = Some next /\ next <= now
    /\ resetFrequency c <> Some never
    /\ snd (reset now c)
       = mk (credits c) 0 (Some now)
           (Some (nextResetFrom plusDays plusMonths plusYears (resetFrequency c) now))
           (resetFrequency c) (userId c).
Proof.
  unfold resetCreditsIfNeeded.
  destruct (resetFrequency c) as [[]|] eqn:Hf, (nextResetAt c) as [next|] eqn:Hn;
    simpl; try discriminate;
    destruct (Z.leb_spec next now); simpl; try discriminate;
    intros _; exists next; repeat split; auto; try discriminate;
    unfold set_nextResetAt, set_usedCredits, set_lastResetAt; simpl; now rewrite Hf.
Qed.

Lemma reset_not_fired now c :
  fst (reset now c) = false -> snd (reset now c) = c.
Proof.
  unfold resetCreditsIfNeeded.
  destruct (resetFrequency c) as [[]|], (nextResetAt c) as [next|]; simpl; auto;
    destruct (next <=? now); simpl; auto; discriminate.
Qed.

Section Forward.
Hypothesis plusDays_later : forall k t, 0 < k -> t < plusDays k t.
Hypothesis plusMonths_later : forall k t, 0 < k -> t < plusMonths k t.
Hypothesis plusYears_later : forall k t, 0 < k -> t < plusYears k t.

(** X18. A ledger with a reset frequency is reset once per period. If the
    calendar steps move forward in time, a reset that fires at [now] wipes
    the used credits, leaves the credits as they are, and schedules the
    next reset strictly after [now], counted from the time of the call
    and not from the date that was due; until that next date every
    further call returns [false] and changes nothing. *)
Theorem reset_once_per_period (now : Time) (c : AICredits.t) :
  resetFrequency c <> None ->
  fst (reset now c) = true ->
  let c' := snd (reset now c) in
  credits c' = credits c /\ usedCredits c' = 0 /\ lastResetAt c' = Some now
  /\ (forall n, hasEnoughCredits n c' = true <-> n <= credits c)
  /\ exists next,
       nextResetAt c' = Some next /\ now < next
       /\ next = nextResetFrom plusDays plusMonths plusYears (resetFrequency c) now
       /\ forall now', now' < next -> reset now' c' = (false, c').
Proof.
  intros Hfreq Hfired c'.
  destruct (reset_fired now c Hfired) as (due & Hdue & Hle & Hnever & Hc').
  unfold c'. rewrite Hc'. simpl.
  split; [reflexivity|]. split; [reflexivity|]. split; [reflexivity|].
  split.
  { intros n. unfold hasEnoughCredits. simpl. rewrite Z.leb_le. lia. }
  eexists. split; [reflexivity|].
  assert (Hlater : now < nextResetFrom plusDays plusMonths plusYears (resetFrequency c) now).
  { destruct (resetFrequency c) as [[]|]; simpl; try congruence;
      first [apply plusDays_later|apply plusMonths_later|apply plusYears_later]; lia. }
  split; [exact Hlater|]. split; [reflexivity|].
  intros now' Hnow'. unfold resetCreditsIfNeeded. simpl.
  destruct (resetFrequency c) as [[]|]; try congruence;
    match goal with
    | |- context [?a <=? ?b] => destruct (Z.leb_spec a b); [lia|reflexivity]
    end.
Qed.
End Forward.

(** X19. Without a reset frequency the reset never settles, with
    [never] it never fires. On a ledger whose [resetFrequency] is not set,
    a reset that fires at [now] schedules the next reset for [now] itself,
    so every later call fires again and wipes the used credits again. On a
    ledger with frequency [never], or without a next reset date, no call
    changes anything, however late. *)
Theorem reset_without_frequency (now : Time) (c : AICredits.t) :
  (resetFrequency c = None -> fst (reset now c) = true ->
   nextResetAt (snd (reset now c)) = Some now
   /\ forall now' used,
        now <= now' ->
        reset now' (set_usedCredits used (snd (reset now c)))
        = (true, set_lastResetAt (Some now')
                   (set_nextResetAt (Some now') (snd (reset now c)))))
  /\ (resetFrequency c = Some never \/ nextResetAt c = None ->
      reset now c = (false, c)).
Proof.
  split.
  - intros Hfreq Hfired.
    destruct (reset_fired now c Hfired) as (due & Hdue & Hle & _ & Hc').
    rewrite Hc', Hfreq. simpl. split; [reflexivity|].
    intros now' used Hnow'. unfold resetCreditsIfNeeded. simpl.
    destruct (Z.leb_spec now now'); [reflexivity|lia].
  - unfold resetCreditsIfNeeded. intros [->| ->]; [reflexivity|].
    now destruct (resetFrequency c) as [[]|].
Qed.

(** X20. The ledger is never overdrawn and never runs a negative usage.
    Starting from [0 <= usedCredits <= credits], any sequence of
    [useCredits], [addCredits] and [resetCreditsIfNeeded] calls whose
    amounts are not negative keeps [0 <= usedCredits <= credits]; the
    credits change only by what [addCredits] added. *)
Theorem ledger_never_overdrawn (ops : list LedgerOp) (c : AICredits.t) :
  0 <= usedCredits c <= credits c ->
  forallb amount_ok ops = true ->
  let c' := ledger_run plusDays plusMonths plusYears ops c in
  0 <= usedCredits c' <= credits c'
  /\ credits c' = credits c + added ops.
Proof.
  unfold ledger_run. cbv zeta.
  revert c. induction ops as [|op ops IH]; intros c Hc Hops; cbn [fold_left added fold_right].
  - split; [exact Hc|lia].
  - simpl in Hops. apply andb_prop in Hops as [Hop Hops].
    assert (Hstep : 0 <= usedCredits (ledger_step plusDays plusMonths plusYears c op)
                         <= credits (ledger_step plusDays plusMonths plusYears c op)
                    /\ credits (ledger_step plusDays plusMonths plusYears c op)
                       = credits c + match op with LAdd n => n | _ => 0 end).
    { destruct op as [n|n|now]; simpl in *.
      - apply Z.leb_le in Hop. unfold useCredits, hasEnoughCredits.
        destruct (Z.leb_spec n (credits c - usedCredits c)); simpl; lia.
      - apply Z.leb_le in Hop. lia.
      - destruct (fst (reset now c)) eqn:Hf.
        + destruct (reset_fired now c Hf) as (due & _ & _ & _ & ->). simpl. lia.
        + rewrite (reset_not_fired now c Hf). lia. }
    destruct Hstep as [Hinv Hcred].
    destruct (IH _ Hinv Hops) as [H1 H2].
    split; [exact H1|].
    rewrite H2, Hcred. fold (added ops). destruct op; lia.
Qed.
End CreditsResetFacts.

Lemma reset_once_per_period_witness :
  let c := AICredits.mk 100 40 None (Some 1700000000000) (Some AICredits.monthly) 7 in
  let c' := snd (CreditsReset.resetCreditsIfNeeded fixedDays fixedMonths fixedYears
                   1700000500000 c) in
  AICredits.usedCredits c' = 0
  /\ AICredits.nextResetAt c' = Some 1702592500000
  /\ CreditsReset.resetCreditsIfNeeded fixedDays fixedMonths fixedYears
       1700000500000 c' = (false, c').
Proof.
  intros c c'.
  assert (Hd : forall k t, 0 < k -> t < fixedDays k t) by (unfold fixedDays; lia).
  assert (Hm : forall k t, 0 < k -> t < fixedMonths k t) by (unfold fixedMonths; lia).
  assert (Hy : forall k t, 0 < k -> t < fixedYears k t) by (unfold fixedYears; lia).
  assert (Hf : AICredits.resetFrequency c <> None) by discriminate.
  assert (Hfired : fst (CreditsReset.resetCreditsIfNeeded fixedDays fixedMonths fixedYears
                          1700000500000 c) = true) by reflexivity.
  destruct (reset_once_per_period fixedDays fixedMonths fixedYears Hd Hm Hy
              1700000500000 c Hf Hfired)
    as (_ & Hused & _ & _ & next & Hnext & _ & Heq & Hquiet).
  split; [exact Hused|]. split; [reflexivity|].
  apply Hquiet. rewrite Heq. vm_compute. reflexivity.
Defined.

Lemma ledger_never_overdrawn_witness :
  let c := AICredits.mk 100 40 None (Some 1700000000000) (Some AICredits.monthly) 7 in
  let ops := [LUse 50; LUse 20; LAdd 30; LReset 1700000500000; LUse 130] in
  let c' := ledger_run fixedDays fixedMonths fixedYears ops c in
  0 <= AICredits.usedCredits c' <= AICredits.credits c'
  /\ AICredits.credits c' = 130.
Proof.
  intros c ops c'.
  assert (Hc : 0 <= AICredits.usedCredits c <= AICredits.credits c) by (simpl; lia).
  assert (Hops : forallb amount_ok ops = true) by reflexivity.
  exact (ledger_never_overdrawn fixedDays fixedMonths fixedYears ops c Hc Hops).
Defined.

Lemma reset_without_frequency_witness :
  let c := AICredits.mk 100 40 None (Some 1700000000000) None 7 in
  let c' := snd (CreditsReset.resetCreditsIfNeeded fixedDays fixedMonths fixedYears
                   1700000500000 c) in
  AICredits.nextResetAt c' = Some 1700000500000
  /\ fst (CreditsReset.resetCreditsIfNeeded fixedDays fixedMonths fixedYears
            1700000500001 (AICredits.set_usedCredits 25 c')) = true.
Proof.
  intros c c'.
  destruct (reset_without_frequency fixedDays fixedMonths fixedYears 1700000500000 c)
    as [H _].
  destruct (H eq_refl eq_refl) as [Hnext Hagain].
  split; [exact Hnext|].
  unfold c'. rewrite (Hagain 1700000500001 25); [reflexivity|lia].
Defined.

(* ===================================================================== *)
(** * Reading one row *)
(* ===================================================================== *)

Section ReadHandlers.
Import Reads.

Lemma getPage_outcome id user d :
  getPage id user d =
    match stored id d with
    | None => (Err (NotFoundError "Page not found"), d)
    | Some page =>
        match List.find (fun s => Nat.eqb (Site.id s) (Page.siteId page)) (sites d) with
        | None => (Err (TypeError "Cannot read properties of null (reading 'id')"), d)
        | Some joined =>
            match Repo.findOne Site.deletedAt
                    (fun s => Nat.eqb (Site.id s) (Site.id joined)
                              && Nat.eqb (Site.owner s) (User.id user)) (sites d) with
            | None =>
                (Err (ForbiddenError "You do not have permission to access this page"), d)
            | Some _ => (Ok page, d)
            end
        end
    end.
Proof.
  unfold getPage, stored. unfold_m.
  case_findOne Hp; [|reflexivity].
  case_find Hj; [|reflexivity].
  case_findOne Hs; reflexivity.
Qed.



End ReadHandlers.

(* ===================================================================== *)
(** * Updating a section, transferring a site *)
(* ===================================================================== *)

Section SectionUpdateFacts.
Import SectionUpdate.

(** X22. [updateSection] merges, and what it saved is what is read back.
    In any store reached from the empty one, an answered update keeps the
    section's id, page and removal stamp; [content] and [settings] are
    merged key by key (a key that is sent takes the new value, a key that
    is not sent keeps the stored one), while [title], [type], [order] and
    [isActive] are replaced when sent. The next lookup of the id finds the
    answered row, every other section row is unchanged, and sites and
    pages are untouched. *)
Theorem updateSection_merges (rs : list Request) (id : nat) (dto : UpdateSectionDto)
    (user : User.t) (section' : PageSection.t) :
  let d := serve rs Store.empty in
  answer (updateSection id dto user) d = Ok section' ->
  let d' := exec (updateSection id dto user) d in
  storedSection id d' = Some section'
  /\ (exists section,
        storedSection id d = Some section
        /\ PageSection.id section' = id
        /\ PageSection.pageId section' = PageSection.pageId section
        /\ PageSection.deletedAt section' = None
        /\ PageSection.title section' = default (PageSection.title section) (u_title dto)
        /\ PageSection.type section' = default (PageSection.type section) (u_type dto)
        /\ PageSection.order section' = default (PageSection.order section) (u_order dto)
        /\ PageSection.isActive section'
           = default (PageSection.isActive section) (u_isActive dto)
        /\ (forall k,
              PageSection.content section' !! k
              = match default ∅ (u_content dto) !! k with
                | Some v => Some v
                | None => PageSection.content section !! k
                end)
        /\ (forall k,
              PageSection.settings section' !! k
              = match default ∅ (u_settings dto) !! k with
                | Some v => Some v
                | None => PageSection.settings section !! k
                end))
  /\ (forall x, In x (sections d) -> PageSection.id x <> id -> In x (sections d'))
  /\ pages d' = pages d /\ sites d' = sites d.
Proof.
  intros d Hans d'.
  pose proof (reachable_ok rs) as (_ & _ & (Hndx & _) & _). fold d in Hndx.
  unfold answer in Hans. unfold d', exec.
  destruct (updateSection_effect id dto user d)
    as [[e He]|(section & Hst & _ & He)]; rewrite He in *; [discriminate|].
  simpl in Hans. injection Hans as <-. simpl.
  pose proof Hst as Hst0.
  apply findOne_Some in Hst as (Hin & Hlive & Hid). apply Nat.eqb_eq in Hid.
  destruct (assign_keeps dto section) as (Hid' & Hpg' & Hdel').
  assert (Hdel : PageSection.deletedAt section = None).
  { unfold Repo.live in Hlive. destruct (PageSection.deletedAt section);
      [discriminate|reflexivity]. }
  split; [|split; [|split; [|split; reflexivity]]].
  - unfold storedSection. simpl. rewrite <- Hid, <- Hid'.
    apply (findOne_save PageSection.id PageSection.deletedAt); auto.
    + exists section. auto.
    + unfold Repo.live. now rewrite Hdel', Hdel.
  - exists section. split; [exact Hst0|]. split; [congruence|].
    split; [exact Hpg'|]. split; [congruence|].
    unfold assign.
    destruct (u_title dto), (u_type dto), (u_order dto), (u_isActive dto),
      (u_content dto) as [c|], (u_settings dto) as [g|]; simpl;
      repeat split; auto; intros k;
      rewrite ?spread_lookup; simpl; rewrite ?lookup_empty; reflexivity.
  - intros x Hx Hne. apply In_save. right. split; [exact Hx|]. congruence.
Qed.

Lemma updateSection_merges_witness :
  let d := serve demo_requests Store.empty in
  let dto := mkUpdate None None (Some {[ "heading" := "Hello" ]}) None None (Some false) in
  let d' := exec (updateSection 5 dto alice) d in
  exists section',
    answer (updateSection 5 dto alice) d = Ok section'
    /\ storedSection 5 d' = Some section'
    /\ PageSection.content section' !! "heading" = Some "Hello"
    /\ PageSection.isActive section' = false.
Proof.
  intros d dto d'.
  destruct (answer (updateSection 5 dto alice) d) as [section'|e] eqn:Hans;
    [|vm_compute in Hans; discriminate].
  exists section'. split; [reflexivity|].
  destruct (updateSection_merges demo_requests 5 dto alice section' Hans)
    as (Hback & (section & _ & _ & _ & _ & _ & _ & _ & Hact & Hcontent & _) & _).
  split; [exact Hback|]. split.
  - rewrite Hcontent. reflexivity.
  - rewrite Hact. reflexivity.
Defined.
End SectionUpdateFacts.

Section UniqueRow.
Context {R : Type}.
Variable rid : R -> nat.
Variable removedAt : R -> option Time.

Lemma findOne_unique (w : R -> bool) (r : R) tbl :
  List.NoDup (map rid tbl) -> In r tbl ->
  Repo.live removedAt r = true -> w r = true ->
  (forall q, w q = true -> rid q = rid r) ->
  Repo.findOne removedAt w tbl = Some r.
Proof.
  intros Hnd Hin Hl Hw Huniq.
  destruct (Repo.findOne removedAt w tbl) as [q|] eqn:H.
  - apply findOne_Some in H as (Hq & _ & Hwq).
    now rewrite (same_id_same_row rid tbl q r Hnd Hq Hin (Huniq q Hwq)).
  - rewrite (findOne_None _ _ _ H r Hin Hl) in Hw. discriminate.
Qed.
End UniqueRow.

Section OwnershipFacts.
Import Ownership.

(** X23. A transfer moves the site, and everything on it, from one owner
    to the other. In any store reached from the empty one, an answered
    [transferOwnership] names a user of the [users] table other than the
    requester, who was below the site limit of their plan; it takes the
    site out of the requester's count and into the new owner's, changes
    no page and no section, and hands over the access: afterwards the
    former owner gets "Site not found" and has no access to any page of
    the site, while the new owner reads the site and has access to all of
    its pages. *)
Theorem transferOwnership_moves_site (rs : list Request) (users : list User.t)
    (id newOwnerId : nat) (user : User.t) (site' : Site.t) :
  let d := serve rs Store.empty in
  answer (transferOwnership users id newOwnerId user) d = Ok site' ->
  let d' := exec (transferOwnership users id newOwnerId user) d in
  exists newOwner,
    In newOwner users /\ User.id newOwner = newOwnerId
    /\ newOwnerId <> User.id user
    /\ Site.id site' = id /\ Site.owner site' = newOwnerId
    /\ S (countSites user d') = countSites user d
    /\ countSites newOwner d' = S (countSites newOwner d)
    /\ (countSites newOwner d' <= User.limit User.maxSites 10 newOwner)%nat
    /\ pages d' = pages d /\ sections d' = sections d
    /\ answer (Reads.getSite id user) d' = Err (NotFoundError "Site not found")
    /\ answer (Reads.getSite id newOwner) d' = Ok site'
    /\ (forall p, In p (pages d') -> Page.siteId p = id ->
          canAccessPage user d' p = false /\ canAccessPage newOwner d' p = true).
Proof.
  intros d Hans d'.
  pose proof (reachable_ok rs) as (_ & (Hnds & _) & _). fold d in Hnds.
  unfold answer in Hans. unfold d', exec.
  destruct (transferOwnership_effect users id newOwnerId user d)
    as [[e He]|(site & newOwner & Hin & Hlive & Hid & Hown & Huin & Hnid & Hne & Hq & He)];
    rewrite He in *; [discriminate|].
  simpl in Hans. injection Hans as <-. simpl.
  set (site' := set_owner (User.id newOwner) site).
  set (T := Repo.save Site.id site' (sites d)).
  assert (HndT : List.NoDup (map Site.id T)) by (unfold T; now rewrite save_rids).
  assert (HinT : In site' T).
  { apply In_save. left. split; [reflexivity|]. exists site. auto. }
  assert (Hlive' : siteLive site' = true) by exact Hlive.
  assert (HrowT : forall s, In s T -> Site.id s = id -> s = site').
  { intros s Hs Hsid. apply (same_id_same_row Site.id T s site' HndT Hs HinT).
    simpl. congruence. }
  assert (Hcount_old : S (countSites user (set_sites T d)) = countSites user d).
  { pose proof (count_save Site.id Site.deletedAt
                  (fun s => Nat.eqb (Site.owner s) (User.id user))
                  site site' (sites d) Hnds Hin eq_refl) as H.
    unfold countSites. simpl. fold T in H.
    fold siteLive in H. rewrite Hlive, Hlive', Hown, Nat.eqb_refl in H.
    simpl in H. apply Nat.eqb_neq in Hne. rewrite Hne in H. simpl in H. lia. }
  assert (Hcount_new : countSites newOwner (set_sites T d) = S (countSites newOwner d)).
  { pose proof (count_save Site.id Site.deletedAt
                  (fun s => Nat.eqb (Site.owner s) (User.id newOwner))
                  site site' (sites d) Hnds Hin eq_refl) as H.
    unfold countSites. simpl. fold T in H.
    fold siteLive in H. rewrite Hlive, Hlive', Hown in H.
    simpl in H. rewrite Nat.eqb_refl in H.
    assert (Hne' : Nat.eqb (User.id user) (User.id newOwner) = false)
      by (apply Nat.eqb_neq; congruence).
    rewrite Hne' in H. simpl in H. lia. }
  exists newOwner.
  split; [exact Huin|]. split; [exact Hnid|]. split; [congruence|].
  split; [exact Hid|]. split; [exact Hnid|].
  split; [exact Hcount_old|]. split; [exact Hcount_new|].
  split; [rewrite Hcount_new; lia|].
  split; [reflexivity|]. split; [reflexivity|].
  split; [|split].
  - unfold answer, Reads.getSite. unfold_m. simpl. fold T.
    destruct (Repo.findOne Site.deletedAt _ T) as [s|] eqn:H; [|reflexivity].
    apply findOne_Some in H as (Hs & _ & Hw).
    apply andb_prop in Hw as [Hw1 Hw2]. apply Nat.eqb_eq in Hw1, Hw2.
    rewrite (HrowT s Hs Hw1) in Hw2. simpl in Hw2. congruence.
  - unfold answer, Reads.getSite. unfold_m. simpl. fold T.
    rewrite (findOne_unique Site.id Site.deletedAt _ site' T HndT HinT Hlive');
      [reflexivity| |].
    + simpl. now rewrite Hid, !Nat.eqb_refl.
    + intros q Hw. apply andb_prop in Hw as [Hw _]. apply Nat.eqb_eq in Hw.
      simpl. congruence.
  - intros p Hp Hsid. split.
    + destruct (canAccessPage user (set_sites T d) p) eqn:Hacc; [|reflexivity].
      apply canAccessPage_owner in Hacc as (s & Hs & _ & Hsid' & Hown').
      simpl in Hs. rewrite (HrowT s Hs) in Hown' by congruence.
      simpl in Hown'. congruence.
    + apply owner_canAccessPage with site'; auto. simpl. congruence.
Qed.

Lemma transferOwnership_moves_site_witness :
  let d := serve demo_requests Store.empty in
  let d' := exec (transferOwnership [alice; bob] 1 200 alice) d in
  exists site',
    answer (transferOwnership [alice; bob] 1 200 alice) d = Ok site'
    /\ Site.owner site' = 200%nat
    /\ S (countSites alice d') = countSites alice d
    /\ answer (Reads.getSite 1 alice) d' = Err (NotFoundError "Site not found").
Proof.
  intros d d'.
  destruct (answer (transferOwnership [alice; bob] 1 200 alice) d) as [site'|e] eqn:Hans;
    [|vm_compute in Hans; discriminate].
  exists site'. split; [reflexivity|].
  destruct (transferOwnership_moves_site demo_requests [alice; bob] 1 200 alice site' Hans)
    as (newOwner & _ & _ & _ & _ & Hown & Hcount & _ & _ & _ & _ & Hget & _).
  split; [exact Hown|]. split; [exact Hcount|exact Hget].
Defined.
End OwnershipFacts.

(* ===================================================================== *)
(** * Relations always load *)
(* ===================================================================== *)

Section NoTypeError.

Lemma joined_site_found d p :
  StoreOk d -> In p (pages d) ->
  List.find (fun s => Nat.eqb (Site.id s) (Page.siteId p)) (sites d) <> None.
Proof.
  intros (_ & _ & _ & Hpages & _) Hp Hnone.
  apply Hpages in Hp. apply in_map_iff in Hp as (s & Hid & Hs).
  pose proof (find_none _ _ Hnone s Hs) as Hf. cbv beta in Hf.
  rewrite Hid, Nat.eqb_refl in Hf. discriminate.
Qed.

Lemma joined_page_found d x :
  StoreOk d -> In x (sections d) ->
  List.find (fun p => Nat.eqb (Page.id p) (PageSection.pageId x)) (pages d) <> None.
Proof.
  intros (_ & _ & _ & _ & Hsecs) Hx Hnone.
  apply Hsecs in Hx. apply in_map_iff in Hx as (p & Hid & Hp).
  pose proof (find_none _ _ Hnone p Hp) as Hf. cbv beta in Hf.
  rewrite Hid, Nat.eqb_refl in Hf. discriminate.
Qed.

Lemma checkAccess_pages_kinds user d l :
  StoreOk d -> (forall p, In p l -> In p (pages d)) ->
  is_controller_error (thrown (fst (PageController.checkAccess user l d))) = true.
Proof.
  intros Hok. induction l as [|p l IH]; intros Hl; simpl; [reflexivity|].
  unfold_m.
  case_find Hj; [|exfalso; eapply joined_site_found; eauto; apply Hl; now left].
  case_findOne Hs; [|reflexivity].
  apply IH. intros q Hq. apply Hl. now right.
Qed.

Lemma sectionSite_loads user d x :
  StoreOk d -> In x (sections d) ->
  exists r, SectionController.sectionSite x user d = (Ok r, d).
Proof.
  intros Hok Hx. unfold SectionController.sectionSite. unfold_m.
  case_find Hp; [|exfalso; eapply joined_page_found; eauto].
  apply find_raw_Some in Hp as [Hp _].
  case_find Hj; [|exfalso; eapply joined_site_found; eauto].
  eauto.
Qed.

Lemma checkAccess_sections_kinds user d l :
  StoreOk d -> (forall x, In x l -> In x (sections d)) ->
  is_controller_error (thrown (fst (SectionController.checkAccess user l d))) = true.
Proof.
  intros Hok. induction l as [|x l IH]; intros Hl; simpl; [reflexivity|].
  unfold mbind, M_bind.
  destruct (sectionSite_loads user d x Hok (Hl x (or_introl eq_refl))) as [r ->].
  destruct r; [|reflexivity].
  apply IH. intros q Hq. apply Hl. now right.
Qed.

(** What a writing request can be rejected with in a store that is in
    order: an error of its controller; the unique violation of the
    database, for a request that creates a site or a page; or the missing
    delete date column, for the owner's request to delete a site. *)
Lemma write_error_kinds r d :
  StoreOk d ->
  is_controller_error (write_error r d) = true
  \/ (is_create r = true
      /\ exists slug, write_error r d = Some (uniqueViolation slug))
  \/ (write_error r d = Some (MissingDeleteDateColumnError "Site")
      /\ exists id user site,
           r = ReqDeleteSite id user /\ In site (sites d)
           /\ Site.id site = id /\ canAccessSite user site = true).
Proof.
  intros Hok.
  destruct r as [dto user rnd|id dto user rnd|id user
                |[dto user rnd|id dto user rnd|id user]|ids user
                |dto user|ids user|id user|id dto user|users id newOwnerId user];
    unfold write_error, answer.
  - rewrite createSite_eq.
    destruct (negb _); [left; reflexivity|].
    case_leb Hq; [left; reflexivity|].
    case_insert Hu; [right; left; split; [reflexivity|eauto]|].
    case_insert Hh; [right; left; split; [reflexivity|eauto]|left; reflexivity].
  - left. destruct (updateSite_shape id dto user rnd d) as [[e He]|(s & s' & -> & _)];
      [|reflexivity].
    revert He. unfold SiteController.updateSite. unfold_m.
    case_findOne Hs; [|intros [= <-]; reflexivity].
    destruct (SiteController.u_name dto) as [name|];
      [cbn [Site.name Site.set_name]; rewrite String.eqb_refl|]; discriminate.
  - rewrite deleteSite_eq. case_findOne Hs; [|left; reflexivity].
    right. right. split; [reflexivity|].
    apply findOne_Some in Hs as (Hin & Hlive & Hw).
    apply andb_prop in Hw as [Hid Hown]. apply Nat.eqb_eq in Hid.
    exists id, user, row. repeat split; auto.
    unfold canAccessSite, siteLive. now rewrite Hlive, Hown.
  - rewrite createPage_eq.
    destruct (negb _); [left; reflexivity|].
    case_findOne Hs; [|left; reflexivity].
    case_leb Hq; [left; reflexivity|].
    case_insert Hu; [right; left; split; [reflexivity|eauto]|left; reflexivity].
  - left. rewrite updatePage_eq.
    destruct (stored id d) as [page|] eqn:Hp; [|reflexivity].
    apply findOne_Some in Hp as (Hp & _).
    case_find Hj; [|exfalso; eapply joined_site_found; eauto].
    case_findOne Hs; reflexivity.
  - left. rewrite deletePage_eq.
    destruct (stored id d) as [page|] eqn:Hp; [|reflexivity].
    apply findOne_Some in Hp as (Hp & _).
    case_find Hj; [|exfalso; eapply joined_site_found; eauto].
    case_findOne Hs; reflexivity.
  - left. unfold PageController.reorderPages. unfold_m.
    destruct (Nat.eqb _ 0); [reflexivity|]. cbv beta iota.
    destruct (negb _); [reflexivity|]. cbv beta iota.
    pose proof (checkAccess_pages_kinds user d
                  (Repo.find Page.deletedAt
                     (fun p => existsb (Nat.eqb (Page.id p)) (default [] ids)) (pages d))
                  Hok) as H.
    destruct (checkAccess_pages user d
                (Repo.find Page.deletedAt
                   (fun p => existsb (Nat.eqb (Page.id p)) (default [] ids)) (pages d)))
      as (r & Hr & _).
    rewrite Hr in *. destruct r; [reflexivity|].
    apply H. intros p Hp. apply filter_In in Hp. tauto.
  - left. rewrite createSection_eq.
    destruct (negb _); [reflexivity|].
    destruct (stored _ d) as [page|] eqn:Hp; [|reflexivity].
    apply findOne_Some in Hp as (Hp & _).
    case_find Hj; [|exfalso; eapply joined_site_found; eauto].
    case_findOne Hs; reflexivity.
  - left. unfold SectionController.reorderSections. unfold_m.
    destruct (Nat.eqb _ 0); [reflexivity|]. cbv beta iota.
    destruct (negb _); [reflexivity|]. cbv beta iota.
    pose proof (checkAccess_sections_kinds user d
                  (Repo.find PageSection.deletedAt
                     (fun s => existsb (Nat.eqb (PageSection.id s)) (default [] ids))
                     (sections d))
                  Hok) as H.
    destruct (checkAccess_sections user d
                (Repo.find PageSection.deletedAt
                   (fun s => existsb (Nat.eqb (PageSection.id s)) (default [] ids))
                   (sections d)))
      as (r & Hr & _).
    rewrite Hr in *. destruct r; [reflexivity|].
    apply H. intros x Hx. apply filter_In in Hx. tauto.
  - left. unfold SectionController.deleteSection. unfold mbind, M_bind.
    unfold findSection, gets.
    destruct (Repo.findOne PageSection.deletedAt _ (sections d)) as [x|] eqn:Hx;
      [|reflexivity].
    apply findOne_Some in Hx as (Hx & _).
    destruct (sectionSite_loads user d x Hok Hx) as [r ->].
    destruct r; [|reflexivity].
    unfold_m.
    case_find Hp; [|exfalso; eapply joined_page_found; eauto].
    now rewrite countSections_zero.
  - left. unfold SectionUpdate.updateSection. unfold mbind, M_bind.
    unfold findSection, gets.
    destruct (Repo.findOne PageSection.deletedAt _ (sections d)) as [x|] eqn:Hx;
      [|reflexivity].
    apply findOne_Some in Hx as (Hx & _).
    destruct (sectionSite_loads user d x Hok Hx) as [r ->].
    destruct r; reflexivity.
  - left. destruct (transferOwnership_effect users id newOwnerId user d)
      as [[e He]|(s & u & _ & _ & _ & _ & _ & _ & _ & _ & ->)]; [|reflexivity].
    revert He. unfold Ownership.transferOwnership. unfold_m.
    case_findOne Hs; [|intros [= <-]; reflexivity].
    destruct (List.find _ users) as [newOwner|]; cbv beta iota;
      [|intros [= <-]; reflexivity].
    destruct (Nat.eqb (User.id newOwner) (User.id user)); cbv beta iota;
      [intros [= <-]; reflexivity|].
    case_leb Hq; [intros [= <-]; reflexivity|discriminate].
Qed.

Lemma read_error_kinds r d : StoreOk d -> is_controller_error (read_error r d) = true.
Proof.
  intros Hok. destruct r as [id user|id user|id user]; unfold read_error, answer.
  - unfold Reads.getSite. unfold_m. case_findOne Hs; reflexivity.
  - rewrite getPage_outcome.
    destruct (stored id d) as [page|] eqn:Hp; [|reflexivity].
    apply findOne_Some in Hp as (Hp & _).
    case_find Hj; [|exfalso; eapply joined_site_found; eauto].
    case_findOne Hs; reflexivity.
  - unfold Reads.getSection. unfold mbind, M_bind. unfold findSection, gets.
    destruct (Repo.findOne PageSection.deletedAt _ (sections d)) as [x|] eqn:Hx;
      [|reflexivity].
    apply findOne_Some in Hx as (Hx & _).
    destruct (sectionSite_loads user d x Hok Hx) as [r ->].
    destruct r; reflexivity.
Qed.

Lemma controller_error_loads e : is_controller_error e = true -> is_type_error e = false.
Proof. destruct e as [[]|]; simpl; congruence. Qed.

Lemma write_loads r d : StoreOk d -> is_type_error (write_error r d) = false.
Proof.
  intros Hok.
  destruct (write_error_kinds r d Hok) as [H|[(_ & slug & ->)|(-> & _)]];
    [now apply controller_error_loads|reflexivity|reflexivity].
Qed.

Lemma read_loads r d : StoreOk d -> is_type_error (read_error r d) = false.
Proof. intros Hok. now apply controller_error_loads, read_error_kinds. Qed.

(** X24. No request fails on a relation that did not load. The handlers
    read [page.site.id] and [section.page.site.id] without a null check.
    In any store reached from the empty one every page row has its site
    row and every section row its page row, so none of the twelve writing
    and three reading handlers throws the [TypeError] of a property read on
    [null]. *)
Theorem relations_always_load (rs : list Request) :
  let d := serve rs Store.empty in
  (forall r, is_type_error (write_error r d) = false)
  /\ (forall r, is_type_error (read_error r d) = false).
Proof.
  intros d. split; intros r; [apply write_loads|apply read_loads]; apply reachable_ok.
Qed.
End NoTypeError.

(* ===================================================================== *)
(** * The error handler *)
(* ===================================================================== *)

Section ErrorHandler.
Import ErrorMiddleware.

(** X25. What the client sees of an error. Whatever is thrown, the body
    has [success: false]; in production it carries neither [stack] nor
    [error], and an error of no known kind is answered with status 500 and
    the fixed message "Internal server error". The guards differ between
    the branches: when [NODE_ENV] is neither "production" nor
    "development", the known kinds of error expose nothing, but the
    fallback branch sends both the message and the stack. *)
Theorem errorHandler_exposure (env : option string) (err : Thrown) :
  success (snd (errorHandler env err)) = false
  /\ (env = Some "production" ->
      stack (snd (errorHandler env err)) = None
      /\ error (snd (errorHandler env err)) = None)
  /\ (env <> Some "development" ->
      (stack (snd (errorHandler env err)) <> None
       \/ error (snd (errorHandler env err)) <> None) ->
      env <> Some "production"
      /\ exists name msg stk code detail,
           err = ThrownOther name msg stk code detail
           /\ errorHandler env err
              = (500, mkBody false (or_string (Some msg) "Something went wrong") None
                        (Some (StackText stk)) (Some msg)))
  /\ (forall name msg stk,
        errorHandler (Some "production") (ThrownOther name msg stk None None)
        = if String.eqb name "JsonWebTokenError" || String.eqb name "TokenExpiredError"
          then (401, mkBody false "Invalid or expired token" None None None)
          else (500, mkBody false "Internal server error" None None None)).
Proof.
  assert (Hdev : env <> Some "development" -> env_is env "development" = false).
  { intros H. destruct env as [s|]; [|reflexivity]. simpl.
    destruct (String.eqb_spec s "development"); [congruence|reflexivity]. }
  assert (Hprod : env_is env "production" = true <-> env = Some "production").
  { destruct env as [s|]; simpl; [|split; discriminate].
    destruct (String.eqb_spec s "production"); split; congruence. }
  split; [|split; [|split]].
  - destruct err; simpl; auto.
    destruct (_ || _); [reflexivity|].
    destruct (_ && _); [reflexivity|].
    destruct (_ && _); reflexivity.
  - intros ->. destruct err; simpl; auto.
    destruct (_ || _); [auto|].
    destruct (_ && _); [auto|].
    destruct (_ && _); auto.
  - intros Hnd Hexp. specialize (Hdev Hnd).
    destruct err as [c m e s|f r|c m s|name msg stk code detail];
      unfold errorHandler in *; rewrite Hdev in *; simpl in Hexp;
      try (destruct Hexp as [H|H]; congruence).
    destruct (_ || _); [simpl in Hexp; destruct Hexp as [H|H]; congruence|].
    destruct (_ && _); [simpl in Hexp; destruct Hexp as [H|H]; congruence|].
    destruct (_ && _); [simpl in Hexp; destruct Hexp as [H|H]; congruence|].
    destruct (env_is env "production") eqn:Hp;
      [simpl in Hexp; destruct Hexp as [H|H]; congruence|].
    split.
    + intros He. apply Hprod in He. congruence.
    + exists name, msg, stk, code, detail. split; reflexivity.
  - intros name msg stk. simpl.
    destruct (_ || _); [reflexivity|].
    now rewrite !andb_false_r.
Qed.

Lemma errorHandler_exposure_witness :
  stack (snd (errorHandler (Some "production")
                (ThrownOther "TypeError" "Cannot read properties of null (reading 'id')"
                   "TypeError: at PageController.updatePage" None None))) = None
  /\ error (snd (errorHandler (Some "production")
                   (ThrownOther "TypeError" "Cannot read properties of null (reading 'id')"
                      "TypeError: at PageController.updatePage" None None))) = None.
Proof.
  exact (proj1 (proj2 (errorHandler_exposure (Some "production")
                         (ThrownOther "TypeError"
                            "Cannot read properties of null (reading 'id')"
                            "TypeError: at PageController.updatePage" None None)))
           eq_refl).
Defined.


End ErrorHandler.

(* ===================================================================== *)
(** * The slugs that are stored *)
(* ===================================================================== *)

Section StoredSlugs.
Import Slug.

Lemma string_forall_append f (a b : string) :
  string_forall f (a ++ b)%string = string_forall f a && string_forall f b.
Proof.
  induction a as [|c a IH]; simpl; [reflexivity|].
  now rewrite IH, andb_assoc.
Qed.

Lemma string_forall_impl (f g : ascii -> bool) s :
  (forall c, f c = true -> g c = true) ->
  string_forall f s = true -> string_forall g s = true.
Proof.
  intros Hfg. induction s as [|c s IH]; simpl; [reflexivity|].
  intros H. apply andb_prop in H as [Hc Hs]. now rewrite (Hfg c Hc), IH.
Qed.

Lemma base36_url_safe c : is_base36 c = true -> is_slug_char_or_underscore c = true.
Proof.
  destruct c as [[] [] [] [] [] [] [] []]; vm_compute; auto.
Qed.

Lemma with_suffix_url_safe slug rnd m :
  random_text rnd = true -> url_safe slug = true ->
  url_safe (with_suffix slug (substring 2 m rnd)) = true.
Proof.
  intros Hrnd Hslug. unfold url_safe, with_suffix in *.
  rewrite !string_forall_append, Hslug. simpl.
  apply (string_forall_impl is_base36); [exact base36_url_safe|].
  now apply random_suffix_base36.
Qed.

(** A request whose random text is well formed keeps the stored slugs
    within [[a-z0-9_-]]. *)
Lemma handle_slugs r d :
  creates_rnd_ok r = true -> SlugsOk d -> SlugsOk (handle r d).
Proof.
  intros Hrnd [Hsites Hpages].
  destruct r as [dto user rnd|id dto user rnd|id user
                |[dto user rnd|id dto user rnd|id user]|ids user
                |dto user|ids user|id user|id dto user|users id newOwnerId user];
    unfold handle, step, exec; simpl in Hrnd.
  - assert (Hnew : url_safe (Site.slug (new_site dto user rnd d)) = true).
    { cbn [new_site Site.slug]. unfold site_slug.
      destruct (SiteController.slugTaken _ _ _);
        [apply with_suffix_url_safe; [exact Hrnd|]|]; apply generateSlug_alphabet. }
    destruct (createSite_effect dto user rnd d)
      as [[e ->]|(_ & _ & _ & [[_ ->]|[_ ->]])]; [split; assumption| |];
      cbn [fst snd].
    + split; [|exact Hpages]. cbn [sites]. intros s Hin.
      apply in_app_iff in Hin as [Hin|[<-|[]]]; auto.
    + split; cbn [sites pages].
      * intros s Hin. apply in_app_iff in Hin as [Hin|[<-|[]]]; auto.
      * intros p Hin. apply in_app_iff in Hin as [Hin|[<-|[]]]; auto.
  - destruct (updateSite_shape id dto user rnd d)
      as [[e ->]|(site & site' & -> & Hin & _ & _ & _ & _ & _ & _ & Hslug)];
      [split; assumption|].
    split; [|exact Hpages]. simpl. intros s Hs.
    apply In_save in Hs as [[-> _]|[Hs _]]; [|auto].
    rewrite Hslug. auto.
  - destruct (deleteSite_rejects id user d) as [e ->]. split; assumption.
  - destruct (createPage_effect dto user rnd d)
      as [[e ->]|(site & newp & _ & _ & _ & _ & _ & _ & -> & -> & _)];
      [split; assumption|].
    split; [exact Hsites|]. cbn [fst snd pages]. intros p Hp.
    apply in_app_iff in Hp as [Hp|[<-|[]]]; [auto|].
    cbn [new_page Page.slug]. apply generateSlug_alphabet.
  - destruct (updatePage_effect id dto user rnd d)
      as [[e ->]|(page & site & Hst & _ & _ & _ & _ & ->)]; [split; assumption|].
    apply findOne_Some in Hst as (Hin & _).
    split; [exact Hsites|]. simpl. intros p Hp.
    apply In_save in Hp as [[-> _]|[Hp _]]; [rewrite updated_page_slug|]; auto.
  - destruct (deletePage_rejects id user d) as [e ->]. split; assumption.
  - destruct ids as [ids|]; [|split; assumption].
    destruct (reorderPages_outcome ids user d) as [_ He].
    unfold exec in He. rewrite He.
    destruct (reorder_accepts _ _ _ ids (pages d)); [|split; assumption].
    split; [exact Hsites|]. simpl. intros p Hp.
    unfold PageController.writeOrders in Hp. rewrite writeOrders_map in Hp.
    apply in_map_iff in Hp as (p0 & <- & Hp0).
    rewrite (assignOrder_keeps Page.id Page.set_order Page.slug) by reflexivity.
    auto.
  - destruct (createSection_effect dto user d)
      as [[e ->]|(page & x & _ & _ & _ & -> & _)]; split; assumption.
  - destruct ids as [ids|]; [|split; assumption].
    destruct (reorderSections_outcome ids user d) as [_ He].
    unfold exec in He. rewrite He.
    destruct (reorder_accepts _ _ _ ids (sections d)); split; assumption.
  - destruct (deleteSection_rejects id user d) as [e ->]. split; assumption.
  - destruct (updateSection_effect id dto user d)
      as [[e ->]|(section & _ & _ & ->)]; split; assumption.
  - destruct (transferOwnership_effect users id newOwnerId user d)
      as [[e ->]|(site & newOwner & Hin & _ & _ & _ & _ & _ & _ & _ & ->)];
      [split; assumption|].
    split; [|exact Hpages]. simpl. intros s Hs.
    apply In_save in Hs as [[-> _]|[Hs _]]; [simpl|]; auto.
Qed.

(** X27. Every stored slug can stand in a URL as it is. In any store
    reached from the empty one by requests whose random texts are of the
    form [Math.random().toString(36)] produces, the slug of every site row
    and of every page row consists of characters in [[a-z0-9_-]] only:
    the slugs are generated or suffixed at creation and no later request
    rewrites them. *)
Theorem stored_slugs_url_safe (rs : list Request) :
  forallb creates_rnd_ok rs = true ->
  let d := serve rs Store.empty in
  (forall s, In s (sites d) -> url_safe (Site.slug s) = true)
  /\ (forall p, In p (pages d) -> url_safe (Page.slug p) = true).
Proof.
  intros Hrs.
  assert (H : forall d0, SlugsOk d0 -> SlugsOk (serve rs d0)).
  { induction rs as [|r rs IH]; intros d0 Hd0; simpl; [exact Hd0|].
    simpl in Hrs. apply andb_prop in Hrs as [Hr Hrs].
    apply (IH Hrs). now apply handle_slugs. }
  apply H. split; intros x [].
Qed.

Lemma stored_slugs_url_safe_witness :
  forallb creates_rnd_ok demo_requests = true
  /\ map Site.slug (sites (serve demo_requests Store.empty)) = ["demo"; "solo"]%string
  /\ forall p, In p (pages (serve demo_requests Store.empty)) ->
               url_safe (Page.slug p) = true.
Proof.
  assert (H : forallb creates_rnd_ok demo_requests = true) by reflexivity.
  split; [exact H|]. split; [reflexivity|].
  exact (proj2 (stored_slugs_url_safe demo_requests H)).
Defined.

(** X28. A page never gets a suffix, and page slugs collide across
    sites. [createPage] looks the generated slug up with the site named
    by its id, which finds no page: an accepted page is always stored
    under the slug generated from its title, and that slug was held by no
    page of any site. When a page of any site holds the generated slug,
    the request is rejected and nothing is written. The title "Blog" on
    the site of [bob] is refused with the unique violation of the
    database, "blog" being the slug of a page of the site of [alice]. *)
Theorem page_slug_collision_refused (d : DB) (dto : PageController.CreatePageDto)
    (user : User.t) (rnd : string) :
  (forall page d',
     PageController.createPage dto user rnd d = (Ok page, d') ->
     Page.slug page = generateSlug (PageController.c_title dto)
     /\ ~ In (Page.slug page) (map Page.slug (pages d)))
  /\ (In (generateSlug (PageController.c_title dto)) (map Page.slug (pages d)) ->
      exists e, PageController.createPage dto user rnd d = (Err e, d))
  /\ map (fun p => (Page.slug p, Page.siteId p)) (pages demo_full)
     = [("home", 1); ("blog", 1); ("about-us", 1); ("start", 8)]%string%nat
  /\ PageController.createPage
       (PageController.mkCreate "Blog" None None None None None 8) bob rnd demo_full
     = (Err (uniqueViolation "blog"), demo_full).
Proof.
  split; [|split; [|split; [reflexivity|]]].
  - intros page d' He.
    destruct (createPage_effect dto user rnd d)
      as [[e He']|(site & newp & _ & _ & _ & _ & _ & _ & He' & Hp & Hfree)];
      rewrite He' in He; [discriminate|].
    injection He as <- _. split; [now rewrite Hp|exact Hfree].
  - intros Hheld.
    destruct (createPage_effect dto user rnd d)
      as [He|(site & newp & _ & _ & _ & _ & _ & _ & _ & Hp & Hfree)]; [exact He|].
    exfalso. apply Hfree. now rewrite Hp.
  - rewrite createPage_eq. reflexivity.
Qed.
End StoredSlugs.
